(** * prisoners-scraper: the scraper and the transformer of [main.py]

    A shallow embedding of [main.py]: the paginated extraction loop of
    [DynamicPrisonerScraper], the pandas transformations of
    [PrisonerDataTransformer], and the three module-level functions
    [scrap_data], [transform_data] and [main].

    Conventions.
    - A Python [str] is the list of its code points ([list N]); literals are
      written as UTF-8 text and decoded by [u].
    - Canonical field identifiers and column names (ASCII literals of the
      source) are Rocq strings.
    - A cell of a pandas column is a [value]: absent ([None] or [NaN]), a
      text, or a number.
    - Code that can raise returns a [result]; code that touches the browser,
      the file system or the log threads a [world]. *)

From Stdlib Require Import ZArith NArith String Ascii List Bool Lia DecimalN.
From stdpp Require Import gmap strings list.

Local Open Scope Z_scope.

(** ** Python strings *)

Abbreviation str := (list N).

(** The code points of a UTF-8 byte sequence: [pending] holds the bits read
    of a multi-byte character that still expects [more] continuation bytes. *)
Fixpoint utf8_decode (pending : N) (more : nat) (bs : list N) : str :=
  match bs with
  | [] => []
  | b :: bs' =>
      match more with
      | S k =>
          let cp := (pending * 64 + b mod 64)%N in
          match k with
          | O => cp :: utf8_decode 0%N O bs'
          | S _ => utf8_decode cp k bs'
          end
      | O =>
          if (b <? 128)%N then b :: utf8_decode 0%N O bs'
          else if (b <? 224)%N then utf8_decode (b mod 32)%N 1%nat bs'
          else if (b <? 240)%N then utf8_decode (b mod 16)%N 2%nat bs'
          else utf8_decode (b mod 8)%N 3%nat bs'
      end
  end.

(** A source literal as a Python string. *)
Definition u (s : string) : str :=
  utf8_decode 0%N O (map N_of_ascii (list_ascii_of_string s)).

(** The double quote, which several Hebrew abbreviations contain. *)
Definition dq : str := [34%N].

Definition comma : N := 44%N.

(** [str.isspace] on one character (CPython's [_PyUnicode_IsWhitespace]). *)
Definition is_space (c : N) : bool :=
  ((9 <=? c) && (c <=? 13) || (28 <=? c) && (c <=? 32)
   || (c =? 133) || (c =? 160) || (c =? 5760)
   || (8192 <=? c) && (c <=? 8202)
   || (c =? 8232) || (c =? 8233) || (c =? 8239) || (c =? 8287)
   || (c =? 12288))%N.

Fixpoint lstrip (s : str) : str :=
  match s with
  | [] => []
  | c :: s' => if is_space c then lstrip s' else s
  end.

Definition rstrip (s : str) : str := rev (lstrip (rev s)).

(** [s.strip()] *)
Definition strip (s : str) : str := rstrip (lstrip s).

(** [s.split(sep)] for a one-character separator and no limit: every
    occurrence of [sep] cuts, and there is always at least one piece. *)
Fixpoint split (sep : N) (s : str) : list str :=
  match s with
  | [] => [[]]
  | c :: s' =>
      if (c =? sep)%N then [] :: split sep s'
      else match split sep s' with
           | [] => [[c]]
           | p :: ps => (c :: p) :: ps
           end
  end.

(** [sep.join(pieces)] *)
Fixpoint join (sep : N) (pieces : list str) : str :=
  match pieces with
  | [] => []
  | [p] => p
  | p :: ps => p ++ sep :: join sep ps
  end.

(** ** Values, exceptions, results *)

(** A cell of a column. [Float lit] is the [float64] that pandas' number
    parser reads from the text [lit]: the nearest one when [lit] writes an
    integer that has no [float64] of its own. The floating-point value itself
    is not modelled. *)
Inductive value : Type :=
  | NA
  | Text (s : str)
  | Int (z : Z)
  | Float (lit : str).

(** [pd.isna] *)
Definition isna (v : value) : bool :=
  match v with NA => true | _ => false end.

Definition is_text (v : value) : bool :=
  match v with Text _ => true | _ => false end.

(** The key of a failed lookup: a column name, or a position in the frame
    that [str.split(expand=True)] returns. *)
Inductive key : Type :=
  | KName (name : string)
  | KPos (pos : nat).

(** The exceptions of the program; all of them are subclasses of Python's
    [Exception]. *)
Inductive exn : Type :=
  | KeyError (k : key)
  | AttributeError
  | FileNotFoundError
  | IsADirectoryError
  | NotADirectoryError
  | OSError
  | ReadError
  | PlaywrightError
  | TimeoutError.

Inductive result (A : Type) : Type :=
  | Ok (a : A)
  | Raise (e : exn).
Arguments Ok {A} a.
Arguments Raise {A} e.

#[global] Instance result_ret : MRet result := fun A a => Ok a.

#[global] Instance result_bind : MBind result := fun A B k r =>
  match r with
  | Ok a => k a
  | Raise e => Raise e
  end.

Definition raises {A} (r : result A) : bool :=
  match r with Ok _ => false | Raise _ => true end.

(** ** Data frames *)

Abbreviation column := (list value).

(** A [DataFrame]: its columns in order, each with its name. The columns of
    one frame have the same length. *)
Abbreviation frame := (list (string * column)).

(** [df[name]] *)
Fixpoint getitem (df : frame) (name : string) : result column :=
  match df with
  | [] => Raise (KeyError (KName name))
  | (n, c) :: df' => if String.eqb n name then Ok c else getitem df' name
  end.

(** [df[name] = c]: an existing column is replaced where it stands, a new
    one is appended. *)
Fixpoint setitem (df : frame) (name : string) (c : column) : frame :=
  match df with
  | [] => [(name, c)]
  | (n, c0) :: df' =>
      if String.eqb n name then (n, c) :: df'
      else (n, c0) :: setitem df' name c
  end.

Definition has_column (df : frame) (name : string) : bool :=
  existsb (fun p => String.eqb p.1 name) df.

(** [df.drop(name, axis=1)] *)
Definition drop (df : frame) (name : string) : result frame :=
  if has_column df name
  then Ok (List.filter (fun p => negb (String.eqb p.1 name)) df)
  else Raise (KeyError (KName name)).

(** [len(df)] *)
Definition frame_len (df : frame) : nat :=
  match df with
  | [] => O
  | (_, c) :: _ => length c
  end.

(** [series.apply(f)] *)
Definition apply (f : value -> value) (c : column) : column := map f c.

(** The [.str] accessor, on a column as [read_csv] builds it. pandas
    decides by the type of the column, which [read_csv] infers from the
    cells: a column with rows and no text in it is numeric ([float64] when
    every cell is absent) and is refused, while a column with a text, or
    without rows, has the [object] type. A column of the [object] type that
    holds only [None], which a caller can build by hand and which the
    accessor accepts, is not among the columns of the model. *)
Definition str_accessor (c : column) : result column :=
  if Nat.eqb (length c) 0 || existsb is_text c then Ok c
  else Raise AttributeError.

(** [series.str.strip()]: a cell that is not a text becomes absent. *)
Definition str_strip (c : column) : result column :=
  s ← str_accessor c;
  Ok (map (fun v => match v with Text t => Text (strip t) | _ => NA end) s).

(** One row of [series.str.split(',')]: the pieces of a text, nothing for a
    cell that is not a text. *)
Definition split_row (v : value) : option (list str) :=
  match v with
  | Text s => Some (split comma s)
  | _ => None
  end.

(** The length of a row of the split: an absent row is the list [[nan]]. *)
Definition row_width (r : option (list str)) : nat :=
  match r with
  | Some ps => length ps
  | None => 1%nat
  end.

(** The number of columns of the expanded frame: the longest row. *)
Definition expand_width (rows : list (option (list str))) : nat :=
  foldr Nat.max O (map row_width rows).

(** The cell of a row in column [k]: a row that is too short is padded with
    [None], an absent row is absent everywhere. *)
Definition expand_cell (k : nat) (r : option (list str)) : value :=
  match r with
  | Some ps => match ps !! k with
               | Some p => Text p
               | None => NA
               end
  | None => NA
  end.

(** [series.str.split(',', expand=True)]: the columns [0 .. width-1]. *)
Definition str_split_expand (c : column) : list column :=
  let rows := map split_row c in
  map (fun k => map (expand_cell k) rows) (seq 0 (expand_width rows)).

(** [split_data[k]] on the expanded frame. *)
Definition expanded_getitem (split_data : list column) (k : nat) : result column :=
  match split_data !! k with
  | Some c => Ok c
  | None => Raise (KeyError (KPos k))
  end.

(** ** Numbers and dates *)

Definition digit_value (c : N) : option Z :=
  if ((48 <=? c) && (c <=? 57))%N then Some (Z.of_N c - 48) else None.

(** The value of a non-empty run of ASCII digits, most significant first. *)
Fixpoint digits_value (acc : Z) (s : str) : option Z :=
  match s with
  | [] => Some acc
  | c :: s' =>
      match digit_value c with
      | Some d => digits_value (10 * acc + d) s'
      | None => None
      end
  end.

Definition unsigned_literal (s : str) : option Z :=
  match s with
  | [] => None
  | _ => digits_value 0 s
  end.

(** A plain integer: an optional sign and ASCII digits. *)
Definition int_literal (s : str) : option Z :=
  match s with
  | [] => None
  | c :: s' =>
      if (c =? 45)%N then Z.opp <$> unsigned_literal s'
      else if (c =? 43)%N then unsigned_literal s'
      else unsigned_literal s
  end.


(** A calendar date, as [Timestamp.strftime] reads it. *)
Record date : Type := { year : Z; month : Z; day : Z }.

(** The reading of the system clock: the date of [Timestamp.now()] and of
    [Timestamp.today()]. *)
Record clock : Type := { clock_now : date; clock_today : date }.

Fixpoint uint_digits (d : Decimal.uint) : str :=
  match d with
  | Decimal.Nil => []
  | Decimal.D0 d' => 48%N :: uint_digits d'
  | Decimal.D1 d' => 49%N :: uint_digits d'
  | Decimal.D2 d' => 50%N :: uint_digits d'
  | Decimal.D3 d' => 51%N :: uint_digits d'
  | Decimal.D4 d' => 52%N :: uint_digits d'
  | Decimal.D5 d' => 53%N :: uint_digits d'
  | Decimal.D6 d' => 54%N :: uint_digits d'
  | Decimal.D7 d' => 55%N :: uint_digits d'
  | Decimal.D8 d' => 56%N :: uint_digits d'
  | Decimal.D9 d' => 57%N :: uint_digits d'
  end.

(** The decimal digits of a natural number. *)
Definition decimal (z : Z) : str := uint_digits (N.to_uint (Z.to_N z)).

(** Left-pad with the digit zero to [width] characters. *)
Definition zfill (width : nat) (s : str) : str :=
  replicate (width - length s) 48%N ++ s.

(** [d.strftime('%Y-%m-%d')]; a [Timestamp] lies between the years 1677 and
    2262, so the year has four digits. *)
Definition strftime (d : date) : str :=
  zfill 4 (decimal (year d)) ++ [45%N] ++ zfill 2 (decimal (month d))
  ++ [45%N] ++ zfill 2 (decimal (day d)).

(** ** Statistics and files *)

#[global] Instance value_eq_dec : EqDecision value.
Proof. solve_decision. Defined.

Fixpoint count_into (v : value) (acc : list (value * nat)) : list (value * nat) :=
  match acc with
  | [] => [(v, 1%nat)]
  | (w, n) :: acc' =>
      if bool_decide (w = v) then (w, S n) :: acc'
      else (w, n) :: count_into v acc'
  end.

(** [series.value_counts().to_dict()]: the number of occurrences of each
    value that is not absent. The entries stand in order of first occurrence
    (pandas lists them by decreasing count). *)
Definition value_counts (c : column) : list (value * nat) :=
  foldl (fun acc v => if isna v then acc else count_into v acc) [] c.

(** The dictionary that [validate_data] returns. [age_stats] holds the ages
    that [describe()] summarises, the absent ones left out; the
    floating-point summary itself is not modelled. *)
Record stats : Type := {
  total_records : nat;
  null_values : list (string * nat);
  value_distributions : list (string * list (value * nat));
  age_stats : column
}.

(** What the program writes: the CSV rendering of a frame, or the markdown
    report of the statistics. *)
Inductive file : Type :=
  | CsvOf (df : frame)
  | ReportOf (s : stats).

(** The parsers of pandas that the program calls and that are not modelled
    further: which non-integer texts [to_numeric] reads as a float; what
    [to_datetime] makes of a value other than the texts [now] and [today]
    (the parser it falls back on completes a two-digit year from the current
    year, so it is given the clock); and the frame [read_csv] infers from a
    file, or the exception it raises. *)
Record pandas : Type := {
  is_float_text : str -> bool;
  parse_datetime : clock -> value -> option date;
  read_csv : file -> result frame
}.

(** What the number parser makes of one cell: an integer and the text
    that writes it, a text read as a float, or nothing. *)
Inductive numeral : Type :=
  | Integer (z : Z) (lit : str)
  | Floating (lit : str)
  | NotANumber.

(** The decimal writing of an integer. *)
Definition literal (z : Z) : str :=
  if z <? 0 then 45%N :: decimal (- z) else decimal z.

Definition read_numeral (pd : pandas) (v : value) : numeral :=
  match v with
  | Text s =>
      match int_literal s with
      | Some z => Integer z s
      | None => if is_float_text pd s then Floating s else NotANumber
      end
  | Int z => Integer z (literal z)
  | Float lit => Floating lit
  | NA => NotANumber
  end.

(** A cell that makes the whole column [float64]: one that is not an
    integer, or an integer below [int64] or above [uint64]. *)
Definition forces_float (n : numeral) : bool :=
  match n with
  | Integer z _ => (z <? - 2 ^ 63) || (2 ^ 64 - 1 <? z)
  | _ => true
  end.

(** A negative integer of [int64], and an integer that only [uint64] holds. *)
Definition is_sint (n : numeral) : bool :=
  match n with
  | Integer z _ => (- 2 ^ 63 <=? z) && (z <? 0)
  | _ => false
  end.

Definition is_uint (n : numeral) : bool :=
  match n with
  | Integer z _ => (2 ^ 63 - 1 <? z) && (z <=? 2 ^ 64 - 1)
  | _ => false
  end.

(** Whether the converted column is [float64]: some cell forces it, or the
    column mixes negative integers with integers that only [uint64] holds. *)
Definition float_column (ns : list numeral) : bool :=
  existsb forces_float ns || (existsb is_uint ns && existsb is_sint ns).

Definition as_float (n : numeral) : value :=
  match n with
  | Integer _ lit => Float lit
  | Floating lit => Float lit
  | NotANumber => NA
  end.

Definition as_integer (n : numeral) : value :=
  match n with
  | Integer z _ => Int z
  | _ => NA
  end.

(** [pd.to_numeric(series, errors='coerce')]: the column is converted as a
    whole. It stays integral ([int64], or [uint64] above it) only when every
    cell is an integer that fits; otherwise it becomes [float64], every
    integer is replaced by the float read from its text, and what is not a
    number becomes absent. *)
Definition to_numeric (pd : pandas) (c : column) : column :=
  let ns := map (read_numeral pd) c in
  if float_column ns then map as_float ns else map as_integer ns.

(** [pd.to_datetime(x)] on one cell, as a date; [None] when it raises or
    yields [NaT], whose [strftime] raises. *)
Definition to_datetime (pd : pandas) (clk : clock) (v : value) : option date :=
  match v with
  | Text s =>
      if bool_decide (s = u "now") then Some (clock_now clk)
      else if bool_decide (s = u "today") then Some (clock_today clk)
      else parse_datetime pd clk v
  | _ => parse_datetime pd clk v
  end.

(** ** The mapping tables *)

(** [field_mapping]: Hebrew labels to canonical identifiers. *)
Definition field_mapping : gmap str string :=
list_to_map
  [ (u "שם מלא", "full_name"%string);
    (u "מספר אסיר, מספר ת" ++ dq ++ u "ז (סוג ת" ++ dq ++ u "ז)", "prisoner_id"%string);
    (u "מגדר, גיל, אזור מגורים", "demographics"%string);
    (u "תאריך לידה", "birth_date"%string);
    (u "שיוך ארגוני", "organization"%string);
    (u "אזרחות ישראלית", "israeli_citizenship"%string);
    (u "עצור או שפוט", "status"%string);
    (u "משך תקופת מאסר לשפוטים (בתצוגה של ימים-חודשים-שנים)", "sentence_duration"%string);
    (u "תאריך מעצר", "arrest_date"%string);
    (u "עבירות", "offenses"%string);
    (u "ערכאת השיפוט", "court"%string);
    (u "מספר תיק פל" ++ dq ++ u "א או פ.א", "case_number"%string);
    (u "מספר תיק בית משפט", "court_file_number"%string);
    (u "האם מיועד או מיועדת לגירוש?", "deportation_status"%string) ].

Module PrisonerDataTransformer.

Definition organization_pairs : list (str * str) :=
  [ (u "חמאס", u "HAMAS");
    (u "פת" ++ dq ++ u "ח", u "FATAH");
    (u "ג'יהאד אסלאמי", u "ISLAMIC JIHAD");
    (u "ללא", u "NONE");
    (u "חז" ++ dq ++ u "ד", u "DFLP");
    (u "חז" ++ dq ++ u "ע", u "PFLP");
    (u "דאע" ++ dq ++ u "ש", u "ISIS") ].

Definition citizenship_pairs : list (str * str) :=
  [ (u "לא", u "NO"); (u "כן", u "YES") ].

Definition status_pairs : list (str * str) :=
  [ (u "שפוט", u "JUDGED");
    (u "עצור מנהלי", u "ADMINISTRATIVE DETENTION");
    (u "עצור", u "DETAINED") ].

Definition court_pairs : list (str * str) :=
  [ (u "בית משפט צבאי", u "MILITARY");
    (u "בית משפט אזרחי", u "CIVILIAN") ].

Definition deportation_pairs : list (str * str) :=
  [ (u "לא", u "NO DEPORTATION");
    (u "כן, גירוש לצמיתות", u "PERMANENT DEPORTATION");
    (u "כן, גירוש מותנה", u "CONDITIONNAL DEPORTATION") ].

Definition gender_pairs : list (str * str) :=
  [ (u "זכר", u "MALE"); (u "נקבה", u "FEMALE") ].

Definition residence_pairs : list (str * str) :=
  [ (u "יהודה", u "JUDEA");
    (u "רצ" ++ dq ++ u "ע", u "GAZA STRIP");
    (u "שומרון", u "SAMARIA");
    (u "י-ם", u "JERUSALEM");
    (u "חו" ++ dq ++ u "ל", u "ABROAD");
    (u "קו ירוק", u "GREEN LINE") ].

(** The dictionaries built in [__init__]. *)
Definition organization_mapping : gmap str str := list_to_map organization_pairs.
Definition citizenship_mapping : gmap str str := list_to_map citizenship_pairs.
Definition status_mapping : gmap str str := list_to_map status_pairs.
Definition court_mapping : gmap str str := list_to_map court_pairs.
Definition deportation_mapping : gmap str str := list_to_map deportation_pairs.
Definition gender_mapping : gmap str str := list_to_map gender_pairs.
Definition residence_mapping : gmap str str := list_to_map residence_pairs.

(** [safe_map]: [None] for an absent value, else [mapping.get(value, value)].
    A number is never a key of these tables, so [get] returns it. *)
Definition safe_map (v : value) (mapping : gmap str str) : value :=
  if isna v then NA
  else match v with
       | Text s => Text (default s (mapping !! s))
       | _ => v
       end.


(** Lines 188-194 of [split_demographics]: the three columns of the split,
    stripped, stored as [gender], [age] and [residence]. *)
Definition split_columns (df : frame) : result frame :=
  let df_processed := df in
  demographics ← getitem df_processed "demographics";
  texts ← str_accessor demographics;
  let split_data := str_split_expand texts in
  c0 ← expanded_getitem split_data 0;
  gender ← str_strip c0;
  let df_processed := setitem df_processed "gender" gender in
  c1 ← expanded_getitem split_data 1;
  age ← str_strip c1;
  let df_processed := setitem df_processed "age" age in
  c2 ← expanded_getitem split_data 2;
  residence ← str_strip c2;
  Ok (setitem df_processed "residence" residence).

(** [split_demographics]: the split, then the mappings of [gender] and
    [residence], the removal of [demographics], and [age] made numeric. *)
Definition split_demographics (pd : pandas) (df : frame) : result frame :=
  df_processed ← split_columns df;
  gender ← getitem df_processed "gender";
  let df_processed :=
    setitem df_processed "gender" (apply (fun x => safe_map x gender_mapping) gender) in
  residence ← getitem df_processed "residence";
  let df_processed :=
    setitem df_processed "residence"
      (apply (fun x => safe_map x residence_mapping) residence) in
  df_processed ← drop df_processed "demographics";
  age ← getitem df_processed "age";
  Ok (setitem df_processed "age" (to_numeric pd age)).

(** [format_date]: absent for an absent value and for any exception. *)
Definition format_date (pd : pandas) (clk : clock) (date_str : value) : value :=
  if isna date_str then NA
  else match to_datetime pd clk date_str with
       | Some date_obj => Text (strftime date_obj)
       | None => NA
       end.

(** [df[name] = df[name].apply(f)] *)
Definition apply_column (df : frame) (name : string) (f : value -> value)
  : result frame :=
  c ← getitem df name;
  Ok (setitem df name (apply f c)).

(** [transform_data] of the transformer. *)
Definition transform_data (pd : pandas) (clk : clock) (df : frame) : result frame :=
  df_transformed ← split_demographics pd df;
  df_transformed ← apply_column df_transformed "birth_date" (format_date pd clk);
  df_transformed ← apply_column df_transformed "arrest_date" (format_date pd clk);
  df_transformed ←
    apply_column df_transformed "organization" (fun x => safe_map x organization_mapping);
  df_transformed ←
    apply_column df_transformed "israeli_citizenship"
      (fun x => safe_map x citizenship_mapping);
  df_transformed ←
    apply_column df_transformed "status" (fun x => safe_map x status_mapping);
  df_transformed ←
    apply_column df_transformed "court" (fun x => safe_map x court_mapping);
  apply_column df_transformed "deportation_status"
    (fun x => safe_map x deportation_mapping).

(** [df.isnull().sum().to_dict()] *)
Definition null_counts (df : frame) : list (string * nat) :=
  map (fun p => (p.1, length (List.filter isna p.2))) df.

Definition distribution (df : frame) (name : string)
  : result (string * list (value * nat)) :=
  c ← getitem df name;
  Ok (name, value_counts c).

(** [validate_data] *)
Definition validate_data (df : frame) : result stats :=
  gender ← distribution df "gender";
  residence ← distribution df "residence";
  organization ← distribution df "organization";
  israeli_citizenship ← distribution df "israeli_citizenship";
  status ← distribution df "status";
  court ← distribution df "court";
  deportation_status ← distribution df "deportation_status";
  age ← getitem df "age";
  Ok {| total_records := frame_len df;
        null_values := null_counts df;
        value_distributions :=
          [gender; residence; organization; israeli_citizenship; status; court;
           deportation_status];
        age_stats := List.filter (fun v => negb (isna v)) age |}.

End PrisonerDataTransformer.

(** ** The Render Client and the world *)

(** An element handle: its [inner_text()], which may raise. *)
Record element : Type := { inner_text : result str }.

(** A [.col-12] division of a record block: what [query_selector] finds
    for [label] and for [.error-txt] ([None] when nothing matches). *)
Record field_div : Type := {
  query_label : result (option element);
  query_value : result (option element)
}.

(** A record block ([.row.row-gov.ordered-fields]). *)
Record row_div : Type := { query_fields : result (list field_div) }.

(** What the browser does with the page of one offset: the outcome of
    [goto], of [wait_for_selector] and of [query_selector_all]. *)
Record page : Type := {
  goto : result unit;
  wait_for_selector : result unit;
  query_rows : result (list row_div)
}.

(** A harvested record: a Python [dict], its keys in insertion order. *)
Abbreviation RawRecord := (list (string * str)).

(** [d.get(k)] *)
Fixpoint dict_get (d : RawRecord) (k : string) : option str :=
  match d with
  | [] => None
  | (k0, v) :: d' => if String.eqb k0 k then Some v else dict_get d' k
  end.

(** [d[k] = v] *)
Fixpoint dict_set (d : RawRecord) (k : string) (v : str) : RawRecord :=
  match d with
  | [] => [(k, v)]
  | (k0, v0) :: d' =>
      if String.eqb k0 k then (k0, v) :: d' else (k0, v0) :: dict_set d' k v
  end.

Inductive level : Type := INFO | ERROR.

(** The messages of the [logging] calls, with the values they interpolate. *)
Inductive message : Type :=
  | PageLoaded (skip : Z)
  | FoundRows (n : nat)
  | ExtractedPrisoner (full_name : option str)
  | ErrorProcessingPage (skip : Z) (e : exn)
  | ScrapingPage (page_num : Z)
  | FoundPrisoners (n : nat) (page_num : Z)
  | DataSaved (filename : string)
  | FileExistsSkipping
  | TransformedSaved (output_file : string)
  | StatsSaved (stats_file : string)
  | InputNotFound (input_file : string)
  | ErrorOccurred (e : exn).

(** Everything outside the program that it reads or changes. *)
Record world : Type := {
  site : Z -> page;              (* the page the site serves at each offset *)
  launch : result unit;          (* whether a browser can be started *)
  sessions_started : nat;        (* browser sessions opened so far *)
  sessions_closed : nat;         (* browser sessions closed so far *)
  navigations : list Z;          (* the offsets navigated to, oldest first *)
  slept : Z;                     (* seconds spent in [asyncio.sleep] *)
  dirs : gset string;            (* the directories that exist *)
  files : gmap string file;      (* the files that exist *)
  now : clock;                   (* the system clock *)
  log : list (level * message)   (* the log, oldest entry first *)
}.

Definition set_log (l : list (level * message)) (w : world) : world :=
  {| site := site w; launch := launch w; sessions_started := sessions_started w;
     sessions_closed := sessions_closed w; navigations := navigations w;
     slept := slept w; dirs := dirs w; files := files w; now := now w; log := l |}.

Definition set_navigations (l : list Z) (w : world) : world :=
  {| site := site w; launch := launch w; sessions_started := sessions_started w;
     sessions_closed := sessions_closed w; navigations := l;
     slept := slept w; dirs := dirs w; files := files w; now := now w; log := log w |}.

Definition set_sessions (started closed : nat) (w : world) : world :=
  {| site := site w; launch := launch w; sessions_started := started;
     sessions_closed := closed; navigations := navigations w;
     slept := slept w; dirs := dirs w; files := files w; now := now w; log := log w |}.

Definition set_slept (s : Z) (w : world) : world :=
  {| site := site w; launch := launch w; sessions_started := sessions_started w;
     sessions_closed := sessions_closed w; navigations := navigations w;
     slept := s; dirs := dirs w; files := files w; now := now w; log := log w |}.

Definition set_dirs (d : gset string) (w : world) : world :=
  {| site := site w; launch := launch w; sessions_started := sessions_started w;
     sessions_closed := sessions_closed w; navigations := navigations w;
     slept := slept w; dirs := d; files := files w; now := now w; log := log w |}.

Definition set_files (f : gmap string file) (w : world) : world :=
  {| site := site w; launch := launch w; sessions_started := sessions_started w;
     sessions_closed := sessions_closed w; navigations := navigations w;
     slept := slept w; dirs := dirs w; files := f; now := now w; log := log w |}.

(** ** Computations on the world that may raise *)

Definition M (A : Type) : Type := world -> result A * world.

#[global] Instance M_ret : MRet M := fun A a w => (Ok a, w).

#[global] Instance M_bind : MBind M := fun A B k m w =>
  match m w with
  | (Ok a, w') => k a w'
  | (Raise e, w') => (Raise e, w')
  end.

(** A value or exception that does not depend on the world. *)
Definition lift {A} (r : result A) : M A := fun w => (r, w).

(** [try: body except Exception as e: handler(e)]: what [body] did to the
    world before it raised stays done. *)
Definition try_except {A} (body : M A) (handler : exn -> M A) : M A := fun w =>
  match body w with
  | (Ok a, w') => (Ok a, w')
  | (Raise e, w') => handler e w'
  end.

Definition logging_info (m : message) : M unit := fun w =>
  (Ok tt, set_log (log w ++ [(INFO, m)]) w).

Definition logging_error (m : message) : M unit := fun w =>
  (Ok tt, set_log (log w ++ [(ERROR, m)]) w).

(** [page.goto(url)] for the url of offset [skip]. *)
Definition page_goto (skip : Z) : M page := fun w =>
  let w' := set_navigations (navigations w ++ [skip]) w in
  match goto (site w skip) with
  | Ok _ => (Ok (site w skip), w')
  | Raise e => (Raise e, w')
  end.

(** [asyncio.sleep(seconds)] *)
Definition sleep (seconds : Z) : M unit := fun w =>
  (Ok tt, set_slept (slept w + seconds) w).

(** [path.exists(p)] *)
Definition path_exists (p : string) (w : world) : bool :=
  bool_decide (p ∈ dirs w) || bool_decide (is_Some (files w !! p)).

(** [makedirs(p)]; the program calls it only when nothing is at [p]. *)
Definition makedirs (p : string) : M unit := fun w =>
  (Ok tt, set_dirs ({[p]} ∪ dirs w) w).

Fixpoint has_slash (p : string) : bool :=
  match p with
  | EmptyString => false
  | String c rest => Ascii.eqb c "/" || has_slash rest
  end.

(** [os.path.dirname(p)] of a relative path: what precedes its last slash,
    nothing when it has none. *)
Fixpoint dirname (p : string) : string :=
  match p with
  | EmptyString => EmptyString
  | String c rest => if has_slash rest then String c (dirname rest) else EmptyString
  end.

(** Whether [p] is a directory; the empty path is the current one. *)
Definition is_dir (p : string) (w : world) : bool :=
  String.eqb p EmptyString || bool_decide (p ∈ dirs w).

(** Whether [p] is a regular file. *)
Definition is_file (p : string) (w : world) : bool :=
  negb (is_dir p w) && bool_decide (is_Some (files w !! p)).

(** What [open] raises for a path without a file, by what its parent is. *)
Definition no_such_file (p : string) (w : world) : exn :=
  if is_file (dirname p) w then NotADirectoryError else FileNotFoundError.

(** [open(p, 'w')]: the parent must be a directory and [p] must not be
    one; the file is then created or emptied, and [f] is what the program
    writes into it. *)
Definition open_and_write (p : string) (f : file) : M unit := fun w =>
  if is_dir (dirname p) w then
    if is_dir p w then (Raise IsADirectoryError, w)
    else (Ok tt, set_files (<[p := f]> (files w)) w)
  else (Raise (no_such_file p w), w).

(** [df.to_csv(p)]: pandas looks at the parent itself and raises [OSError]
    when it is not a directory, then opens [p] for writing. *)
Definition to_csv (p : string) (df : frame) : M unit := fun w =>
  if is_dir (dirname p) w then open_and_write p (CsvOf df) w
  else (Raise OSError, w).

(** [pd.read_csv(p)] *)
Definition open_csv (pd : pandas) (p : string) : M frame := fun w =>
  if is_dir p w then (Raise IsADirectoryError, w)
  else match files w !! p with
       | Some f => (read_csv pd f, w)
       | None => (Raise (no_such_file p w), w)
       end.

(** The truth value of a string: false when empty. *)
Definition truthy (s : string) : bool := negb (String.eqb s "").

Module DynamicPrisonerScraper.

(** [init_browser] *)
Definition init_browser : M unit := fun w =>
  match launch w with
  | Ok _ => (Ok tt, set_sessions (S (sessions_started w)) (sessions_closed w) w)
  | Raise e => (Raise e, w)
  end.

(** [close_browser] *)
Definition close_browser : M unit := fun w =>
  (Ok tt, set_sessions (sessions_started w) (S (sessions_closed w)) w).

(** The inner loop of [get_page_data], lines 69-78: the fields of one
    block, written into [data]. *)
Fixpoint for_fields (fs : list field_div) (data : RawRecord) : result RawRecord :=
  match fs with
  | [] => Ok data
  | field :: rest =>
      label_elem ← query_label field;
      value_elem ← query_value field;
      data ←
        match label_elem, value_elem with
        | Some label_elem, Some value_elem =>
            label ← inner_text label_elem;
            value ← inner_text value_elem;
            match field_mapping !! strip label with
            | Some english_key =>
                if truthy english_key
                then Ok (dict_set data english_key (strip value))
                else Ok data
            | None => Ok data
            end
        | _, _ => Ok data
        end;
      for_fields rest data
  end.

(** The outer loop of [get_page_data], lines 63-81: one record per block,
    appended to [prisoners_data]. *)
Fixpoint for_rows (rs : list row_div) (prisoners_data : list RawRecord)
  : M (list RawRecord) :=
  match rs with
  | [] => mret prisoners_data
  | row :: rest =>
      fs ← lift (query_fields row);
      data ← lift (for_fields fs []);
      _ ← logging_info (ExtractedPrisoner (dict_get data "full_name"));
      for_rows rest (prisoners_data ++ [data])
  end.

(** The body of the [try] of [get_page_data], lines 51-83. *)
Definition get_page_data_try (skip : Z) : M (list RawRecord) :=
  p ← page_goto skip;
  _ ← logging_info (PageLoaded skip);
  _ ← lift (wait_for_selector p);
  rs ← lift (query_rows p);
  _ ← logging_info (FoundRows (length rs));
  for_rows rs [].

(** [get_page_data] *)
Definition get_page_data (skip : Z) : M (list RawRecord) :=
  try_except (get_page_data_try skip)
    (fun e => _ ← logging_error (ErrorProcessingPage skip e); mret []).

(** [if max_pages and page_num >= max_pages]: [None] and [0] are false. *)
Definition ceiling_reached (max_pages : option Z) (page_num : Z) : bool :=
  match max_pages with
  | Some m => negb (m =? 0) && (m <=? page_num)
  | None => false
  end.

(** The [while True] loop of [scrape_all_pages], run for at most [fuel]
    iterations; [None] when [fuel] iterations do not reach a [break]. The
    page is fetched by [fetch], which is [get_page_data] in the program. *)
Fixpoint scrape_loop (fetch : Z -> M (list RawRecord)) (fuel : nat)
    (max_pages : option Z) (skip page_num : Z) (all_prisoners : list RawRecord)
    (w : world) : option (result (list RawRecord) * world) :=
  match fuel with
  | O => None
  | S fuel' =>
      let w := (logging_info (ScrapingPage page_num) w).2 in
      match fetch skip w with
      | (Raise e, w) => Some (Raise e, w)
      | (Ok prisoners, w) =>
          match prisoners with
          | [] => Some (Ok all_prisoners, w)
          | _ :: _ =>
              let all_prisoners := all_prisoners ++ prisoners in
              let w := (logging_info (FoundPrisoners (length prisoners) page_num) w).2 in
              if ceiling_reached max_pages page_num then Some (Ok all_prisoners, w)
              else scrape_loop fetch fuel' max_pages (skip + 20) (page_num + 1)
                     all_prisoners (sleep 2 w).2
          end
      end
  end.

(** [scrape_all_pages] over a given [fetch]: the browser is started before
    the [try], and closed in its [finally]. *)
Definition scrape_all_pages_with (fetch : Z -> M (list RawRecord)) (fuel : nat)
    (max_pages : option Z) (w : world) : option (result (list RawRecord) * world) :=
  match init_browser w with
  | (Raise e, w) => Some (Raise e, w)
  | (Ok _, w) =>
      match scrape_loop fetch fuel max_pages 0 1 [] w with
      | None => None
      | Some (r, w) => Some (r, (close_browser w).2)
      end
  end.

(** [scrape_all_pages] *)
Definition scrape_all_pages (fuel : nat) (max_pages : option Z) (w : world)
  : option (result (list RawRecord) * world) :=
  scrape_all_pages_with get_page_data fuel max_pages w.

(** The column names of [pd.DataFrame(data)]: the keys of the records in
    order of first occurrence. *)
Definition first_seen (data : list RawRecord) : list string :=
  foldl (fun seen k => if existsb (String.eqb k) seen then seen else seen ++ [k])
        [] (concat (map (map fst) data)).

(** [pd.DataFrame(data)] for a list of records: a record without the key is
    absent in that column. *)
Definition DataFrame (data : list RawRecord) : frame :=
  map (fun k => (k, map (fun d => match dict_get d k with
                                  | Some s => Text s
                                  | None => NA
                                  end) data))
      (first_seen data).

(** [save_to_csv] *)
Definition save_to_csv (data : list RawRecord) (filename : string) : M unit :=
  let df := DataFrame data in
  _ ← to_csv filename df;
  logging_info (DataSaved filename).

End DynamicPrisonerScraper.

(** ** The module-level functions *)

Definition raw_csv : string := "output/prisoners_data.csv".
Definition transformed_csv : string := "output/prisoners_data_transformed.csv".
Definition stats_md : string := "output/validation_stats.md".

(** [scrap_data]; [fuel] bounds the iterations of the scraping loop. *)
Definition scrap_data (fuel : nat) (w : world) : option (result unit * world) :=
  let w := if negb (path_exists "output" w) then (makedirs "output" w).2 else w in
  if path_exists raw_csv w then Some (logging_info FileExistsSkipping w)
  else
    let MAX_PAGES : option Z := None in
    match DynamicPrisonerScraper.scrape_all_pages fuel MAX_PAGES w with
    | None => None
    | Some (Raise e, w) => Some (Raise e, w)
    | Some (Ok prisoners, w) =>
        Some (DynamicPrisonerScraper.save_to_csv prisoners raw_csv w)
    end.

(** The body of the [try] of [transform_data], lines 276-312. *)
Definition transform_data_try (pd : pandas) : M unit := fun w =>
  (df ← open_csv pd raw_csv;
   df_transformed ← lift (PrisonerDataTransformer.transform_data pd (now w) df);
   validation_stats ← lift (PrisonerDataTransformer.validate_data df_transformed);
   _ ← to_csv transformed_csv df_transformed;
   _ ← open_and_write stats_md (ReportOf validation_stats);
   _ ← logging_info (TransformedSaved transformed_csv);
   logging_info (StatsSaved stats_md)) w.

(** [transform_data] *)
Definition transform_data (pd : pandas) : M unit :=
  try_except (transform_data_try pd)
    (fun e => match e with
              | FileNotFoundError => logging_error (InputNotFound raw_csv)
              | _ => logging_error (ErrorOccurred e)
              end).

(** [main] *)
Definition main (pd : pandas) (fuel : nat) (w : world) : option (result unit * world) :=
  match scrap_data fuel w with
  | None => None
  | Some (Raise e, w) => Some (Raise e, w)
  | Some (Ok _, w) => Some (transform_data pd w)
  end.

(** The exit status of [asyncio.run(main())]: 0 when [main] returns, 1 when
    an exception leaves it. *)
Definition exit_status (r : result unit) : Z :=
  match r with
  | Ok _ => 0
  | Raise _ => 1
  end.

(** ** Notions used in the statements *)

(** The seven categorical tables, as lists of entries and as dictionaries. *)
Definition categorical_pairs : list (list (str * str)) :=
  [ PrisonerDataTransformer.organization_pairs;
    PrisonerDataTransformer.citizenship_pairs;
    PrisonerDataTransformer.status_pairs;
    PrisonerDataTransformer.court_pairs;
    PrisonerDataTransformer.deportation_pairs;
    PrisonerDataTransformer.gender_pairs;
    PrisonerDataTransformer.residence_pairs ].

Definition categorical_tables : list (gmap str str) :=
  [ PrisonerDataTransformer.organization_mapping;
    PrisonerDataTransformer.citizenship_mapping;
    PrisonerDataTransformer.status_mapping;
    PrisonerDataTransformer.court_mapping;
    PrisonerDataTransformer.deportation_mapping;
    PrisonerDataTransformer.gender_mapping;
    PrisonerDataTransformer.residence_mapping ].

(** No value of the table is one of its keys. *)
Definition values_not_keys (l : list (str * str)) : bool :=
  forallb (fun p => match (list_to_map l : gmap str str) !! p.2 with
                    | None => true
                    | Some _ => false
                    end) l.

(** A text has no whitespace at its start and none at its end. *)
Definition trimmed (s : str) : Prop :=
  (forall c, head s = Some c -> is_space c = false)
  /\ (forall c, last s = Some c -> is_space c = false).

(** The stripped piece number [k] of a composite cell: absent when the cell
    is not a text or has fewer than [k+1] pieces. *)
Definition piece (k : nat) (v : value) : value :=
  match v with
  | Text s => match split comma s !! k with
              | Some p => Text (strip p)
              | None => NA
              end
  | _ => NA
  end.

(** The number of comma-separated components of a cell. *)
Definition components (v : value) : nat :=
  match v with
  | Text s => length (split comma s)
  | _ => O
  end.

(** The cells that [transform_data] hands to [format_date]. *)
Definition date_cells (df : frame) : list value :=
  match getitem df "birth_date" with Ok c => c | Raise _ => [] end
  ++ match getitem df "arrest_date" with Ok c => c | Raise _ => [] end.

(** A test double for [get_page_data]: the n-th call returns the n-th page
    of [script] (nothing once the script is over) and notes its offset in
    [navigations]. *)
Definition scripted_fetch (script : list (list RawRecord)) (skip : Z)
  : M (list RawRecord) := fun w =>
  (Ok (nth (length (navigations w)) script []),
   set_navigations (navigations w ++ [skip]) w).

(** A field that reads without failure and writes nothing into the record:
    an element is missing, or the label is not in [field_mapping]. *)
Definition unmapped_field (f : field_div) : bool :=
  match query_label f, query_value f with
  | Ok (Some l), Ok (Some v) =>
      match inner_text l, inner_text v with
      | Ok label, Ok _ =>
          match field_mapping !! strip label with
          | None => true
          | Some _ => false
          end
      | _, _ => false
      end
  | Ok _, Ok _ => true
  | _, _ => false
  end.

(** A record block all of whose fields are unmapped. *)
Definition unmapped_row (r : row_div) : bool :=
  match query_fields r with
  | Ok fs => forallb unmapped_field fs
  | Raise _ => false
  end.

(** The raw frame of the end-to-end scenario: one row with [full_name],
    [demographics] and [organization]. *)
Definition scenario_row : frame :=
  [ ("full_name"%string, [Text (u "א")]);
    ("demographics"%string, [Text (u "זכר, 30, י-ם")]);
    ("organization"%string, [Text (u "חמאס")]) ].

(** The same row in a file that also has the other six columns the
    transformer reads, all empty. *)
Definition scenario_row_full : frame :=
  scenario_row
  ++ map (fun name => (name, [NA]))
       [ "birth_date"; "arrest_date"; "israeli_citizenship"; "status"; "court";
         "deportation_status" ]%string.

(** The canonical record of the scenario. *)
Definition scenario_canonical : frame :=
  [ ("full_name"%string, [Text (u "א")]);
    ("organization"%string, [Text (u "HAMAS")]);
    ("birth_date"%string, [NA]);
    ("arrest_date"%string, [NA]);
    ("israeli_citizenship"%string, [NA]);
    ("status"%string, [NA]);
    ("court"%string, [NA]);
    ("deportation_status"%string, [NA]);
    ("gender"%string, [Text (u "MALE")]);
    ("age"%string, [Int 30]);
    ("residence"%string, [Text (u "JERUSALEM")]) ].

(** A composite text with three commas. *)
Definition three_commas : frame :=
  [ ("demographics"%string, [Text (u "זכר, 30, י-ם, העיר העתיקה")]) ].

(** The full row of the scenario with the text [today] as birth date. *)
Definition born_today : frame :=
  setitem scenario_row_full "birth_date" [Text (u "today")].

(** Sample surroundings for the concrete evaluations: parsers that read
    nothing beyond what is modelled, two clock readings, an empty world. *)
Definition sample_pandas : pandas :=
  {| is_float_text := fun _ => false;
     parse_datetime := fun _ _ => None;
     read_csv := fun f => match f with
                          | CsvOf df => Ok df
                          | ReportOf _ => Raise ReadError
                          end |}.

Definition new_year_2024 : date := {| year := 2024; month := 1; day := 1 |}.
Definition new_year_2025 : date := {| year := 2025; month := 1; day := 1 |}.

Definition clock_2024 : clock :=
  {| clock_now := new_year_2024; clock_today := new_year_2024 |}.
Definition clock_2025 : clock :=
  {| clock_now := new_year_2025; clock_today := new_year_2025 |}.

(** The texts that [pd.to_datetime] resolves from the clock. *)
Definition reads_the_clock (v : value) : bool :=
  match v with
  | Text s => bool_decide (s = u "now") || bool_decide (s = u "today")
  | _ => false
  end.

(** A date parser that reads every other value without the clock. *)
Definition clock_free (pd : pandas) : Prop :=
  forall c1 c2 v, parse_datetime pd c1 v = parse_datetime pd c2 v.

(** A sample date parser: it reads the texts [year-month-day] written in
    digits, and nothing else. *)
Definition read_iso (s : str) : option date :=
  match split 45%N s with
  | [y; m; d] =>
      match unsigned_literal y, unsigned_literal m, unsigned_literal d with
      | Some y, Some m, Some d => Some {| year := y; month := m; day := d |}
      | _, _, _ => None
      end
  | _ => None
  end.

Definition iso_pandas : pandas :=
  {| is_float_text := fun _ => false;
     parse_datetime := fun _ v => match v with
                                  | Text s => read_iso s
                                  | _ => None
                                  end;
     read_csv := read_csv sample_pandas |}.

(** The full row of the scenario with a birth date and an arrest date. *)
Definition dated_row : frame :=
  setitem (setitem scenario_row_full "birth_date" [Text (u "1990-5-17")])
    "arrest_date" [Text (u "2023-10-07")].

Definition empty_page : page :=
  {| goto := Ok tt; wait_for_selector := Raise TimeoutError; query_rows := Ok [] |}.

Definition empty_world : world :=
  {| site := fun _ => empty_page; launch := Ok tt;
     sessions_started := O; sessions_closed := O; navigations := [];
     slept := 0; dirs := ∅; files := ∅; now := clock_2024; log := [] |}.

(** A world whose only file is the raw CSV of the three-column scenario. *)
Definition scenario_world : world :=
  set_dirs {[ "output"%string ]}
    (set_files {[ raw_csv := CsvOf scenario_row ]} empty_world).

(** A world in which a directory bears the name of the raw CSV, and a
    world whose browser cannot be started. *)
Definition raw_directory_world : world :=
  set_dirs {[ "output"%string; raw_csv ]} empty_world.

Definition browserless_world : world :=
  {| site := fun _ => empty_page; launch := Raise PlaywrightError;
     sessions_started := O; sessions_closed := O; navigations := [];
     slept := 0; dirs := ∅; files := ∅; now := clock_2024; log := [] |}.

(** Why [transform_data] cannot read its input file, when it cannot: a
    directory bears its name, or nothing does. *)
Definition input_error (w : world) : option exn :=
  if is_dir raw_csv w then Some IsADirectoryError
  else match files w !! raw_csv with
       | Some _ => None
       | None => Some (no_such_file raw_csv w)
       end.

(** The message [transform_data] logs for an exception, and the outcome
    of a run that failed with it before writing anything. *)
Definition handler_message (e : exn) : message :=
  match e with
  | FileNotFoundError => InputNotFound raw_csv
  | _ => ErrorOccurred e
  end.

Definition transform_failed (e : exn) (w : world) : result unit * world :=
  (Ok tt, set_log (log w ++ [(ERROR, handler_message e)]) w).

(** What the extraction makes of one record block, and of all the blocks
    of a page. *)
Definition extract_row (r : row_div) : result RawRecord :=
  fs ← query_fields r;
  DynamicPrisonerScraper.for_fields fs [].

Fixpoint extract_rows (rs : list row_div) : result (list RawRecord) :=
  match rs with
  | [] => Ok []
  | r :: rest =>
      data ← extract_row r;
      others ← extract_rows rest;
      Ok (data :: others)
  end.

(** What navigation, waiting and extraction make of a page: its records,
    or the first failure. *)
Definition harvest (p : page) : result (list RawRecord) :=
  _ ← goto p;
  _ ← wait_for_selector p;
  rs ← query_rows p;
  extract_rows rs.

(** [w'] differs from [w] in its log at most. *)
Definition only_logged (w w' : world) : Prop :=
  site w' = site w /\ launch w' = launch w
  /\ sessions_started w' = sessions_started w
  /\ sessions_closed w' = sessions_closed w
  /\ navigations w' = navigations w /\ slept w' = slept w
  /\ dirs w' = dirs w /\ files w' = files w /\ now w' = now w.

(** A page with two record blocks none of whose labels is in
    [field_mapping], and a world whose site serves it at every offset. *)
Definition unknown_field : field_div :=
  {| query_label := Ok (Some {| inner_text := Ok (u " תווית לא מוכרת ") |});
     query_value := Ok (Some {| inner_text := Ok (u "ערך") |}) |}.

Definition unknown_blocks : list row_div :=
  [ {| query_fields := Ok [unknown_field] |}; {| query_fields := Ok [] |} ].

Definition unknown_page : page :=
  {| goto := Ok tt; wait_for_selector := Ok tt; query_rows := Ok unknown_blocks |}.

Definition unknown_world : world :=
  {| site := fun _ => unknown_page; launch := Ok tt;
     sessions_started := O; sessions_closed := O; navigations := [];
     slept := 0; dirs := ∅; files := ∅; now := clock_2024; log := [] |}.

(** A world in which the raw CSV is there already. *)
Definition harvested_world : world :=
  set_dirs {[ "output"%string ]}
    (set_files {[ raw_csv := CsvOf scenario_row_full ]} unknown_world).

(** ** Notions used in the further properties *)

(** The records [get_page_data] returns for a page: those of the harvest,
    none when it fails. *)
Definition page_records (p : page) : list RawRecord :=
  match harvest p with
  | Ok ds => ds
  | Raise _ => []
  end.

(** The offset of the page number [k], counted from zero. *)
Definition offset_of (k : nat) : Z := 20 * Z.of_nat k.

(** The records of the page number [k] of the site of [w]. *)
Definition records_at (w : world) (k : nat) : list RawRecord :=
  page_records (site w (offset_of k)).

(** [w'] is [w] after the navigations [offs] and [secs] seconds of sleep:
    the site, the browser, the sessions, the files and the clock are the
    same; only the log may differ besides. *)
Definition scraped (w w' : world) (offs : list Z) (secs : Z) : Prop :=
  site w' = site w /\ launch w' = launch w
  /\ sessions_started w' = sessions_started w
  /\ sessions_closed w' = sessions_closed w
  /\ navigations w' = navigations w ++ offs
  /\ slept w' = slept w + secs
  /\ dirs w' = dirs w /\ files w' = files w /\ now w' = now w.

(** A record block with one field: the label of the full name and a name. *)
Definition named_block (name : string) : row_div :=
  {| query_fields :=
       Ok [ {| query_label := Ok (Some {| inner_text := Ok (u " שם מלא ") |});
               query_value := Ok (Some {| inner_text := Ok (u name) |}) |} ] |}.

Definition named_page (names : list string) : page :=
  {| goto := Ok tt; wait_for_selector := Ok tt;
     query_rows := Ok (map named_block names) |}.

(** A site with two names at offset 0, one name at offset 20, and a wait
    that times out everywhere else. *)
Definition small_site (skip : Z) : page :=
  if skip =? 0 then named_page ["א "; "ב"]%string
  else if skip =? 20 then named_page ["ג"]%string
  else empty_page.

Definition small_world : world :=
  {| site := small_site; launch := Ok tt;
     sessions_started := O; sessions_closed := O; navigations := [];
     slept := 0; dirs := ∅; files := ∅; now := clock_2024; log := [] |}.

(** A site that serves the same non-empty page at every offset is
    [unknown_world]; a world whose browser cannot be started: *)
Definition no_browser_world : world :=
  {| site := small_site; launch := Raise PlaywrightError;
     sessions_started := O; sessions_closed := O; navigations := [];
     slept := 0; dirs := ∅; files := ∅; now := clock_2024; log := [] |}.

(** The canonical field identifiers: the values of [field_mapping]. *)
Definition canonical_identifiers : list string :=
  [ "full_name"; "prisoner_id"; "demographics"; "birth_date"; "organization";
    "israeli_citizenship"; "status"; "sentence_duration"; "arrest_date";
    "offenses"; "court"; "case_number"; "court_file_number";
    "deportation_status" ]%string.

(** A record as the harvester builds it: no key twice, every key a value
    of [field_mapping], every value without surrounding whitespace. *)
Definition canonical_record (d : RawRecord) : Prop :=
  NoDup (map fst d)
  /\ Forall (fun kv : string * str =>
               (exists label, field_mapping !! label = Some kv.1) /\ trimmed kv.2) d.

(** The log entry [get_page_data] writes for a record. *)
Definition extracted_entry (d : RawRecord) : level * message :=
  (INFO, ExtractedPrisoner (dict_get d "full_name")).

(** Whether a record has the key [k], and its cell in the column [k]. *)
Definition has_key (k : string) (d : RawRecord) : bool :=
  match dict_get d k with
  | Some _ => true
  | None => false
  end.

Definition record_cell (k : string) (d : RawRecord) : value :=
  match dict_get d k with
  | Some s => Text s
  | None => NA
  end.

(** Whether [scrap_data] has a directory [output] to write in once it has
    created it where nothing was: it has not when a regular file bears the
    name. *)
Definition output_is_dir (w : world) : bool :=
  is_dir "output" w || negb (path_exists "output" w).

(** What [transform_data] does with the frame [out] and the statistics
    [st] it has computed: it writes the transformed CSV, then the report,
    and stops at the first of the two that cannot be written. *)
Definition save_outputs (out : frame) (st : stats) (w : world) : result unit * world :=
  if negb (is_dir "output" w) then transform_failed OSError w
  else if is_dir transformed_csv w then transform_failed IsADirectoryError w
  else
    let w1 := set_files (<[transformed_csv := CsvOf out]> (files w)) w in
    if is_dir stats_md w
    then (Ok tt, set_log (log w ++ [(ERROR, ErrorOccurred IsADirectoryError)]) w1)
    else (Ok tt,
          set_log (log w ++ [(INFO, TransformedSaved transformed_csv);
                             (INFO, StatsSaved stats_md)])
            (set_files (<[stats_md := ReportOf st]> (files w1)) w1)).

(** A world in which a regular file bears the name [output]. *)
Definition output_file_world : world :=
  set_files {[ "output"%string := ReportOf {| total_records := O; null_values := [];
                                              value_distributions := [];
                                              age_stats := [] |} ]} small_world.

(** The rules [transform_data] applies after the split, in its order: the
    column and the function applied to each of its cells. *)
Definition column_rules (pd : pandas) (clk : clock) : list (string * (value -> value)) :=
  [ ("birth_date"%string, PrisonerDataTransformer.format_date pd clk);
    ("arrest_date"%string, PrisonerDataTransformer.format_date pd clk);
    ("organization"%string,
      fun x => PrisonerDataTransformer.safe_map x
                 PrisonerDataTransformer.organization_mapping);
    ("israeli_citizenship"%string,
      fun x => PrisonerDataTransformer.safe_map x
                 PrisonerDataTransformer.citizenship_mapping);
    ("status"%string,
      fun x => PrisonerDataTransformer.safe_map x
                 PrisonerDataTransformer.status_mapping);
    ("court"%string,
      fun x => PrisonerDataTransformer.safe_map x
                 PrisonerDataTransformer.court_mapping);
    ("deportation_status"%string,
      fun x => PrisonerDataTransformer.safe_map x
                 PrisonerDataTransformer.deportation_mapping) ].

(** Rules applied one after the other with [apply_column]. *)
Fixpoint apply_columns (df : frame) (rules : list (string * (value -> value)))
  : result frame :=
  match rules with
  | [] => Ok df
  | (name, f) :: rest =>
      df' ← PrisonerDataTransformer.apply_column df name f;
      apply_columns df' rest
  end.

(** The columns made from [demographics]. *)
Definition split_names : list string :=
  [ "gender"; "age"; "residence" ]%string.

(** Every column of the frame has [n] rows. *)
Definition rows (n : nat) (df : frame) : Prop :=
  Forall (fun c : string * column => length c.2 = n) df.

(** The number of columns of the split of a [demographics] column: the
    largest number of components of a record, an absent record counting
    for one. *)
Definition longest (demographics : column) : nat :=
  expand_width (map split_row demographics).

(** The exception of [split_demographics] on a frame, if any. *)
Definition split_error (df : frame) : option exn :=
  match getitem df "demographics" with
  | Raise _ => Some (KeyError (KName "demographics"))
  | Ok demographics =>
      if negb (Nat.eqb (length demographics) 0 || existsb is_text demographics)
      then Some AttributeError
      else if (longest demographics <? 3)%nat
           then Some (KeyError (KPos (longest demographics)))
           else None
  end.

(** The columns [transform_data] reads after the split, in its order. *)
Definition required_columns : list string :=
  [ "birth_date"; "arrest_date"; "organization"; "israeli_citizenship";
    "status"; "court"; "deportation_status" ]%string.

(** The first of them that the frame lacks. *)
Definition first_missing (df : frame) : option string :=
  find (fun name => negb (has_column df name)) required_columns.

(** The count a distribution gives for a value: 0 when it has no entry. *)
Definition count_of (v : value) (distribution : list (value * nat)) : nat :=
  match find (fun p : value * nat => bool_decide (p.1 = v)) distribution with
  | Some p => p.2
  | None => O
  end.

(** The sum of the counts of a distribution. *)
Definition sum_counts (distribution : list (value * nat)) : nat :=
  foldr Nat.add O (map snd distribution).

(** The columns whose distribution [validate_data] computes, in its order. *)
Definition distribution_columns : list string :=
  [ "gender"; "residence"; "organization"; "israeli_citizenship"; "status";
    "court"; "deportation_status" ]%string.

(** A world whose only file is the raw CSV of the full scenario row. *)
Definition full_scenario_world : world :=
  set_dirs {[ "output"%string ]}
    (set_files {[ raw_csv := CsvOf scenario_row_full ]} empty_world).

(** The dates a [Timestamp] can hold lie between the years 1677 and 2262. *)
Definition timestamp_range (d : date) : bool :=
  (1677 <=? year d) && (year d <=? 2262)
  && (1 <=? month d) && (month d <=? 12)
  && (1 <=? day d) && (day d <=? 31).

Definition is_digit (c : N) : bool := ((48 <=? c) && (c <=? 57))%N.

(** A text of the shape [YYYY-MM-DD]. *)
Definition iso_date (s : str) : bool :=
  match s with
  | [y1; y2; y3; y4; h1; m1; m2; h2; d1; d2] =>
      forallb is_digit [y1; y2; y3; y4; m1; m2; d1; d2]
      && (h1 =? 45)%N && (h2 =? 45)%N
  | _ => false
  end.

(** A cell of a date column of the output: absent, or a [YYYY-MM-DD] text. *)
Definition iso_cell (v : value) : bool :=
  match v with
  | NA => true
  | Text s => iso_date s
  | _ => false
  end.

(** The padded decimal writing of [z] is [width] digits. *)
Definition digits_of_width (width : nat) (z : Z) : bool :=
  let s := zfill width (decimal z) in
  (length s =? width)%nat && forallb is_digit s.


(** A cell that writes an integer of the [int64] range. *)
Definition reads_int64 (v : value) : bool :=
  match v with
  | Text s => match int_literal s with
              | Some z => (- 2 ^ 63 <=? z) && (z <? 2 ^ 63)
              | None => false
              end
  | _ => false
  end.
(** * Theorems *)

(** ** The Categorical Normalizer *)

Section SafeMap.

Import PrisonerDataTransformer.
Variable T : gmap str str.

Lemma safe_map_absent : safe_map NA T = NA.
Proof. reflexivity. Qed.

Lemma safe_map_hit s w : T !! s = Some w -> safe_map (Text s) T = Text w.
Proof. intros H. unfold safe_map. simpl. by rewrite H. Qed.

Lemma safe_map_miss s : T !! s = None -> safe_map (Text s) T = Text s.
Proof. intros H. unfold safe_map. simpl. by rewrite H. Qed.

Lemma safe_map_number v :
  isna v = false -> is_text v = false -> safe_map v T = v.
Proof. destruct v; simpl; intros; try discriminate; reflexivity. Qed.

End SafeMap.

(** A table none of whose values is a key sends every value to a fixed
    point of the lookup. *)
Lemma safe_map_idempotent_pairs (l : list (str * str)) v :
  values_not_keys l = true ->
  PrisonerDataTransformer.safe_map
    (PrisonerDataTransformer.safe_map v (list_to_map l)) (list_to_map l)
  = PrisonerDataTransformer.safe_map v (list_to_map l).
Proof.
  intros Hl. destruct v as [|s|z|lit]; try reflexivity.
  unfold PrisonerDataTransformer.safe_map at 2 3. simpl.
  destruct ((list_to_map l : gmap str str) !! s) as [w|] eqn:E; simpl.
  - apply elem_of_list_to_map_2 in E.
    unfold values_not_keys in Hl. rewrite forallb_forall in Hl.
    apply list_elem_of_In in E. specialize (Hl _ E). simpl in Hl.
    unfold PrisonerDataTransformer.safe_map. simpl.
    destruct ((list_to_map l : gmap str str) !! w); [discriminate | reflexivity].
  - unfold PrisonerDataTransformer.safe_map. simpl. by rewrite E.
Qed.

(** C6: on each of the seven categorical tables, [safe_map] returns absent
    for an absent value, the table's entry for a text that is a key, the
    value itself otherwise, and applying it twice is applying it once. *)
Theorem C6_safe_map_tables :
  Forall (fun T : gmap str str =>
            PrisonerDataTransformer.safe_map NA T = NA
            /\ (forall s w, T !! s = Some w ->
                  PrisonerDataTransformer.safe_map (Text s) T = Text w)
            /\ (forall s, T !! s = None ->
                  PrisonerDataTransformer.safe_map (Text s) T = Text s)
            /\ (forall v, isna v = false -> is_text v = false ->
                  PrisonerDataTransformer.safe_map v T = v)
            /\ (forall v,
                  PrisonerDataTransformer.safe_map
                    (PrisonerDataTransformer.safe_map v T) T
                  = PrisonerDataTransformer.safe_map v T))
         categorical_tables.
Proof.
  assert (Hall : Forall (fun l => values_not_keys l = true) categorical_pairs).
  { repeat constructor; vm_compute; reflexivity. }
  unfold categorical_tables, categorical_pairs in *.
  repeat match goal with
         | H : Forall _ (_ :: _) |- _ => inversion H; subst; clear H
         end.
  repeat constructor;
    first [ apply safe_map_hit | apply safe_map_miss | apply safe_map_number
          | intros v; by apply safe_map_idempotent_pairs ].
Qed.

(** ** Results and frames *)

Lemma bind_Ok_inv {A B} (r : result A) (k : A -> result B) b :
  r ≫= k = Ok b -> exists a, r = Ok a /\ k a = Ok b.
Proof. destruct r as [a|e]; simpl; [eauto | discriminate]. Qed.

Tactic Notation "bind_inv" hyp(H) "as" ident(a) ident(Ha) :=
  apply bind_Ok_inv in H; destruct H as (a & Ha & H).

Lemma getitem_setitem_eq df name c : getitem (setitem df name c) name = Ok c.
Proof.
  induction df as [|[n c0] df IH]; simpl.
  - by rewrite String.eqb_refl.
  - destruct (String.eqb n name) eqn:E; simpl; rewrite E; [done | apply IH].
Qed.

Lemma getitem_setitem_ne df name other c :
  name <> other -> getitem (setitem df name c) other = getitem df other.
Proof.
  intros Hne. induction df as [|[n c0] df IH]; simpl.
  - apply String.eqb_neq in Hne. by rewrite Hne.
  - destruct (String.eqb n name) eqn:E; simpl.
    + apply String.eqb_eq in E. subst n.
      apply String.eqb_neq in Hne. by rewrite Hne.
    + by rewrite IH.
Qed.

Lemma getitem_filter_ne (df : frame) name other :
  name <> other ->
  getitem (List.filter (fun p => negb (String.eqb p.1 name)) df) other
  = getitem df other.
Proof.
  intros Hne. induction df as [|[n c0] df IH]; simpl; [done|].
  destruct (String.eqb n name) eqn:E; simpl.
  - apply String.eqb_eq in E. subst n.
    apply String.eqb_neq in Hne. by rewrite Hne.
  - by rewrite IH.
Qed.

Lemma getitem_drop_ne df df' name other :
  drop df name = Ok df' -> name <> other -> getitem df' other = getitem df other.
Proof.
  unfold drop. destruct (has_column df name); [|discriminate].
  intros [= <-] Hne. by apply getitem_filter_ne.
Qed.

Lemma has_column_getitem df name c : getitem df name = Ok c -> has_column df name = true.
Proof.
  unfold has_column. induction df as [|[n c0] df IH]; simpl; [discriminate|].
  destruct (String.eqb n name); simpl; [done | apply IH].
Qed.

Lemma str_accessor_Ok c c' : str_accessor c = Ok c' -> c' = c.
Proof. unfold str_accessor. destruct (_ || _); [by intros [= <-] | discriminate]. Qed.

Lemma str_strip_Ok c c' :
  str_strip c = Ok c' ->
  c' = map (fun v => match v with Text t => Text (strip t) | _ => NA end) c.
Proof.
  unfold str_strip. intros H. bind_inv H as x Hx.
  apply str_accessor_Ok in Hx. subst x. by injection H as <-.
Qed.

Lemma expanded_getitem_Ok (c : column) k ck :
  expanded_getitem (str_split_expand c) k = Ok ck ->
  ck = map (fun v => expand_cell k (split_row v)) c.
Proof.
  unfold expanded_getitem, str_split_expand.
  rewrite list_lookup_fmap.
  destruct (seq 0 _ !! k) as [j|] eqn:E; simpl; [|discriminate].
  apply lookup_seq in E as [-> _]. simpl.
  intros [= <-]. by rewrite map_map.
Qed.

Lemma strip_expand_cell k v :
  match expand_cell k (split_row v) with Text t => Text (strip t) | _ => NA end
  = piece k v.
Proof.
  destruct v as [|s|z|lit]; simpl; try reflexivity.
  by destruct (split comma s !! k).
Qed.

(** ** Files and directories *)

Lemma dirname_raw_csv : dirname raw_csv = "output"%string.
Proof. reflexivity. Qed.

Lemma dirname_transformed_csv : dirname transformed_csv = "output"%string.
Proof. reflexivity. Qed.

Lemma dirname_stats_md : dirname stats_md = "output"%string.
Proof. reflexivity. Qed.

Lemma is_dir_true p w : p ∈ dirs w -> is_dir p w = true.
Proof.
  intros H. unfold is_dir. rewrite (bool_decide_eq_true_2 _ H). apply orb_true_r.
Qed.

Lemma is_dir_false p w :
  String.eqb p EmptyString = false -> p ∉ dirs w -> is_dir p w = false.
Proof.
  intros Hp H. unfold is_dir. by rewrite (bool_decide_eq_false_2 _ H), Hp.
Qed.

Lemma is_dir_spec p w :
  String.eqb p EmptyString = false -> is_dir p w = bool_decide (p ∈ dirs w).
Proof. intros Hp. unfold is_dir. by rewrite Hp. Qed.

Lemma is_dir_same w w' p : dirs w' = dirs w -> is_dir p w' = is_dir p w.
Proof. intros H. unfold is_dir. by rewrite H. Qed.

(** A write in a directory, at a path that is not one, stores the file. *)
Lemma open_and_write_stores p f w :
  is_dir (dirname p) w = true -> is_dir p w = false ->
  open_and_write p f w = (Ok tt, set_files (<[p := f]> (files w)) w).
Proof. intros Hd Hp. unfold open_and_write. by rewrite Hd, Hp. Qed.

Lemma to_csv_stores p df w :
  is_dir (dirname p) w = true -> is_dir p w = false ->
  to_csv p df w = (Ok tt, set_files (<[p := CsvOf df]> (files w)) w).
Proof.
  intros Hd Hp. unfold to_csv. rewrite Hd. by apply open_and_write_stores.
Qed.

(** A write that fails changes nothing. *)
Lemma open_and_write_outcome p f w :
  open_and_write p f w = (Ok tt, set_files (<[p := f]> (files w)) w)
  \/ exists e, open_and_write p f w = (Raise e, w).
Proof.
  unfold open_and_write.
  destruct (is_dir (dirname p) w); [destruct (is_dir p w)|]; eauto.
Qed.

Lemma to_csv_outcome p df w :
  to_csv p df w = (Ok tt, set_files (<[p := CsvOf df]> (files w)) w)
  \/ exists e, to_csv p df w = (Raise e, w).
Proof.
  unfold to_csv. destruct (is_dir (dirname p) w); [|eauto].
  apply open_and_write_outcome.
Qed.

Lemma open_csv_reads pd p w f :
  is_dir p w = false -> files w !! p = Some f ->
  open_csv pd p w = (read_csv pd f, w).
Proof. intros Hp Hf. unfold open_csv. by rewrite Hp, Hf. Qed.

(** Reading changes nothing. *)
Lemma open_csv_world pd p w : (open_csv pd p w).2 = w.
Proof.
  unfold open_csv. destruct (is_dir p w); [done|]. by destruct (files w !! p).
Qed.

(** ** Splitting and stripping *)

Lemma split_not_nil sep s : split sep s <> [].
Proof.
  destruct s as [|c s]; simpl; [done|].
  destruct (c =? sep)%N; [done|]. by destruct (split sep s).
Qed.

(** Joining the pieces with the separator gives the text back. *)
Lemma join_split sep s : join sep (split sep s) = s.
Proof.
  induction s as [|c s IH]; simpl; [done|].
  destruct (split sep s) as [|p ps] eqn:Es; [by apply split_not_nil in Es|].
  destruct (c =? sep)%N eqn:E.
  - apply N.eqb_eq in E. subst c. rewrite <- IH. reflexivity.
  - rewrite <- IH. by destruct ps.
Qed.

(** No piece contains the separator. *)
Lemma split_no_sep sep s : Forall (fun p => sep ∉ p) (split sep s).
Proof.
  induction s as [|c s IH]; simpl.
  - constructor; [apply not_elem_of_nil | constructor].
  - destruct (c =? sep)%N eqn:E.
    + constructor; [apply not_elem_of_nil | done].
    + apply N.eqb_neq in E.
      destruct (split sep s) as [|p ps]; inversion IH; subst.
      * constructor; [|constructor].
        intros [?|Hin]%elem_of_cons; [congruence | by apply elem_of_nil in Hin].
      * constructor; [|done].
        intros [?|Hin]%elem_of_cons; [congruence | done].
Qed.

(** There is one piece more than there are separators: every separator cuts. *)
Lemma split_length sep s :
  length (split sep s) = S (count_occ N.eq_dec s sep).
Proof.
  induction s as [|c s IH]; simpl; [done|].
  destruct (c =? sep)%N eqn:E.
  - apply N.eqb_eq in E. subst c. simpl. rewrite IH.
    by destruct (N.eq_dec sep sep).
  - apply N.eqb_neq in E. destruct (N.eq_dec c sep); [done|].
    rewrite <- IH. by destruct (split sep s).
Qed.

Lemma lstrip_head s c : head (lstrip s) = Some c -> is_space c = false.
Proof.
  induction s as [|a s IH]; simpl; [done|].
  destruct (is_space a) eqn:E; [done|]. simpl. by intros [= <-].
Qed.

Lemma lstrip_fixed s :
  (forall c, head s = Some c -> is_space c = false) -> lstrip s = s.
Proof.
  destruct s as [|a s]; simpl; [done|].
  intros H. by rewrite (H a eq_refl).
Qed.

(** Stripping the left of a text that ends in a character that is not
    whitespace leaves that end in place. *)
Lemma lstrip_snoc s c :
  is_space c = false -> exists t, lstrip (s ++ [c]) = t ++ [c].
Proof.
  intros Hc. induction s as [|a s IH]; simpl.
  - rewrite Hc. by exists [].
  - destruct (is_space a); [done|]. by exists (a :: s).
Qed.

Lemma last_rev {A} (l : list A) : last (rev l) = head l.
Proof. destruct l as [|a l]; simpl; [done|]. by rewrite last_snoc. Qed.

Lemma head_rev {A} (l : list A) : head (rev l) = last l.
Proof. by rewrite <- (rev_involutive l) at 2; rewrite last_rev. Qed.

Lemma rstrip_last s c : last (rstrip s) = Some c -> is_space c = false.
Proof. unfold rstrip. rewrite last_rev. apply lstrip_head. Qed.

Lemma rstrip_head s c :
  (forall a, head s = Some a -> is_space a = false) ->
  head (rstrip s) = Some c -> is_space c = false.
Proof.
  intros Hs. unfold rstrip.
  destruct s as [|a s]; [done|].
  pose proof (Hs a eq_refl) as Ha.
  simpl rev.
  destruct (lstrip_snoc (rev s) a Ha) as [t ->].
  rewrite rev_app_distr. simpl. by intros [= <-].
Qed.

(** [strip] leaves no whitespace at either end. *)
Lemma strip_trimmed s : trimmed (strip s).
Proof.
  split; intros c; unfold strip.
  - apply rstrip_head. apply lstrip_head.
  - apply rstrip_last.
Qed.

(** [strip] changes nothing in a text that is trimmed already. *)
Lemma strip_fixed s : trimmed s -> strip s = s.
Proof.
  intros [Hh Hl]. unfold strip. rewrite (lstrip_fixed s Hh).
  unfold rstrip. rewrite lstrip_fixed; [apply rev_involutive|].
  intros c. rewrite head_rev. apply Hl.
Qed.

(** ** The Demographics Splitter *)

(** What [split_columns] stores when it succeeds: in each of the three
    columns, the stripped piece of that position of the split. *)
Lemma split_columns_Ok df demographics out :
  getitem df "demographics" = Ok demographics ->
  PrisonerDataTransformer.split_columns df = Ok out ->
  out = setitem (setitem (setitem df "gender" (map (piece 0) demographics))
                   "age" (map (piece 1) demographics))
          "residence" (map (piece 2) demographics).
Proof.
  intros Hd H. unfold PrisonerDataTransformer.split_columns in H.
  rewrite Hd in H. simpl in H.
  bind_inv H as texts Ht. apply str_accessor_Ok in Ht. subst texts.
  bind_inv H as c0 H0. apply expanded_getitem_Ok in H0. subst c0.
  bind_inv H as gender Hg. apply str_strip_Ok in Hg. subst gender.
  bind_inv H as c1 H1. apply expanded_getitem_Ok in H1. subst c1.
  bind_inv H as age Ha. apply str_strip_Ok in Ha. subst age.
  bind_inv H as c2 H2. apply expanded_getitem_Ok in H2. subst c2.
  bind_inv H as residence Hr. apply str_strip_Ok in Hr. subst residence.
  injection H as <-.
  rewrite !map_map.
  f_equal; [f_equal; [f_equal|]|]; apply map_ext; intros v; apply strip_expand_cell.
Qed.

(** C4 as the code has it: the composite text is split on every comma and
    the first three pieces, each stripped of surrounding whitespace, become
    gender, age and residence; what follows a third comma is dropped. *)
Theorem C4_split_on_every_comma df demographics out :
  getitem df "demographics" = Ok demographics ->
  PrisonerDataTransformer.split_columns df = Ok out ->
  getitem out "gender" = Ok (map (piece 0) demographics)
  /\ getitem out "age" = Ok (map (piece 1) demographics)
  /\ getitem out "residence" = Ok (map (piece 2) demographics)
  /\ (forall s, join comma (split comma s) = s
                /\ Forall (fun p => comma ∉ p) (split comma s)
                /\ length (split comma s) = S (count_occ N.eq_dec s comma))
  /\ (forall s, trimmed (strip s)).
Proof.
  intros Hd H. rewrite (split_columns_Ok _ _ _ Hd H).
  repeat split.
  - rewrite getitem_setitem_ne, getitem_setitem_ne by done.
    apply getitem_setitem_eq.
  - rewrite getitem_setitem_ne by done. apply getitem_setitem_eq.
  - apply getitem_setitem_eq.
  - apply join_split.
  - apply split_no_sep.
  - apply split_length.
  - apply strip_trimmed.
  - apply strip_trimmed.
Qed.

Lemma C4_split_on_every_comma_witness :
  exists out,
    PrisonerDataTransformer.split_columns three_commas = Ok out
    /\ getitem out "gender" = Ok [Text (u "זכר")]
    /\ getitem out "age" = Ok [Text (u "30")]
    /\ getitem out "residence" = Ok [Text (u "י-ם")].
Proof.
  eexists. split; [vm_compute; reflexivity|].
  destruct (C4_split_on_every_comma three_commas
              [Text (u "זכר, 30, י-ם, העיר העתיקה")] _ eq_refl eq_refl)
    as (Hg & Ha & Hr & _).
  exact (conj Hg (conj Ha Hr)).
Defined.

(** With three commas the residence is the third piece alone, not the text
    after the second comma. *)
Lemma C4_residence_drops_the_rest :
  (PrisonerDataTransformer.split_columns three_commas
     ≫= fun out => getitem out "residence") = Ok [Text (u "י-ם")]
  /\ Text (u "י-ם") <> Text (strip (u " י-ם, העיר העתיקה")).
Proof. split; [vm_compute; reflexivity | vm_compute; discriminate]. Qed.

(** C1 at batches in which no record has three components: with one record
    of two components the lookup of column 2 of the split raises [KeyError];
    with one record of one component it is column 1; with one absent record
    the [.str] accessor raises [AttributeError]. *)
Theorem C1_short_batches_raise (pd : pandas) :
  PrisonerDataTransformer.split_demographics pd
    [ ("demographics"%string, [Text (u "X, 30")]) ]
  = Raise (KeyError (KPos 2))
  /\ PrisonerDataTransformer.split_demographics pd
       [ ("demographics"%string, [Text (u "X")]) ]
     = Raise (KeyError (KPos 1))
  /\ PrisonerDataTransformer.split_demographics pd
       [ ("demographics"%string, [NA]) ]
     = Raise AttributeError.
Proof. repeat split. Qed.

(** What [split_demographics] returns when it succeeds: the mapped gender,
    the numeric age, the mapped residence, no [demographics], and every
    other column as it was. *)
Lemma split_demographics_Ok pd df demographics out :
  getitem df "demographics" = Ok demographics ->
  PrisonerDataTransformer.split_demographics pd df = Ok out ->
  getitem out "gender"
  = Ok (map (fun v => PrisonerDataTransformer.safe_map (piece 0 v)
                        PrisonerDataTransformer.gender_mapping) demographics)
  /\ getitem out "age" = Ok (to_numeric pd (map (piece 1) demographics))
  /\ getitem out "residence"
     = Ok (map (fun v => PrisonerDataTransformer.safe_map (piece 2 v)
                           PrisonerDataTransformer.residence_mapping) demographics)
  /\ (forall other,
        other <> "gender"%string -> other <> "age"%string ->
        other <> "residence"%string -> other <> "demographics"%string ->
        getitem out other = getitem df other).
Proof.
  intros Hd H. unfold PrisonerDataTransformer.split_demographics in H.
  bind_inv H as df1 H1. rewrite (split_columns_Ok _ _ _ Hd H1) in H. clear H1 df1.
  rewrite getitem_setitem_ne, getitem_setitem_ne, getitem_setitem_eq in H by done.
  simpl in H.
  rewrite getitem_setitem_ne, getitem_setitem_eq in H by done.
  simpl in H. unfold apply in H. rewrite !map_map in H.
  bind_inv H as df2 H2.
  erewrite (getitem_drop_ne _ _ _ _ H2) in H by done.
  rewrite !getitem_setitem_ne, getitem_setitem_eq in H by done.
  simpl in H. injection H as <-.
  repeat split.
  - rewrite getitem_setitem_ne by done.
    erewrite (getitem_drop_ne _ _ _ _ H2) by done.
    rewrite getitem_setitem_ne by done. apply getitem_setitem_eq.
  - apply getitem_setitem_eq.
  - rewrite getitem_setitem_ne by done.
    erewrite (getitem_drop_ne _ _ _ _ H2) by done.
    apply getitem_setitem_eq.
  - intros other Hg Ha Hr Hdm.
    rewrite getitem_setitem_ne by done.
    erewrite (getitem_drop_ne _ _ _ _ H2) by done.
    by rewrite !getitem_setitem_ne by done.
Qed.

Lemma row_width_le_expand_width r rows :
  In r rows -> (row_width r <= expand_width rows)%nat.
Proof.
  unfold expand_width. induction rows as [|r0 rows IH]; simpl; [done|].
  intros [->|Hin]; [lia|]. specialize (IH Hin). lia.
Qed.

Lemma expanded_getitem_lt (c : column) k :
  (k < expand_width (map split_row c))%nat ->
  expanded_getitem (str_split_expand c) k
  = Ok (map (fun v => expand_cell k (split_row v)) c).
Proof.
  intros Hk. unfold expanded_getitem, str_split_expand.
  rewrite list_lookup_fmap, (lookup_seq_lt _ _ _ Hk). simpl.
  by rewrite map_map.
Qed.

Lemma str_accessor_text (c : column) v :
  In v c -> is_text v = true -> str_accessor c = Ok c.
Proof.
  intros Hin Hv. unfold str_accessor.
  assert (existsb is_text c = true) as ->; [|by rewrite orb_true_r].
  apply existsb_exists. eauto.
Qed.

Lemma has_column_setitem df name other c :
  has_column df other = true -> has_column (setitem df name c) other = true.
Proof.
  unfold has_column. induction df as [|[n c0] df IH]; simpl; [done|].
  destruct (String.eqb n other) eqn:E; simpl.
  - intros _. destruct (String.eqb n name); simpl; by rewrite E.
  - intros H. destruct (String.eqb n name); simpl; rewrite E; simpl; auto.
Qed.

(** The split succeeds on a batch in which some record has three components
    or more. *)
Lemma split_demographics_succeeds pd df demographics v :
  getitem df "demographics" = Ok demographics ->
  In v demographics -> (3 <= components v)%nat ->
  exists out, PrisonerDataTransformer.split_demographics pd df = Ok out.
Proof.
  intros Hd Hin Hv.
  destruct v as [|s|z|lit]; simpl in Hv; try lia.
  assert (Hw : (3 <= expand_width (map split_row demographics))%nat).
  { etransitivity; [|apply (row_width_le_expand_width (split_row (Text s)))].
    - exact Hv.
    - by apply in_map. }
  assert (Hstrip : forall k, (k < 3)%nat ->
            str_strip (map (fun v => expand_cell k (split_row v)) demographics)
            = Ok (map (piece k) demographics)).
  { intros k Hk. unfold str_strip.
    rewrite (str_accessor_text _ (expand_cell k (split_row (Text s)))).
    - simpl. rewrite map_map. f_equal. apply map_ext. intros w.
      apply strip_expand_cell.
    - by apply (in_map (fun v => expand_cell k (split_row v))).
    - simpl. destruct (split comma s !! k) eqn:E; [done|].
      apply lookup_ge_None in E. lia. }
  unfold PrisonerDataTransformer.split_demographics,
    PrisonerDataTransformer.split_columns.
  rewrite Hd. simpl.
  rewrite (str_accessor_text _ (Text s)) by done. simpl.
  rewrite !expanded_getitem_lt by lia.
  simpl. rewrite !Hstrip by lia. simpl.
  rewrite getitem_setitem_ne, getitem_setitem_ne, getitem_setitem_eq by done.
  simpl.
  rewrite getitem_setitem_ne, getitem_setitem_eq by done.
  simpl. unfold drop.
  match goal with
  | |- context [has_column ?d ?n] =>
      assert (has_column d n = true) as ->
        by (repeat apply has_column_setitem; by eapply has_column_getitem)
  end.
  simpl.
  rewrite getitem_filter_ne by done.
  rewrite !getitem_setitem_ne, getitem_setitem_eq by done.
  simpl. eauto.
Qed.

(** A record with no more than [k] components has no piece number [k]. *)
Lemma piece_missing k v : (components v <= k)%nat -> piece k v = NA.
Proof.
  destruct v as [|s|z|lit]; simpl; try done.
  intros H. by rewrite (proj2 (lookup_ge_None _ _) H).
Qed.

(** ** The Transform Pipeline *)

Lemma split_demographics_has_demographics pd df out :
  PrisonerDataTransformer.split_demographics pd df = Ok out ->
  exists demographics, getitem df "demographics" = Ok demographics.
Proof.
  unfold PrisonerDataTransformer.split_demographics,
    PrisonerDataTransformer.split_columns.
  destruct (getitem df "demographics") as [c|e]; [eauto | discriminate].
Qed.

(** C2 as stated: on the row with only [full_name], [demographics] and
    [organization] the transformer raises, whatever the parsers and the
    clock, and the module-level [transform_data] writes no output. *)
Lemma C2_three_columns_raise :
  ~ (exists pd clk out,
       PrisonerDataTransformer.transform_data pd clk scenario_row = Ok out)
  /\ PrisonerDataTransformer.transform_data sample_pandas clock_2024 scenario_row
     = Raise (KeyError (KName "birth_date"))
  /\ (transform_data sample_pandas scenario_world).1 = Ok tt
  /\ files (transform_data sample_pandas scenario_world).2 !! transformed_csv = None
  /\ log (transform_data sample_pandas scenario_world).2
     = [(ERROR, ErrorOccurred (KeyError (KName "birth_date")))].
Proof.
  split; [|repeat split; vm_compute; reflexivity].
  intros (pd & clk & out & H). vm_compute in H. discriminate.
Qed.

(** C2 on the full schema: the row [{full_name: "א", demographics:
    "זכר, 30, י-ם", organization: "חמאס"}], in a raw CSV that also has the
    six other columns the transformer reads (empty), becomes the canonical
    record with gender MALE, age 30, residence JERUSALEM and organization
    HAMAS, and that record is what the transformed CSV holds after
    [transform_data] wherever it can be written: when [output] is a
    directory and neither CSV path is one. Elsewhere the path of the
    transformed CSV holds what it held. *)
Theorem C2_scenario_full_schema (pd : pandas) (clk : clock) :
  PrisonerDataTransformer.transform_data pd clk scenario_row_full
  = Ok scenario_canonical
  /\ (forall w f,
        files w !! raw_csv = Some f ->
        read_csv pd f = Ok scenario_row_full ->
        files (transform_data pd w).2 !! transformed_csv
        = if is_dir "output" w && negb (is_dir raw_csv w)
             && negb (is_dir transformed_csv w)
          then Some (CsvOf scenario_canonical)
          else files w !! transformed_csv).
Proof.
  assert (Ht : forall c, PrisonerDataTransformer.transform_data pd c scenario_row_full
                         = Ok scenario_canonical)
    by (intros c; vm_compute; reflexivity).
  split; [apply Ht|].
  intros w f Hf Hr.
  unfold transform_data, try_except, transform_data_try.
  unfold mbind at 1, M_bind at 1, open_csv.
  destruct (is_dir raw_csv w) eqn:Hraw.
  { by rewrite andb_false_r. }
  rewrite Hf, Hr.
  unfold mbind at 1, M_bind at 1, lift. rewrite Ht.
  unfold mbind at 1, M_bind at 1.
  destruct (PrisonerDataTransformer.validate_data scenario_canonical)
    as [validation_stats|e] eqn:Hv; [|vm_compute in Hv; discriminate].
  unfold mbind at 1, M_bind at 1, to_csv. rewrite dirname_transformed_csv.
  destruct (is_dir "output" w) eqn:Ho; [|reflexivity].
  unfold open_and_write at 1. rewrite dirname_transformed_csv, Ho.
  destruct (is_dir transformed_csv w) eqn:Htr; [reflexivity|].
  cbn [andb negb].
  set (w1 := set_files _ w).
  assert (Hw1 : files w1 !! transformed_csv = Some (CsvOf scenario_canonical))
    by apply lookup_insert_eq.
  unfold mbind at 1, M_bind at 1.
  destruct (open_and_write_outcome stats_md (ReportOf validation_stats) w1)
    as [-> | [e ->]].
  - unfold mbind, M_bind, logging_info. cbn [set_files set_log files snd].
    rewrite lookup_insert_ne by done. exact Hw1.
  - destruct e; exact Hw1.
Qed.


(** The clock reaches the output through the date columns only. *)
Lemma transform_data_clocks pd c1 c2 df :
  Forall (fun v => PrisonerDataTransformer.format_date pd c1 v
                   = PrisonerDataTransformer.format_date pd c2 v) (date_cells df) ->
  PrisonerDataTransformer.transform_data pd c1 df
  = PrisonerDataTransformer.transform_data pd c2 df.
Proof.
  intros Hcells.
  unfold PrisonerDataTransformer.transform_data.
  destruct (PrisonerDataTransformer.split_demographics pd df) as [df1|e] eqn:Hs;
    [|reflexivity].
  destruct (split_demographics_has_demographics _ _ _ Hs) as [demographics Hd].
  destruct (split_demographics_Ok _ _ _ _ Hd Hs) as (_ & _ & _ & Hother).
  unfold date_cells in Hcells. apply Forall_app in Hcells as [Hb Ha].
  simpl. unfold PrisonerDataTransformer.apply_column at 7 14.
  rewrite Hother by done.
  destruct (getitem df "birth_date") as [cb|eb]; [|reflexivity].
  simpl.
  assert (apply (PrisonerDataTransformer.format_date pd c1) cb
          = apply (PrisonerDataTransformer.format_date pd c2) cb) as ->.
  { unfold apply. apply map_ext_in. intros v Hv.
    rewrite Forall_forall in Hb. apply Hb. by apply list_elem_of_In. }
  unfold PrisonerDataTransformer.apply_column at 6 12.
  rewrite getitem_setitem_ne, Hother by done.
  destruct (getitem df "arrest_date") as [ca|ea]; [|reflexivity].
  simpl.
  assert (apply (PrisonerDataTransformer.format_date pd c1) ca
          = apply (PrisonerDataTransformer.format_date pd c2) ca) as ->.
  { unfold apply. apply map_ext_in. intros v Hv.
    rewrite Forall_forall in Ha. apply Ha. by apply list_elem_of_In. }
  reflexivity.
Qed.

(** Apart from the texts [now] and [today], [format_date] reads the clock
    only if the date parser does. *)
Lemma format_date_clock_free pd c1 c2 v :
  clock_free pd -> reads_the_clock v = false ->
  PrisonerDataTransformer.format_date pd c1 v
  = PrisonerDataTransformer.format_date pd c2 v.
Proof.
  intros Hpd Hv. unfold PrisonerDataTransformer.format_date, to_datetime.
  destruct v as [|s|z|lit]; cbn [isna]; [reflexivity| |by rewrite (Hpd c1 c2)..].
  cbn [reads_the_clock] in Hv. apply orb_false_iff in Hv as [-> ->].
  by rewrite (Hpd c1 c2).
Qed.



(** ** The Page Harvester *)

Lemma only_logged_refl w : only_logged w w.
Proof. by repeat split. Qed.

Lemma only_logged_set_log l w : only_logged w (set_log l w).
Proof. by repeat split. Qed.

Lemma only_logged_trans w1 w2 w3 :
  only_logged w1 w2 -> only_logged w2 w3 -> only_logged w1 w3.
Proof.
  unfold only_logged. intros H1 H2.
  destruct H1 as (?&?&?&?&?&?&?&?&?), H2 as (?&?&?&?&?&?&?&?&?).
  repeat split; congruence.
Qed.

Lemma lift_bind {A B} (r : result A) (k : A -> M B) w :
  (lift r ≫= k) w = match r with
                    | Ok a => k a w
                    | Raise e => (Raise e, w)
                    end.
Proof. unfold mbind, M_bind, lift. by destruct r. Qed.

Lemma logging_info_bind {B} m (k : unit -> M B) w :
  (logging_info m ≫= k) w = k tt (set_log (log w ++ [(INFO, m)]) w).
Proof. reflexivity. Qed.

Lemma page_goto_bind {B} skip (k : page -> M B) w :
  (page_goto skip ≫= k) w
  = match goto (site w skip) with
    | Ok _ => k (site w skip) (set_navigations (navigations w ++ [skip]) w)
    | Raise e => (Raise e, set_navigations (navigations w ++ [skip]) w)
    end.
Proof. unfold mbind, M_bind, page_goto. by destruct (goto (site w skip)). Qed.

(** The records of [for_rows] are those of [extract_rows], after the ones
    already gathered; a failure of a block is a failure of the loop. *)
Lemma for_rows_result rs acc w :
  (DynamicPrisonerScraper.for_rows rs acc w).1
  = extract_rows rs ≫= fun ds => Ok (acc ++ ds).
Proof.
  revert acc w. induction rs as [|r rest IH]; intros acc w; simpl.
  - by rewrite app_nil_r.
  - unfold extract_row. rewrite lift_bind.
    destruct (query_fields r) as [fs|e]; simpl; [|done].
    rewrite lift_bind.
    destruct (DynamicPrisonerScraper.for_fields fs []) as [data|e]; simpl; [|done].
    rewrite logging_info_bind, IH.
    destruct (extract_rows rest) as [ds|e]; simpl; [|done].
    by rewrite <- app_assoc.
Qed.

Lemma for_rows_world rs acc w :
  only_logged w (DynamicPrisonerScraper.for_rows rs acc w).2.
Proof.
  revert acc w. induction rs as [|r rest IH]; intros acc w; simpl.
  - apply only_logged_refl.
  - rewrite lift_bind.
    destruct (query_fields r) as [fs|e]; simpl; [|apply only_logged_refl].
    rewrite lift_bind.
    destruct (DynamicPrisonerScraper.for_fields fs []) as [data|e]; simpl;
      [|apply only_logged_refl].
    rewrite logging_info_bind.
    eapply only_logged_trans; [|apply IH]. apply only_logged_set_log.
Qed.

(** [get_page_data] returns the records of the page, or no record when
    navigation, waiting or extraction fails. *)
Lemma get_page_data_result skip w :
  (DynamicPrisonerScraper.get_page_data skip w).1
  = Ok (match harvest (site w skip) with Ok ds => ds | Raise _ => [] end).
Proof.
  unfold DynamicPrisonerScraper.get_page_data, try_except,
    DynamicPrisonerScraper.get_page_data_try, harvest.
  rewrite page_goto_bind.
  destruct (goto (site w skip)) as [[]|e]; simpl; [|done].
  rewrite logging_info_bind, lift_bind.
  destruct (wait_for_selector (site w skip)) as [[]|e]; simpl; [|done].
  rewrite lift_bind.
  destruct (query_rows (site w skip)) as [rs|e]; simpl; [|done].
  rewrite logging_info_bind.
  match goal with
  | |- context [DynamicPrisonerScraper.for_rows rs [] ?w0] =>
      pose proof (for_rows_result rs [] w0) as Hr;
      destruct (DynamicPrisonerScraper.for_rows rs [] w0) as [[ds|e] w1]
  end; simpl in *.
  - destruct (extract_rows rs); simpl in *; congruence.
  - destruct (extract_rows rs); simpl in *; [discriminate | done].
Qed.

(** [get_page_data] notes one navigation and writes to the log; it changes
    nothing else. *)
Lemma get_page_data_world skip w :
  only_logged (set_navigations (navigations w ++ [skip]) w)
    (DynamicPrisonerScraper.get_page_data skip w).2.
Proof.
  unfold DynamicPrisonerScraper.get_page_data, try_except,
    DynamicPrisonerScraper.get_page_data_try.
  rewrite page_goto_bind.
  destruct (goto (site w skip)) as [[]|e]; simpl; [|by repeat split].
  rewrite logging_info_bind, lift_bind.
  destruct (wait_for_selector (site w skip)) as [[]|e]; simpl; [|by repeat split].
  rewrite lift_bind.
  destruct (query_rows (site w skip)) as [rs|e]; simpl; [|by repeat split].
  rewrite logging_info_bind.
  match goal with
  | |- context [DynamicPrisonerScraper.for_rows rs [] ?w0] =>
      pose proof (for_rows_world rs [] w0) as Hw;
      destruct (DynamicPrisonerScraper.for_rows rs [] w0) as [[ds|e] w1]
  end; simpl in *.
  - eapply only_logged_trans; [|exact Hw]. by repeat split.
  - eapply only_logged_trans; [|apply only_logged_set_log].
    eapply only_logged_trans; [|exact Hw]. by repeat split.
Qed.

Lemma extract_rows_exists_raise rs :
  Exists (fun r => raises (extract_row r) = true) rs ->
  raises (extract_rows rs) = true.
Proof.
  induction 1 as [r rest Hr|r rest _ IH]; simpl.
  - by destruct (extract_row r).
  - destruct (extract_row r); [|done]. simpl.
    by destruct (extract_rows rest).
Qed.

Lemma extract_rows_length rs ds :
  extract_rows rs = Ok ds -> length ds = length rs.
Proof.
  revert ds. induction rs as [|r rest IH]; intros ds; simpl.
  - by intros [= <-].
  - intros H. bind_inv H as data Hd. bind_inv H as others Ho.
    injection H as <-. simpl. f_equal. by apply IH.
Qed.

(** C5: [get_page_data] never raises, and a failure of navigation, of the
    wait for the content, or of the extraction of any block makes it return
    no record. *)
Theorem C5_failures_become_empty_pages skip w :
  (exists prisoners, (DynamicPrisonerScraper.get_page_data skip w).1 = Ok prisoners)
  /\ (forall e, goto (site w skip) = Raise e ->
        (DynamicPrisonerScraper.get_page_data skip w).1 = Ok [])
  /\ (forall e, wait_for_selector (site w skip) = Raise e ->
        (DynamicPrisonerScraper.get_page_data skip w).1 = Ok [])
  /\ (forall e, query_rows (site w skip) = Raise e ->
        (DynamicPrisonerScraper.get_page_data skip w).1 = Ok [])
  /\ (forall rs, query_rows (site w skip) = Ok rs ->
        Exists (fun r => raises (extract_row r) = true) rs ->
        (DynamicPrisonerScraper.get_page_data skip w).1 = Ok [])
  /\ (forall e w', DynamicPrisonerScraper.get_page_data_try skip w = (Raise e, w') ->
        DynamicPrisonerScraper.get_page_data skip w
        = (Ok [], set_log (log w' ++ [(ERROR, ErrorProcessingPage skip e)]) w')).
Proof.
  rewrite get_page_data_result. unfold harvest.
  split; [eauto|].
  split; [by intros e ->|].
  split; [intros e ->; by destruct (goto (site w skip))|].
  split.
  { intros e ->. destruct (goto (site w skip)); [|done].
    by destruct (wait_for_selector (site w skip)). }
  split.
  { intros rs -> Hex. apply extract_rows_exists_raise in Hex.
    destruct (goto (site w skip)); [|done].
    destruct (wait_for_selector (site w skip)); [|done].
    simpl. by destruct (extract_rows rs). }
  intros e w' H. unfold DynamicPrisonerScraper.get_page_data, try_except.
  by rewrite H.
Qed.

(** ** The Pagination Controller *)

Lemma for_fields_unmapped fs data :
  forallb unmapped_field fs = true ->
  DynamicPrisonerScraper.for_fields fs data = Ok data.
Proof.
  induction fs as [|f rest IH]; [done|].
  cbn [forallb]. intros [Hf Hrest]%andb_prop.
  cbn -[field_mapping strip]. unfold unmapped_field in Hf.
  destruct (query_label f) as [[l|]|e]; try discriminate;
    destruct (query_value f) as [[v|]|e']; try discriminate;
    cbn -[field_mapping strip]; auto.
  destruct (inner_text l) as [label|e]; try discriminate.
  destruct (inner_text v) as [value|e]; try discriminate.
  cbn -[field_mapping strip].
  destruct (field_mapping !! strip label); [discriminate|].
  cbn -[field_mapping strip]. auto.
Qed.

Lemma extract_rows_unmapped rs :
  forallb unmapped_row rs = true ->
  extract_rows rs = Ok (replicate (length rs) []).
Proof.
  induction rs as [|r rest IH]; simpl; [done|].
  intros [Hr Hrest]%andb_prop. unfold unmapped_row in Hr. unfold extract_row.
  destruct (query_fields r) as [fs|e]; [|discriminate]. simpl.
  rewrite (for_fields_unmapped _ _ Hr). simpl. by rewrite (IH Hrest).
Qed.

(** One iteration of the loop on a page that has records: they are
    appended and, without a ceiling, the loop goes on at the next offset. *)
Lemma scrape_loop_step fetch fuel skip page_num all_prisoners w d ds w1 :
  fetch skip (set_log (log w ++ [(INFO, ScrapingPage page_num)]) w)
  = (Ok (d :: ds), w1) ->
  DynamicPrisonerScraper.scrape_loop fetch (S fuel) None skip page_num
    all_prisoners w
  = DynamicPrisonerScraper.scrape_loop fetch fuel None (skip + 20) (page_num + 1)
      (all_prisoners ++ d :: ds)
      (set_slept
         (slept w1 + 2)
         (set_log (log w1 ++ [(INFO, FoundPrisoners (length (d :: ds)) page_num)]) w1)).
Proof. intros H. simpl. by rewrite H. Qed.

(** One iteration of the loop on a page without records: the loop ends
    with what it has gathered. *)
Lemma scrape_loop_stop fetch fuel max_pages skip page_num all_prisoners w w1 :
  fetch skip (set_log (log w ++ [(INFO, ScrapingPage page_num)]) w) = (Ok [], w1) ->
  DynamicPrisonerScraper.scrape_loop fetch (S fuel) max_pages skip page_num
    all_prisoners w
  = Some (Ok all_prisoners, w1).
Proof. intros H. simpl. by rewrite H. Qed.

Lemma scripted_fetch_call script skip w calls page :
  navigations w = calls ->
  nth (length calls) script [] = page ->
  scripted_fetch script skip w
  = (Ok page, set_navigations (calls ++ [skip]) w).
Proof. intros <- <-. reflexivity. Qed.

(** C3: driven by a fetch function that returns three records, then two,
    then none, and with no ceiling, [scrape_all_pages] returns the five
    records in order after exactly three fetches, at the offsets 0, 20 and
    40, sleeping two seconds after each of the two pages that had records;
    any number of iterations from three on suffices. *)
Theorem C3_three_two_zero (a b c d e : RawRecord) (w : world) (extra : nat) :
  launch w = Ok tt -> navigations w = [] ->
  exists w',
    DynamicPrisonerScraper.scrape_all_pages_with
      (scripted_fetch [[a; b; c]; [d; e]; []]) (3 + extra) None w
    = Some (Ok [a; b; c; d; e], w')
    /\ navigations w' = [0; 20; 40]
    /\ sessions_started w' = S (sessions_started w)
    /\ sessions_closed w' = S (sessions_closed w)
    /\ slept w' = slept w + 2 + 2.
Proof.
  intros Hl Hn.
  unfold DynamicPrisonerScraper.scrape_all_pages_with,
    DynamicPrisonerScraper.init_browser.
  rewrite Hl.
  change (3 + extra)%nat with (S (S (S extra))).
  erewrite scrape_loop_step;
    [|apply (scripted_fetch_call _ _ _ []); [exact Hn | reflexivity]].
  erewrite scrape_loop_step;
    [|apply (scripted_fetch_call _ _ _ [0]); reflexivity].
  erewrite scrape_loop_stop;
    [|apply (scripted_fetch_call _ _ _ [0; 20]); reflexivity].
  eexists. split; [reflexivity|]. by repeat split.
Qed.

Lemma C3_three_two_zero_witness :
  exists w',
    DynamicPrisonerScraper.scrape_all_pages_with
      (scripted_fetch
         [ [[("full_name"%string, u "א")]; [("full_name"%string, u "ב")];
            [("full_name"%string, u "ג")]];
           [[("full_name"%string, u "ד")]; [("full_name"%string, u "ה")]];
           [] ])
      3 None empty_world
    = Some (Ok [ [("full_name"%string, u "א")]; [("full_name"%string, u "ב")];
                 [("full_name"%string, u "ג")]; [("full_name"%string, u "ד")];
                 [("full_name"%string, u "ה")] ], w')
    /\ navigations w' = [0; 20; 40]
    /\ sessions_started w' = 1%nat
    /\ sessions_closed w' = 1%nat
    /\ slept w' = 4.
Proof.
  exact (C3_three_two_zero _ _ _ _ _ empty_world 0 eq_refl eq_refl).
Defined.

(** C10: a page whose navigation, wait and extraction succeed yields
    exactly one record per block; when no label of any block is in
    [field_mapping] these records are all empty, and a page with at least
    one such block still makes the loop go on to the next offset. *)
Theorem C10_empty_records_count skip w rs :
  goto (site w skip) = Ok tt ->
  wait_for_selector (site w skip) = Ok tt ->
  query_rows (site w skip) = Ok rs ->
  (forall ds, extract_rows rs = Ok ds ->
      (DynamicPrisonerScraper.get_page_data skip w).1 = Ok ds
      /\ length ds = length rs)
  /\ (forallb unmapped_row rs = true ->
      (DynamicPrisonerScraper.get_page_data skip w).1
      = Ok (replicate (length rs) [])
      /\ (rs <> [] ->
          forall fuel page_num all_prisoners, exists w',
            site w' = site w
            /\ navigations w' = navigations w ++ [skip]
            /\ DynamicPrisonerScraper.scrape_loop DynamicPrisonerScraper.get_page_data
                 (S fuel) None skip page_num all_prisoners w
               = DynamicPrisonerScraper.scrape_loop
                   DynamicPrisonerScraper.get_page_data fuel None (skip + 20)
                   (page_num + 1)
                   (all_prisoners ++ replicate (length rs) []) w')).
Proof.
  intros Hg Hw Hq.
  assert (Hres : forall w0, site w0 = site w ->
            (DynamicPrisonerScraper.get_page_data skip w0).1
            = Ok (match extract_rows rs with Ok ds => ds | Raise _ => [] end)).
  { intros w0 Hs. rewrite get_page_data_result, Hs. unfold harvest.
    rewrite Hg, Hw, Hq. reflexivity. }
  split.
  - intros ds Hds. rewrite (Hres w eq_refl), Hds.
    split; [reflexivity | by apply extract_rows_length].
  - intros Hun. pose proof (extract_rows_unmapped rs Hun) as Hex.
    split; [by rewrite (Hres w eq_refl), Hex|].
    intros Hne fuel page_num all_prisoners.
    set (w0 := set_log (log w ++ [(INFO, ScrapingPage page_num)]) w).
    pose proof (Hres w0 eq_refl) as Hr. rewrite Hex in Hr.
    pose proof (get_page_data_world skip w0) as Hwd.
    destruct (DynamicPrisonerScraper.get_page_data skip w0) as [r w1] eqn:Hf.
    simpl in Hr, Hwd. subst r.
    destruct rs as [|r0 rest]; [done|]. simpl replicate in *.
    eexists. split; [|split; [|apply (scrape_loop_step _ _ _ _ _ _ _ _ _ Hf)]].
    + cbn [site set_slept set_log]. by destruct Hwd as (-> & _).
    + cbn [navigations set_slept set_log].
      by destruct Hwd as (_ & _ & _ & _ & -> & _).
Qed.

Lemma C10_empty_records_count_witness :
  (DynamicPrisonerScraper.get_page_data 0 unknown_world).1 = Ok [[]; []].
Proof.
  destruct (C10_empty_records_count 0 unknown_world unknown_blocks
              eq_refl eq_refl eq_refl) as [_ Hun].
  destruct (Hun eq_refl) as [Hres _]. exact Hres.
Defined.

(** ** The module-level functions *)

(** With something at the path of the raw file [scrap_data] only writes a
    log entry (and creates the [output] directory if the world lacks it). *)
Lemma scrap_data_existing fuel w :
  path_exists raw_csv w = true ->
  exists w',
    scrap_data fuel w = Some (Ok tt, w')
    /\ site w' = site w
    /\ sessions_started w' = sessions_started w
    /\ sessions_closed w' = sessions_closed w
    /\ navigations w' = navigations w
    /\ files w' = files w
    /\ log w' = log w ++ [(INFO, FileExistsSkipping)].
Proof.
  intros Hf. unfold scrap_data.
  assert (Hp : forall w0, files w0 = files w -> dirs w ⊆ dirs w0 ->
                          path_exists raw_csv w0 = true).
  { intros w0 Hw0 Hd. unfold path_exists in *. rewrite Hw0.
    apply orb_true_iff in Hf as [Hf|Hf]; [|by rewrite Hf, orb_true_r].
    apply bool_decide_eq_true in Hf.
    rewrite (bool_decide_eq_true_2 (raw_csv ∈ dirs w0)); [done|]. by apply Hd. }
  destruct (negb (path_exists "output" w)).
  - rewrite Hp; [|reflexivity|cbn [makedirs snd dirs set_dirs]; set_solver].
    eexists. split; [reflexivity|]. by repeat split.
  - rewrite Hp by done. eexists. split; [reflexivity|]. by repeat split.
Qed.

Lemma path_exists_file p w : is_Some (files w !! p) -> path_exists p w = true.
Proof.
  intros H. unfold path_exists. rewrite (bool_decide_eq_true_2 _ H).
  apply orb_true_r.
Qed.

(** C9: when [output/prisoners_data.csv] exists, [scrap_data] returns
    normally without starting a browser session and without fetching a
    page; it writes one informational log entry, no error entry, and leaves
    the files as they are. *)
Theorem C9_existing_raw_file_is_not_scraped fuel w :
  is_Some (files w !! raw_csv) ->
  exists w',
    scrap_data fuel w = Some (Ok tt, w')
    /\ sessions_started w' = sessions_started w
    /\ sessions_closed w' = sessions_closed w
    /\ navigations w' = navigations w
    /\ files w' = files w
    /\ log w' = log w ++ [(INFO, FileExistsSkipping)].
Proof.
  intros Hf.
  destruct (scrap_data_existing fuel w (path_exists_file _ _ Hf))
    as (w' & Hs & _ & H1 & H2 & H3 & H4 & H5).
  exists w'. by repeat split.
Qed.

Lemma C9_existing_raw_file_is_not_scraped_witness :
  exists w',
    scrap_data 0 harvested_world = Some (Ok tt, w')
    /\ sessions_started w' = O
    /\ sessions_closed w' = O
    /\ navigations w' = []
    /\ files w' = files harvested_world
    /\ log w' = [(INFO, FileExistsSkipping)].
Proof.
  apply (C9_existing_raw_file_is_not_scraped 0 harvested_world).
  vm_compute. eauto.
Defined.

(** [transform_data] catches every exception: it always returns normally. *)
Lemma transform_data_returns pd w : (transform_data pd w).1 = Ok tt.
Proof.
  unfold transform_data, try_except.
  destruct (transform_data_try pd w) as [[[]|e] w']; [done|].
  by destruct e.
Qed.

(** When it cannot read its input file [transform_data] logs one error and
    changes nothing else. *)
Lemma transform_data_missing_input pd w e :
  input_error w = Some e -> transform_data pd w = transform_failed e w.
Proof.
  unfold input_error. intros Hf.
  unfold transform_data, try_except, transform_data_try.
  unfold mbind at 1, M_bind at 1, open_csv.
  destruct (is_dir raw_csv w).
  - injection Hf as <-. reflexivity.
  - destruct (files w !! raw_csv); [discriminate|]. injection Hf as <-.
    unfold transform_failed. by destruct (no_such_file raw_csv w).
Qed.

(** C7 as stated, at two runs of [main]. In a world where a directory
    bears the name of the raw CSV, the extraction is skipped, the transform
    stage has no input file to read, logs an error and writes nothing, and
    the exit status is 0: the status does not tell that the input was
    missing. In a world whose browser cannot be started, the failure leaves
    [main] with status 1 and the transform stage does not run: it does not
    run unconditionally. *)
Lemma C7_status_and_unconditional_run :
  ~ (forall pd fuel w r w',
       main pd fuel w = Some (r, w') ->
       files w' !! raw_csv = None -> exit_status r <> 0)
  /\ ~ (forall pd fuel w r w',
          main pd fuel w = Some (r, w') ->
          exists w1, transform_data pd w1 = (r, w'))
  /\ (exists w',
        main sample_pandas 0 raw_directory_world = Some (Ok tt, w')
        /\ input_error raw_directory_world = Some IsADirectoryError
        /\ files w' = ∅
        /\ log w' = [(INFO, FileExistsSkipping);
                     (ERROR, ErrorOccurred IsADirectoryError)]
        /\ exit_status (Ok tt) = 0)
  /\ (exists w',
        main sample_pandas 0 browserless_world
        = Some (Raise PlaywrightError, w')
        /\ log w' = []
        /\ files w' = ∅
        /\ exit_status (Raise PlaywrightError) = 1).
Proof.
  assert (H1 : exists w',
             main sample_pandas 0 raw_directory_world = Some (Ok tt, w')
             /\ input_error raw_directory_world = Some IsADirectoryError
             /\ files w' = ∅
             /\ log w' = [(INFO, FileExistsSkipping);
                          (ERROR, ErrorOccurred IsADirectoryError)]
             /\ exit_status (Ok tt) = 0).
  { eexists. split; [vm_compute; reflexivity|]. by repeat split. }
  assert (H2 : exists w',
             main sample_pandas 0 browserless_world
             = Some (Raise PlaywrightError, w')
             /\ log w' = []
             /\ files w' = ∅
             /\ exit_status (Raise PlaywrightError) = 1).
  { eexists. split; [vm_compute; reflexivity|]. by repeat split. }
  split; [|split; [|split; [exact H1 | exact H2]]].
  - intros H. destruct H1 as (w' & Hm & _ & Hf & _).
    apply (H _ _ _ _ _ Hm); [by rewrite Hf | reflexivity].
  - intros H. destruct H2 as (w' & Hm & _).
    destruct (H _ _ _ _ _ Hm) as [w1 Hw1].
    pose proof (transform_data_returns sample_pandas w1) as Hr.
    rewrite Hw1 in Hr. discriminate Hr.
Qed.

(** C7 as the code has it: when something is at the path of the raw file
    the extraction is skipped; whenever the extraction returns normally
    [transform_data] runs next and the exit status is 0, because
    [transform_data] never raises; when it cannot read its input file it
    only logs an error, with no file written; and the exit status is 1
    exactly when the extraction raises, in which case [transform_data] does
    not run. *)
Theorem C7_entry_point pd fuel w :
  (path_exists raw_csv w = true ->
     exists w1, scrap_data fuel w = Some (Ok tt, w1)
                /\ sessions_started w1 = sessions_started w
                /\ navigations w1 = navigations w
                /\ files w1 = files w
                /\ main pd fuel w = Some (transform_data pd w1))
  /\ (forall w1, scrap_data fuel w = Some (Ok tt, w1) ->
        main pd fuel w = Some (transform_data pd w1)
        /\ exit_status (transform_data pd w1).1 = 0)
  /\ (forall w1 e, input_error w1 = Some e ->
        transform_data pd w1
        = (Ok tt, set_log (log w1 ++ [(ERROR, handler_message e)]) w1))
  /\ (forall e w1, scrap_data fuel w = Some (Raise e, w1) ->
        main pd fuel w = Some (Raise e, w1)
        /\ exit_status (Raise e) = 1).
Proof.
  split; [|split; [|split]].
  - intros Hf.
    destruct (scrap_data_existing fuel w Hf)
      as (w1 & Hs & _ & Hst & _ & Hn & Hfl & _).
    exists w1. repeat split; try done. unfold main. by rewrite Hs.
  - intros w1 Hs. unfold main. rewrite Hs.
    split; [done|]. by rewrite transform_data_returns.
  - intros w1 e. apply transform_data_missing_input.
  - intros e w1 Hs. unfold main. by rewrite Hs.
Qed.

(** * Further properties *)

(** ** The pagination loop *)

Lemma scraped_refl w : scraped w w [] 0.
Proof. unfold scraped. rewrite app_nil_r, Z.add_0_r. by repeat split. Qed.

Lemma scraped_trans w1 w2 w3 o1 o2 s1 s2 :
  scraped w1 w2 o1 s1 -> scraped w2 w3 o2 s2 ->
  scraped w1 w3 (o1 ++ o2) (s1 + s2).
Proof.
  unfold scraped.
  intros (?&?&?&?&Hn1&Hs1&?&?&?) (?&?&?&?&Hn2&Hs2&?&?&?).
  repeat split; try congruence.
  - by rewrite Hn2, Hn1, app_assoc.
  - rewrite Hs2, Hs1. lia.
Qed.

Lemma scraped_set_log l w : scraped w (set_log l w) [] 0.
Proof.
  unfold scraped. cbn [site launch sessions_started sessions_closed navigations
                         slept dirs files now set_log].
  rewrite app_nil_r, Z.add_0_r. by repeat split.
Qed.

(** What one call of [get_page_data] returns and does. *)
Lemma get_page_data_spec skip w :
  exists w1,
    DynamicPrisonerScraper.get_page_data skip w
    = (Ok (page_records (site w skip)), w1)
    /\ scraped w w1 [skip] 0.
Proof.
  pose proof (get_page_data_result skip w) as Hr.
  pose proof (get_page_data_world skip w) as Hw.
  destruct (DynamicPrisonerScraper.get_page_data skip w) as [r w1].
  cbn [fst snd] in Hr, Hw. subst r. exists w1. split; [done|].
  destruct Hw as (H1&H2&H3&H4&H5&H6&H7&H8&H9).
  unfold scraped. rewrite Z.add_0_r. by repeat split.
Qed.

Lemma offset_of_S k : offset_of (S k) = offset_of k + 20.
Proof. unfold offset_of. lia. Qed.

(** One iteration on a page that has records, below the ceiling. *)
Lemma scrape_loop_continue fetch fuel max_pages skip page_num all_prisoners w d ds w1 :
  fetch skip (set_log (log w ++ [(INFO, ScrapingPage page_num)]) w)
  = (Ok (d :: ds), w1) ->
  DynamicPrisonerScraper.ceiling_reached max_pages page_num = false ->
  DynamicPrisonerScraper.scrape_loop fetch (S fuel) max_pages skip page_num
    all_prisoners w
  = DynamicPrisonerScraper.scrape_loop fetch fuel max_pages (skip + 20)
      (page_num + 1) (all_prisoners ++ d :: ds)
      (set_slept
         (slept w1 + 2)
         (set_log (log w1 ++ [(INFO, FoundPrisoners (length (d :: ds)) page_num)]) w1)).
Proof. intros H Hc. simpl. by rewrite H, Hc. Qed.

(** One iteration on a page that has records, at the ceiling. *)
Lemma scrape_loop_ceiling fetch fuel max_pages skip page_num all_prisoners w d ds w1 :
  fetch skip (set_log (log w ++ [(INFO, ScrapingPage page_num)]) w)
  = (Ok (d :: ds), w1) ->
  DynamicPrisonerScraper.ceiling_reached max_pages page_num = true ->
  DynamicPrisonerScraper.scrape_loop fetch (S fuel) max_pages skip page_num
    all_prisoners w
  = Some (Ok (all_prisoners ++ d :: ds),
          set_log (log w1 ++ [(INFO, FoundPrisoners (length (d :: ds)) page_num)]) w1).
Proof. intros H Hc. simpl. by rewrite H, Hc. Qed.

(** The loop from page [i] on, when the pages [i .. i+n-1] have records and
    are below the ceiling, and the page [i+n] has no record or is at the
    ceiling. *)
Lemma scrape_loop_run n : forall i max_pages all_prisoners w extra,
  (forall k, (k < n)%nat -> records_at w (i + k) <> []) ->
  (forall k, (k < n)%nat ->
     DynamicPrisonerScraper.ceiling_reached max_pages (Z.of_nat (i + k) + 1) = false) ->
  records_at w (i + n) = []
  \/ DynamicPrisonerScraper.ceiling_reached max_pages (Z.of_nat (i + n) + 1) = true ->
  exists w',
    DynamicPrisonerScraper.scrape_loop DynamicPrisonerScraper.get_page_data
      (S n + extra) max_pages (offset_of i) (Z.of_nat i + 1) all_prisoners w
    = Some (Ok (all_prisoners ++ concat (map (records_at w) (seq i (S n)))), w')
    /\ scraped w w' (map offset_of (seq i (S n))) (2 * Z.of_nat n).
Proof.
  induction n as [|n IH]; intros i max_pages all_prisoners w extra Hfull Hceil Hend.
  - rewrite Nat.add_0_r in Hend.
    set (w0 := set_log (log w ++ [(INFO, ScrapingPage (Z.of_nat i + 1))]) w).
    destruct (get_page_data_spec (offset_of i) w0) as (w1 & Hf & Hw1).
    change (page_records (site w0 (offset_of i))) with (records_at w i) in Hf.
    assert (Hw01 : scraped w w1 [offset_of i] 0)
      by (apply (scraped_trans w w0 w1 [] [offset_of i] 0 0);
          [apply scraped_set_log | exact Hw1]).
    cbn [seq map concat]. rewrite app_nil_r.
    destruct (records_at w i) as [|d ds] eqn:Hrec.
    + exists w1. split; [|exact Hw01].
      rewrite (scrape_loop_stop _ _ _ _ _ _ _ _ Hf). by rewrite app_nil_r.
    + destruct Hend as [Hend|Hend]; [done|].
      eexists. split.
      * apply (scrape_loop_ceiling _ _ _ _ _ _ _ _ _ _ Hf Hend).
      * apply (scraped_trans w w1 _ [offset_of i] [] 0 0 Hw01).
        apply scraped_set_log.
  - set (w0 := set_log (log w ++ [(INFO, ScrapingPage (Z.of_nat i + 1))]) w).
    destruct (get_page_data_spec (offset_of i) w0) as (w1 & Hf & Hw1).
    change (page_records (site w0 (offset_of i))) with (records_at w i) in Hf.
    pose proof (Hfull O ltac:(lia)) as Hne. rewrite Nat.add_0_r in Hne.
    pose proof (Hceil O ltac:(lia)) as Hc. rewrite Nat.add_0_r in Hc.
    destruct (records_at w i) as [|d ds] eqn:Hrec; [done|].
    set (w2 := set_slept (slept w1 + 2)
                 (set_log (log w1 ++ [(INFO, FoundPrisoners (length (d :: ds))
                                               (Z.of_nat i + 1))]) w1)).
    assert (Hw2 : scraped w w2 [offset_of i] 2).
    { apply (scraped_trans w w0 w2 [] [offset_of i] 0 2);
        [apply scraped_set_log|].
      destruct Hw1 as (H1&H2&H3&H4&H5&H6&H7&H8&H9).
      unfold scraped, w2.
      cbn [site launch sessions_started sessions_closed navigations slept dirs
             files now set_log set_slept].
      rewrite H6. repeat split; try done. lia. }
    assert (Hsite : forall k, records_at w2 k = records_at w k).
    { intros k. unfold records_at. by destruct Hw2 as (-> & _). }
    destruct (IH (S i) max_pages (all_prisoners ++ d :: ds) w2 extra)
      as (w' & Hloop & Hw').
    + intros k Hk. rewrite Hsite.
      replace (S i + k)%nat with (i + S k)%nat by lia. apply Hfull. lia.
    + intros k Hk. replace (S i + k)%nat with (i + S k)%nat by lia.
      apply Hceil. lia.
    + rewrite Hsite. replace (S i + n)%nat with (i + S n)%nat by lia. exact Hend.
    + exists w'. split.
      * change (S (S n) + extra)%nat with (S (S n + extra)).
        rewrite (scrape_loop_continue _ _ _ _ _ _ _ _ _ _ Hf Hc).
        fold w2.
        replace (offset_of i + 20) with (offset_of (S i))
          by apply offset_of_S.
        replace (Z.of_nat i + 1 + 1) with (Z.of_nat (S i) + 1) by lia.
        rewrite Hloop. f_equal. f_equal. f_equal.
        change (seq i (S (S n))) with (i :: seq (S i) (S n)).
        cbn [map concat]. rewrite Hrec, <- app_assoc. f_equal. f_equal.
        f_equal. apply map_ext. apply Hsite.
      * replace (map offset_of (seq i (S (S n))))
          with ([offset_of i] ++ map offset_of (seq (S i) (S n))) by reflexivity.
        replace (2 * Z.of_nat (S n)) with (2 + 2 * Z.of_nat n) by lia.
        by apply (scraped_trans w w2 w').
Qed.

(** X1: when the browser starts, the pages [0 .. n-1] have records and are
    below the ceiling, and the page [n] has none (it is empty or its fetch
    fails) or is at the ceiling, [scrape_all_pages] returns the records of
    the pages [0 .. n] in order, after one fetch at each of the offsets
    [0, 20, .., 20 n] and two seconds of sleep after each page but the last,
    with one browser session opened and closed and no file touched. *)
Theorem X1_scrape_all_pages_result n max_pages w extra :
  launch w = Ok tt ->
  (forall k, (k < n)%nat -> records_at w k <> []) ->
  (forall k, (k < n)%nat ->
     DynamicPrisonerScraper.ceiling_reached max_pages (Z.of_nat k + 1) = false) ->
  records_at w n = []
  \/ DynamicPrisonerScraper.ceiling_reached max_pages (Z.of_nat n + 1) = true ->
  exists w',
    DynamicPrisonerScraper.scrape_all_pages (S n + extra) max_pages w
    = Some (Ok (concat (map (records_at w) (seq 0 (S n)))), w')
    /\ navigations w' = navigations w ++ map offset_of (seq 0 (S n))
    /\ slept w' = slept w + 2 * Z.of_nat n
    /\ sessions_started w' = S (sessions_started w)
    /\ sessions_closed w' = S (sessions_closed w)
    /\ files w' = files w.
Proof.
  intros Hl Hfull Hceil Hend.
  unfold DynamicPrisonerScraper.scrape_all_pages,
    DynamicPrisonerScraper.scrape_all_pages_with,
    DynamicPrisonerScraper.init_browser.
  rewrite Hl.
  set (w0 := set_sessions (S (sessions_started w)) (sessions_closed w) w).
  destruct (scrape_loop_run n 0 max_pages [] w0 extra) as (w1 & Hloop & Hw1);
    [exact Hfull | exact Hceil | exact Hend |].
  change (offset_of 0) with 0 in Hloop. change (Z.of_nat 0 + 1) with 1 in Hloop.
  rewrite Hloop. eexists. split; [reflexivity|].
  destruct Hw1 as (H1&H2&H3&H4&H5&H6&H7&H8&H9).
  cbn [navigations slept sessions_started sessions_closed files set_sessions
         DynamicPrisonerScraper.close_browser snd].
  rewrite H3, H4, H5, H6, H8. by repeat split.
Qed.

Lemma X1_scrape_all_pages_result_witness :
  exists w',
    DynamicPrisonerScraper.scrape_all_pages 3 None small_world
    = Some (Ok [ [("full_name"%string, u "א")]; [("full_name"%string, u "ב")];
                 [("full_name"%string, u "ג")] ], w')
    /\ navigations w' = [0; 20; 40]
    /\ slept w' = 4
    /\ sessions_started w' = 1%nat
    /\ sessions_closed w' = 1%nat
    /\ files w' = ∅.
Proof.
  refine (X1_scrape_all_pages_result 2 None small_world 0 eq_refl _ _ _).
  - intros [|[|k]] Hk; [vm_compute; discriminate .. | lia].
  - reflexivity.
  - left. vm_compute. reflexivity.
Defined.

(** The loop under a positive ceiling: with [j] pages left before the
    ceiling, [j] iterations end it. *)
Lemma scrape_loop_bounded j : forall i all_prisoners w extra,
  exists w' ds k,
    DynamicPrisonerScraper.scrape_loop DynamicPrisonerScraper.get_page_data
      (S j + extra) (Some (Z.of_nat (i + S j))) (offset_of i) (Z.of_nat i + 1)
      all_prisoners w
    = Some (Ok (all_prisoners ++ ds), w')
    /\ (k <= j)%nat
    /\ scraped w w' (map offset_of (seq i (S k))) (2 * Z.of_nat k).
Proof.
  induction j as [|j IH]; intros i all_prisoners w extra.
  - destruct (records_at w i) as [|d ds] eqn:Hrec.
    + destruct (scrape_loop_run 0 i (Some (Z.of_nat (i + 1))) all_prisoners w extra)
        as (w' & Hloop & Hw'); [intros; lia | intros; lia | |].
      { left. by rewrite Nat.add_0_r. }
      exists w', (concat (map (records_at w) (seq i 1))), O.
      split; [exact Hloop | split; [lia | exact Hw']].
    + destruct (scrape_loop_run 0 i (Some (Z.of_nat (i + 1))) all_prisoners w extra)
        as (w' & Hloop & Hw'); [intros; lia | intros; lia | |].
      { right. rewrite Nat.add_0_r. unfold DynamicPrisonerScraper.ceiling_reached.
        apply andb_true_intro.
        split; [apply negb_true_iff, Z.eqb_neq; lia | apply Z.leb_le; lia]. }
      exists w', (concat (map (records_at w) (seq i 1))), O.
      split; [exact Hloop | split; [lia | exact Hw']].
  - set (w0 := set_log (log w ++ [(INFO, ScrapingPage (Z.of_nat i + 1))]) w).
    destruct (get_page_data_spec (offset_of i) w0) as (w1 & Hf & Hw1).
    change (page_records (site w0 (offset_of i))) with (records_at w i) in Hf.
    assert (Hw01 : scraped w w1 [offset_of i] 0)
      by (apply (scraped_trans w w0 w1 [] [offset_of i] 0 0);
          [apply scraped_set_log | exact Hw1]).
    destruct (records_at w i) as [|d ds] eqn:Hrec.
    + exists w1, [], O. split; [|split; [lia | exact Hw01]].
      change (S (S j) + extra)%nat with (S (S j + extra)).
      rewrite (scrape_loop_stop _ _ _ _ _ _ _ _ Hf). by rewrite app_nil_r.
    + set (w2 := set_slept (slept w1 + 2)
                   (set_log (log w1 ++ [(INFO, FoundPrisoners (length (d :: ds))
                                                 (Z.of_nat i + 1))]) w1)).
      assert (Hw2 : scraped w w2 [offset_of i] 2).
      { destruct Hw01 as (H1&H2&H3&H4&H5&H6&H7&H8&H9).
        unfold scraped, w2.
        cbn [site launch sessions_started sessions_closed navigations slept dirs
               files now set_log set_slept].
        rewrite H6. repeat split; try done. lia. }
      destruct (IH (S i) (all_prisoners ++ d :: ds) w2 extra)
        as (w' & ds' & k & Hloop & Hk & Hw').
      exists w', ((d :: ds) ++ ds'), (S k). split; [|split; [lia|]].
      * change (S (S j) + extra)%nat with (S (S j + extra)).
        rewrite (scrape_loop_continue _ _ _ _ _ _ _ _ _ _ Hf).
        -- fold w2.
           replace (offset_of i + 20) with (offset_of (S i)) by apply offset_of_S.
           replace (Z.of_nat i + 1 + 1) with (Z.of_nat (S i) + 1) by lia.
           replace (i + S (S j))%nat with (S i + S j)%nat by lia.
           rewrite Hloop. by rewrite <- app_assoc.
        -- unfold DynamicPrisonerScraper.ceiling_reached.
           apply andb_false_intro2, Z.leb_gt. lia.
      * replace (map offset_of (seq i (S (S k))))
          with ([offset_of i] ++ map offset_of (seq (S i) (S k))) by reflexivity.
        replace (2 * Z.of_nat (S k)) with (2 + 2 * Z.of_nat k) by lia.
        by apply (scraped_trans w w2 w').
Qed.

(** X2: under a ceiling of [m >= 1] pages, [scrape_all_pages] ends within
    [m] iterations whatever the site serves, once the browser has started:
    it returns normally after [k] fetches for some [1 <= k <= m], at the
    offsets [0, 20, .., 20 (k-1)], and closes the session it opened. *)
Theorem X2_ceiling_bounds_the_run m w extra :
  launch w = Ok tt ->
  exists w' ds k,
    DynamicPrisonerScraper.scrape_all_pages (S m + extra)
      (Some (Z.of_nat (S m))) w
    = Some (Ok ds, w')
    /\ (k <= m)%nat
    /\ navigations w' = navigations w ++ map offset_of (seq 0 (S k))
    /\ sessions_started w' = S (sessions_started w)
    /\ sessions_closed w' = S (sessions_closed w).
Proof.
  intros Hl.
  unfold DynamicPrisonerScraper.scrape_all_pages,
    DynamicPrisonerScraper.scrape_all_pages_with,
    DynamicPrisonerScraper.init_browser.
  rewrite Hl.
  set (w0 := set_sessions (S (sessions_started w)) (sessions_closed w) w).
  destruct (scrape_loop_bounded m 0 [] w0 extra) as (w1 & ds & k & Hloop & Hk & Hw1).
  change (offset_of 0) with 0 in Hloop. change (Z.of_nat 0 + 1) with 1 in Hloop.
  change (0 + S m)%nat with (S m) in Hloop.
  rewrite Hloop. exists (DynamicPrisonerScraper.close_browser w1).2, ds, k.
  split; [reflexivity|]. split; [exact Hk|].
  destruct Hw1 as (H1&H2&H3&H4&H5&H6&H7&H8&H9).
  cbn [navigations slept sessions_started sessions_closed files set_sessions
         DynamicPrisonerScraper.close_browser snd].
  rewrite H3, H4, H5. by repeat split.
Qed.

Lemma X2_ceiling_bounds_the_run_witness :
  exists w' ds k,
    DynamicPrisonerScraper.scrape_all_pages 1 (Some 1) unknown_world
    = Some (Ok ds, w')
    /\ (k <= 0)%nat
    /\ navigations w' = map offset_of (seq 0 (S k))
    /\ sessions_started w' = 1%nat
    /\ sessions_closed w' = 1%nat.
Proof.
  exact (X2_ceiling_bounds_the_run 0 unknown_world 0 eq_refl).
Defined.

Lemma scrape_loop_zero_ceiling fetch fuel : forall skip page_num all_prisoners w,
  DynamicPrisonerScraper.scrape_loop fetch fuel (Some 0) skip page_num all_prisoners w
  = DynamicPrisonerScraper.scrape_loop fetch fuel None skip page_num all_prisoners w.
Proof.
  induction fuel as [|fuel IH]; intros skip page_num all_prisoners w; [done|].
  cbn [DynamicPrisonerScraper.scrape_loop].
  destruct (fetch skip _) as [[[|d ds]|e] w1]; try done.
  cbn [DynamicPrisonerScraper.ceiling_reached Z.eqb negb andb]. apply IH.
Qed.

Lemma scrape_loop_negative_ceiling fetch fuel m skip page_num all_prisoners w :
  m < 0 -> 1 <= page_num ->
  DynamicPrisonerScraper.scrape_loop fetch fuel (Some m) skip page_num all_prisoners w
  = DynamicPrisonerScraper.scrape_loop fetch fuel (Some 1) skip page_num all_prisoners w.
Proof.
  intros Hm Hp. destruct fuel as [|fuel]; [done|].
  cbn [DynamicPrisonerScraper.scrape_loop].
  destruct (fetch skip _) as [[[|d ds]|e] w1]; try done.
  unfold DynamicPrisonerScraper.ceiling_reached.
  assert (negb (m =? 0) && (m <=? page_num) = true) as ->.
  { apply andb_true_intro.
    split; [apply negb_true_iff, Z.eqb_neq; lia | apply Z.leb_le; lia]. }
  assert (negb (1 =? 0) && (1 <=? page_num) = true) as ->; [|done].
  apply andb_true_intro. split; [done | apply Z.leb_le; lia].
Qed.

(** X3: the test [if max_pages and page_num >= max_pages] makes a ceiling
    of 0 no ceiling at all, and a negative ceiling a ceiling of one page. *)
Theorem X3_zero_and_negative_ceilings fuel w :
  DynamicPrisonerScraper.scrape_all_pages fuel (Some 0) w
  = DynamicPrisonerScraper.scrape_all_pages fuel None w
  /\ (forall m, m < 0 ->
        DynamicPrisonerScraper.scrape_all_pages fuel (Some m) w
        = DynamicPrisonerScraper.scrape_all_pages fuel (Some 1) w).
Proof.
  unfold DynamicPrisonerScraper.scrape_all_pages,
    DynamicPrisonerScraper.scrape_all_pages_with.
  split.
  - destruct (DynamicPrisonerScraper.init_browser w) as [[[]|e] w0]; [|done].
    by rewrite scrape_loop_zero_ceiling.
  - intros m Hm.
    destruct (DynamicPrisonerScraper.init_browser w) as [[[]|e] w0]; [|done].
    by rewrite (scrape_loop_negative_ceiling _ _ m) by lia.
Qed.

(** On a site all of whose pages have records the loop without ceiling
    reaches no [break], however many iterations it is given. *)
Lemma scrape_loop_diverges w fuel : forall i all_prisoners w0,
  (forall k, records_at w k <> []) ->
  site w0 = site w ->
  DynamicPrisonerScraper.scrape_loop DynamicPrisonerScraper.get_page_data fuel
    None (offset_of i) (Z.of_nat i + 1) all_prisoners w0
  = None.
Proof.
  induction fuel as [|fuel IH]; intros i all_prisoners w0 Hfull Hsite; [done|].
  set (w1 := set_log (log w0 ++ [(INFO, ScrapingPage (Z.of_nat i + 1))]) w0).
  destruct (get_page_data_spec (offset_of i) w1) as (w2 & Hf & Hw2).
  assert (Hrec : page_records (site w1 (offset_of i)) = records_at w i)
    by (unfold records_at; cbn [site w1 set_log]; by rewrite Hsite).
  rewrite Hrec in Hf. specialize (Hfull i) as Hne.
  destruct (records_at w i) as [|d ds]; [done|].
  rewrite (scrape_loop_step _ _ _ _ _ _ _ _ _ Hf).
  replace (offset_of i + 20) with (offset_of (S i)) by apply offset_of_S.
  replace (Z.of_nat i + 1 + 1) with (Z.of_nat (S i) + 1) by lia.
  apply IH; [exact Hfull|].
  cbn [site set_slept set_log]. destruct Hw2 as (-> & _). exact Hsite.
Qed.

(** X4: without a ceiling, on a site every page of which has at least one
    record block, [scrape_all_pages] never returns: no number of iterations
    reaches a [break]. *)
Theorem X4_no_empty_page_no_return w fuel :
  launch w = Ok tt ->
  (forall k, records_at w k <> []) ->
  DynamicPrisonerScraper.scrape_all_pages fuel None w = None.
Proof.
  intros Hl Hfull.
  unfold DynamicPrisonerScraper.scrape_all_pages,
    DynamicPrisonerScraper.scrape_all_pages_with,
    DynamicPrisonerScraper.init_browser.
  rewrite Hl.
  change 0 with (offset_of 0) at 1. change 1 with (Z.of_nat 0 + 1).
  by rewrite (scrape_loop_diverges w).
Qed.

Lemma X4_no_empty_page_no_return_witness :
  DynamicPrisonerScraper.scrape_all_pages 1000 None unknown_world = None.
Proof.
  apply (X4_no_empty_page_no_return unknown_world 1000 eq_refl).
  intros k. vm_compute. discriminate.
Defined.

(** What a run of the loop that ends has done: it fetched the pages
    [i .. i+k] for some [k] and returns their records after the ones it
    had. *)
Lemma scrape_loop_returns fuel : forall max_pages i all_prisoners w r w',
  DynamicPrisonerScraper.scrape_loop DynamicPrisonerScraper.get_page_data fuel
    max_pages (offset_of i) (Z.of_nat i + 1) all_prisoners w
  = Some (r, w') ->
  exists k,
    r = Ok (all_prisoners ++ concat (map (records_at w) (seq i (S k))))
    /\ scraped w w' (map offset_of (seq i (S k))) (2 * Z.of_nat k).
Proof.
  induction fuel as [|fuel IH]; intros max_pages i all_prisoners w r w' H;
    [discriminate|].
  set (w0 := set_log (log w ++ [(INFO, ScrapingPage (Z.of_nat i + 1))]) w) in *.
  destruct (get_page_data_spec (offset_of i) w0) as (w1 & Hf & Hw1).
  change (page_records (site w0 (offset_of i))) with (records_at w i) in Hf.
  assert (Hw01 : scraped w w1 [offset_of i] 0)
    by (apply (scraped_trans w w0 w1 [] [offset_of i] 0 0);
        [apply scraped_set_log | exact Hw1]).
  destruct (records_at w i) as [|d ds] eqn:Hrec.
  - rewrite (scrape_loop_stop _ _ _ _ _ _ _ _ Hf) in H. injection H as <- <-.
    exists O. cbn [seq map concat]. rewrite Hrec, !app_nil_r. by split.
  - destruct (DynamicPrisonerScraper.ceiling_reached max_pages (Z.of_nat i + 1))
      eqn:Hc.
    + rewrite (scrape_loop_ceiling _ _ _ _ _ _ _ _ _ _ Hf Hc) in H.
      injection H as <- <-. exists O. cbn [seq map concat].
      rewrite Hrec, app_nil_r. split; [done|].
      apply (scraped_trans w w1 _ [offset_of i] [] 0 0 Hw01), scraped_set_log.
    + rewrite (scrape_loop_continue _ _ _ _ _ _ _ _ _ _ Hf Hc) in H.
      set (w2 := set_slept _ _) in H.
      assert (Hw2 : scraped w w2 [offset_of i] 2).
      { destruct Hw01 as (H1&H2&H3&H4&H5&H6&H7&H8&H9).
        unfold scraped, w2.
        cbn [site launch sessions_started sessions_closed navigations slept dirs
               files now set_log set_slept].
        rewrite H6. repeat split; try done. lia. }
      assert (Hsite : forall j, records_at w2 j = records_at w j).
      { intros j. unfold records_at. by destruct Hw2 as (-> & _). }
      replace (offset_of i + 20) with (offset_of (S i)) in H by apply offset_of_S.
      replace (Z.of_nat i + 1 + 1) with (Z.of_nat (S i) + 1) in H by lia.
      destruct (IH _ _ _ _ _ _ H) as (k & -> & Hw').
      exists (S k). split.
      * change (seq i (S (S k))) with (i :: seq (S i) (S k)).
        cbn [map concat].
        rewrite Hrec, (map_ext (records_at w2) (records_at w) Hsite).
        by rewrite <- app_assoc.
      * replace (map offset_of (seq i (S (S k))))
          with ([offset_of i] ++ map offset_of (seq (S i) (S k))) by reflexivity.
        replace (2 * Z.of_nat (S k)) with (2 + 2 * Z.of_nat k) by lia.
        by apply (scraped_trans w w2 w').
Qed.

(** What a run of [scrape_all_pages] that ends has done. *)
Lemma finished_run fuel max_pages w r w' :
  DynamicPrisonerScraper.scrape_all_pages fuel max_pages w = Some (r, w') ->
  match launch w with
  | Raise e => r = Raise e /\ w' = w
  | Ok _ =>
      exists k w1,
        r = Ok (concat (map (records_at w) (seq 0 (S k))))
        /\ scraped w w1 (map offset_of (seq 0 (S k))) (2 * Z.of_nat k)
        /\ w' = set_sessions (S (sessions_started w1)) (S (sessions_closed w1)) w1
  end.
Proof.
  unfold DynamicPrisonerScraper.scrape_all_pages,
    DynamicPrisonerScraper.scrape_all_pages_with,
    DynamicPrisonerScraper.init_browser.
  destruct (launch w) as [[]|e]; [|by intros [= <- <-]].
  set (w0 := set_sessions (S (sessions_started w)) (sessions_closed w) w).
  destruct (DynamicPrisonerScraper.scrape_loop _ fuel max_pages 0 1 [] w0)
    as [[r1 w1]|] eqn:Hloop; [|discriminate].
  intros [= <- <-].
  change 0 with (offset_of 0) in Hloop at 1.
  change 1 with (Z.of_nat 0 + 1) in Hloop.
  destruct (scrape_loop_returns _ _ _ _ _ _ _ Hloop) as (k & -> & Hw1).
  destruct Hw1 as (H1&H2&H3&H4&H5&H6&H7&H8&H9).
  exists k, (set_sessions (sessions_started w) (sessions_closed w) w1).
  split; [reflexivity|]. split.
  - unfold scraped.
    cbn [site launch sessions_started sessions_closed navigations slept dirs
           files now set_sessions].
    by repeat split.
  - unfold DynamicPrisonerScraper.close_browser.
    cbn [snd sessions_started sessions_closed set_sessions site launch
           navigations slept dirs files now log].
    rewrite H3, H4. reflexivity.
Qed.

(** X5: every run of [scrape_all_pages] that ends, under any ceiling,
    either could not start the browser, and then raises that failure
    without opening a session or fetching a page, or returns normally the
    records of the pages [0 .. k] it fetched, in order, at the offsets
    [0, 20, .., 20 k], having closed the one session it opened and slept two
    seconds between fetches; it leaves the files as they were. *)
Theorem X5_a_finished_run fuel max_pages w r w' :
  DynamicPrisonerScraper.scrape_all_pages fuel max_pages w = Some (r, w') ->
  match launch w with
  | Raise e => r = Raise e /\ w' = w
  | Ok _ =>
      exists k,
        r = Ok (concat (map (records_at w) (seq 0 (S k))))
        /\ navigations w' = navigations w ++ map offset_of (seq 0 (S k))
        /\ slept w' = slept w + 2 * Z.of_nat k
        /\ sessions_started w' = S (sessions_started w)
        /\ sessions_closed w' = S (sessions_closed w)
        /\ files w' = files w
  end.
Proof.
  intros H%finished_run. destruct (launch w) as [[]|e]; [|exact H].
  destruct H as (k & w1 & -> & Hw1 & ->). exists k.
  destruct Hw1 as (H1&H2&H3&H4&H5&H6&H7&H8&H9).
  cbn [navigations slept sessions_started sessions_closed files set_sessions].
  rewrite H3, H4, H5, H6, H8. by repeat split.
Qed.

Lemma X5_a_finished_run_witness :
  match DynamicPrisonerScraper.scrape_all_pages 3 None small_world with
  | Some (r, w') =>
      exists k,
        r = Ok (concat (map (records_at small_world) (seq 0 (S k))))
        /\ navigations w' = map offset_of (seq 0 (S k))
        /\ slept w' = 2 * Z.of_nat k
        /\ sessions_started w' = 1%nat
        /\ sessions_closed w' = 1%nat
        /\ files w' = ∅
  | None => False
  end.
Proof.
  destruct (DynamicPrisonerScraper.scrape_all_pages 3 None small_world)
    as [[r w']|] eqn:H; [|vm_compute in H; discriminate].
  exact (X5_a_finished_run 3 None small_world r w' H).
Defined.

(** ** The Page Harvester, continued *)

(** The log of [for_rows]: one entry per record when every block is
    extracted, informational entries only when one fails. *)
Lemma for_rows_log rs : forall acc w,
  match extract_rows rs with
  | Ok ds =>
      log (DynamicPrisonerScraper.for_rows rs acc w).2
      = log w ++ map extracted_entry ds
  | Raise _ =>
      exists infos,
        log (DynamicPrisonerScraper.for_rows rs acc w).2 = log w ++ infos
        /\ Forall (fun en : level * message => en.1 = INFO) infos
  end.
Proof.
  induction rs as [|r rest IH]; intros acc w.
  - cbn. by rewrite app_nil_r.
  - cbn [extract_rows DynamicPrisonerScraper.for_rows]. unfold extract_row.
    rewrite lift_bind.
    destruct (query_fields r) as [fs|e]; cbn [mbind result_bind];
      [|exists []; by rewrite app_nil_r].
    rewrite lift_bind.
    destruct (DynamicPrisonerScraper.for_fields fs []) as [data|e];
      cbn [mbind result_bind]; [|exists []; by rewrite app_nil_r].
    rewrite logging_info_bind.
    specialize (IH (acc ++ [data])
                  (set_log (log w ++ [(INFO, ExtractedPrisoner (dict_get data "full_name"))]) w)).
    destruct (extract_rows rest) as [ds|e]; cbn [mbind result_bind].
    + rewrite IH. cbn [log set_log map]. by rewrite <- app_assoc.
    + destruct IH as (infos & -> & Hinfos).
      exists ((INFO, ExtractedPrisoner (dict_get data "full_name")) :: infos).
      cbn [log set_log]. rewrite <- app_assoc. split; [done|].
      by constructor.
Qed.

Lemma logging_error_handler skip e w :
  ((logging_error (ErrorProcessingPage skip e) ≫= fun _ => mret [])
     : M (list RawRecord)) w
  = (Ok [], set_log (log w ++ [(ERROR, ErrorProcessingPage skip e)]) w).
Proof. reflexivity. Qed.

(** X6: a call of [get_page_data] navigates once, to the offset it is
    given, and otherwise changes the log only: no file, no session, no
    sleep. It returns the records of the page, or none when navigation,
    wait or extraction fails. The log tells the two apart: after a
    successful harvest it has gained the entries "page loaded", "found n
    rows" and one entry per record, all informational; after a failure it
    has gained informational entries followed by one error entry that
    carries the offset and the failure. *)
Theorem X6_one_navigation_and_the_log skip w :
  exists w1,
    DynamicPrisonerScraper.get_page_data skip w
    = (Ok (page_records (site w skip)), w1)
    /\ scraped w w1 [skip] 0
    /\ match harvest (site w skip) with
       | Ok ds =>
           log w1 = log w ++ (INFO, PageLoaded skip) :: (INFO, FoundRows (length ds))
                             :: map extracted_entry ds
       | Raise e =>
           exists infos,
             log w1 = log w ++ infos ++ [(ERROR, ErrorProcessingPage skip e)]
             /\ Forall (fun en : level * message => en.1 = INFO) infos
       end.
Proof.
  destruct (get_page_data_spec skip w) as (w1 & Hf & Hw1).
  exists w1. split; [exact Hf|]. split; [exact Hw1|].
  apply (f_equal snd) in Hf. cbn [snd] in Hf. subst w1. clear Hw1.
  unfold DynamicPrisonerScraper.get_page_data, try_except,
    DynamicPrisonerScraper.get_page_data_try, harvest.
  rewrite page_goto_bind.
  destruct (goto (site w skip)) as [[]|e]; cbn [mbind result_bind].
  2:{ exists []. rewrite logging_error_handler. by split. }
  rewrite logging_info_bind, lift_bind.
  destruct (wait_for_selector (site w skip)) as [[]|e]; cbn [mbind result_bind].
  2:{ exists [(INFO, PageLoaded skip)]. rewrite logging_error_handler.
      cbn [log set_log set_navigations snd]. rewrite <- app_assoc.
      split; [done|]. by repeat constructor. }
  rewrite lift_bind.
  destruct (query_rows (site w skip)) as [rs|e]; cbn [mbind result_bind].
  2:{ exists [(INFO, PageLoaded skip)]. rewrite logging_error_handler.
      cbn [log set_log set_navigations snd]. rewrite <- app_assoc.
      split; [done|]. by repeat constructor. }
  rewrite logging_info_bind.
  match goal with
  | |- context [DynamicPrisonerScraper.for_rows rs [] ?w0] =>
      pose proof (for_rows_result rs [] w0) as Hr;
      pose proof (for_rows_log rs [] w0) as Hl;
      destruct (DynamicPrisonerScraper.for_rows rs [] w0) as [r w1]
  end.
  cbn [fst snd] in Hr, Hl.
  destruct (extract_rows rs) as [ds|e] eqn:Hex; cbn [mbind result_bind] in Hr;
    subst r.
  - cbn [snd]. rewrite Hl. cbn [log set_log set_navigations].
    rewrite (extract_rows_length _ _ Hex), <- !app_assoc. reflexivity.
  - destruct Hl as (infos & Hl & Hinfos).
    exists ((INFO, PageLoaded skip) :: (INFO, FoundRows (length rs)) :: infos).
    rewrite logging_error_handler. cbn [log set_log snd].
    rewrite Hl. cbn [log set_log set_navigations].
    rewrite <- !app_assoc. split; [reflexivity|].
    by repeat constructor.
Qed.

(** Every value of [field_mapping] is one of the fourteen canonical
    identifiers, and none is the empty string. *)
Lemma existsb_eqb_In k (l : list string) : existsb (String.eqb k) l = true <-> In k l.
Proof.
  rewrite existsb_exists. split.
  - intros (x & Hx & ->%String.eqb_eq). exact Hx.
  - intros H. exists k. split; [done | apply String.eqb_refl].
Qed.

(** The values of [field_mapping] are the fourteen canonical identifiers,
    and none of them is the empty string. *)
Lemma field_mapping_values k :
  (exists label, field_mapping !! label = Some k) <-> In k canonical_identifiers.
Proof.
  unfold field_mapping.
  match goal with
  | |- (exists label, list_to_map ?l !! label = Some k) <-> _ =>
      assert (Hall : forallb (fun p : str * string =>
                                existsb (String.eqb p.2) canonical_identifiers) l
                     = true) by (vm_compute; reflexivity);
      assert (Hback : forallb (fun c => existsb (fun p : str * string =>
                                                   String.eqb p.2 c) l)
                        canonical_identifiers = true) by (vm_compute; reflexivity);
      assert (Hnd : NoDup l.*1)
        by (apply (bool_decide_eq_true_1 (NoDup l.*1)); vm_compute; reflexivity)
  end.
  split.
  - intros [label H%elem_of_list_to_map_2%list_elem_of_In].
    rewrite forallb_forall in Hall. apply Hall in H. by apply existsb_eqb_In.
  - intros Hin. rewrite forallb_forall in Hback. apply Hback in Hin.
    apply existsb_exists in Hin as ([label k0] & Hp & Hk).
    cbn [snd] in Hk. apply String.eqb_eq in Hk. subst k0.
    exists label. apply elem_of_list_to_map_1; [exact Hnd|].
    by apply list_elem_of_In.
Qed.

Lemma field_mapping_truthy label k :
  field_mapping !! label = Some k -> truthy k = true.
Proof.
  intros H. assert (Hin : In k canonical_identifiers)
    by (apply field_mapping_values; eauto).
  cbn in Hin. by repeat (destruct Hin as [<-|Hin]; [reflexivity|]).
Qed.

Lemma dict_set_keys d k v :
  map fst (dict_set d k v)
  = if existsb (String.eqb k) (map fst d) then map fst d else map fst d ++ [k].
Proof.
  induction d as [|[k0 v0] d IH]; [done|].
  cbn [dict_set map fst existsb].
  rewrite (String.eqb_sym k k0).
  destruct (String.eqb k0 k); cbn [orb map fst]; [done|].
  rewrite IH. by destruct (existsb (String.eqb k) (map fst d)).
Qed.

Lemma dict_set_NoDup d k v : NoDup (map fst d) -> NoDup (map fst (dict_set d k v)).
Proof.
  intros Hd. rewrite dict_set_keys.
  destruct (existsb (String.eqb k) (map fst d)) eqn:E; [done|].
  apply NoDup_app. split; [done|]. split; [|apply NoDup_singleton].
  intros x Hx ->%list_elem_of_singleton.
  apply list_elem_of_In, existsb_eqb_In in Hx. congruence.
Qed.

Lemma dict_set_Forall (P : string * str -> Prop) d k v :
  Forall P d -> (forall k0, String.eqb k0 k = true -> P (k0, v)) -> P (k, v) ->
  Forall P (dict_set d k v).
Proof.
  intros Hd Hk Hkv. induction Hd as [|[k0 v0] d Hp Hd IH]; cbn [dict_set].
  - by repeat constructor.
  - destruct (String.eqb k0 k) eqn:E; constructor; auto.
Qed.

(** The invariant of the inner loop of [get_page_data]. *)
Lemma for_fields_canonical fs : forall data data',
  canonical_record data ->
  DynamicPrisonerScraper.for_fields fs data = Ok data' ->
  canonical_record data'.
Proof.
  induction fs as [|f rest IH]; intros data data' Hd H.
  - by injection H as <-.
  - cbn -[field_mapping strip] in H.
    destruct (query_label f) as [[l|]|e]; cbn -[field_mapping strip] in H;
      try discriminate;
      (destruct (query_value f) as [[v|]|e']; cbn -[field_mapping strip] in H;
       try discriminate); try (by eapply IH).
    destruct (inner_text l) as [label|e]; cbn -[field_mapping strip] in H;
      [|discriminate].
    destruct (inner_text v) as [value|e]; cbn -[field_mapping strip] in H;
      [|discriminate].
    destruct (field_mapping !! strip label) as [english_key|] eqn:Hm;
      cbn -[field_mapping strip] in H; [|by eapply IH].
    rewrite (field_mapping_truthy _ _ Hm) in H. cbn -[field_mapping strip] in H.
    eapply IH; [|exact H].
    destruct Hd as [Hnd Hall]. split; [by apply dict_set_NoDup|].
    apply dict_set_Forall; [done | |].
    + intros k0 ->%String.eqb_eq. cbn [fst snd].
      split; [eauto | apply strip_trimmed].
    + cbn [fst snd]. split; [eauto | apply strip_trimmed].
Qed.

Lemma extract_rows_canonical rs ds :
  extract_rows rs = Ok ds -> Forall canonical_record ds.
Proof.
  revert ds. induction rs as [|r rest IH]; intros ds H; cbn in H.
  - injection H as <-. constructor.
  - bind_inv H as data Hd. bind_inv H as others Ho. injection H as <-.
    constructor; [|by apply IH].
    unfold extract_row in Hd. bind_inv Hd as fs Hfs.
    eapply for_fields_canonical; [|exact Hd].
    split; [constructor | constructor].
Qed.

(** X7: every record that [get_page_data] returns has each key once, only
    keys that are values of [field_mapping] (a label that is not in the
    dictionary never creates a key), and values stripped of surrounding
    whitespace; the values of [field_mapping] are the fourteen identifiers
    of [canonical_identifiers]. *)
Theorem X7_harvested_records_are_canonical skip w :
  (exists ds,
     (DynamicPrisonerScraper.get_page_data skip w).1 = Ok ds
     /\ Forall canonical_record ds)
  /\ (forall k, (exists label, field_mapping !! label = Some k)
                <-> In k canonical_identifiers)
  /\ length canonical_identifiers = 14%nat.
Proof.
  split; [|split; [apply field_mapping_values | reflexivity]].
  rewrite get_page_data_result. eexists. split; [reflexivity|].
  unfold harvest.
  destruct (goto (site w skip)); cbn [mbind result_bind]; [|constructor].
  destruct (wait_for_selector (site w skip)); cbn [mbind result_bind];
    [|constructor].
  destruct (query_rows (site w skip)) as [rs|e]; cbn [mbind result_bind];
    [|constructor].
  destruct (extract_rows rs) as [ds|e] eqn:Hex; [|constructor].
  by apply (extract_rows_canonical rs).
Qed.

(** ** The raw frame *)

Lemma has_key_In k d : has_key k d = true <-> In k (map fst d).
Proof.
  unfold has_key. induction d as [|[k0 v] d IH]; cbn [dict_get map fst In].
  - split; [discriminate | tauto].
  - destruct (String.eqb k0 k) eqn:E.
    + apply String.eqb_eq in E. split; [by left | done].
    + apply String.eqb_neq in E. rewrite IH. split; [by right|].
      intros [?|?]; [done | assumption].
Qed.

Lemma first_seen_step ks : forall seen,
  NoDup seen ->
  let result :=
    foldl (fun seen k => if existsb (String.eqb k) seen then seen else seen ++ [k])
      seen ks in
  NoDup result /\ (forall x, In x result <-> In x seen \/ In x ks).
Proof.
  induction ks as [|k ks IH]; intros seen Hnd; cbn [foldl].
  - split; [done|]. intros x. cbn. tauto.
  - destruct (existsb (String.eqb k) seen) eqn:E.
    + destruct (IH seen Hnd) as [H1 H2]. split; [exact H1|].
      intros x. rewrite H2. cbn [In]. apply existsb_eqb_In in E.
      split; [tauto|]. intros [?|[<-|?]]; tauto.
    + assert (Hnd' : NoDup (seen ++ [k])).
      { apply NoDup_app. split; [done|]. split; [|apply NoDup_singleton].
        intros x Hx ->%list_elem_of_singleton.
        apply list_elem_of_In, existsb_eqb_In in Hx. congruence. }
      destruct (IH (seen ++ [k]) Hnd') as [H1 H2]. split; [exact H1|].
      intros x. rewrite H2, in_app_iff. cbn [In]. tauto.
Qed.

Lemma first_seen_spec data :
  NoDup (DynamicPrisonerScraper.first_seen data)
  /\ (forall k, In k (DynamicPrisonerScraper.first_seen data)
                <-> existsb (has_key k) data = true).
Proof.
  unfold DynamicPrisonerScraper.first_seen.
  destruct (first_seen_step (concat (map (map fst) data)) [] NoDup_nil_2)
    as [H1 H2].
  split; [exact H1|]. intros k. rewrite H2. cbn [In].
  rewrite existsb_exists, in_concat. split.
  - intros [[]|(ks & Hks & Hk)]. apply in_map_iff in Hks as (d & <- & Hd).
    exists d. split; [done | by apply has_key_In].
  - intros (d & Hd & Hk). right. exists (map fst d).
    split; [by apply in_map | by apply has_key_In].
Qed.

Lemma getitem_named_columns (f : string -> column) names k :
  getitem (map (fun n => (n, f n)) names) k
  = if existsb (String.eqb k) names then Ok (f k) else Raise (KeyError (KName k)).
Proof.
  induction names as [|n names IH]; cbn [map getitem existsb]; [done|].
  rewrite (String.eqb_sym k n).
  destruct (String.eqb n k) eqn:E; cbn [orb]; [|exact IH].
  by apply String.eqb_eq in E as ->.
Qed.

(** X8: the frame [pd.DataFrame(data)] that [save_to_csv] writes has one
    column for each key that occurs in some record, and no other: looking up
    such a key gives one cell per record, in order, the record's value or
    absent when the record lacks the key; looking up any other name raises
    [KeyError]. No column name occurs twice. *)
Theorem X8_raw_frame_columns (data : list RawRecord) (k : string) :
  getitem (DynamicPrisonerScraper.DataFrame data) k
  = (if existsb (has_key k) data then Ok (map (record_cell k) data)
     else Raise (KeyError (KName k)))
  /\ NoDup (map fst (DynamicPrisonerScraper.DataFrame data))
  /\ Forall (fun c : string * column => length c.2 = length data)
       (DynamicPrisonerScraper.DataFrame data).
Proof.
  destruct (first_seen_spec data) as [Hnd Hin].
  unfold DynamicPrisonerScraper.DataFrame. split; [|split].
  - rewrite (getitem_named_columns
               (fun k => map (fun d => match dict_get d k with
                                       | Some s => Text s
                                       | None => NA
                                       end) data)).
    destruct (existsb (String.eqb k) _) eqn:E.
    + apply existsb_eqb_In, Hin in E. by rewrite E.
    + destruct (existsb (has_key k) data) eqn:E'; [|done].
      apply Hin, existsb_eqb_In in E'. congruence.
  - rewrite map_map. cbn [fst]. by rewrite map_id.
  - apply Forall_forall. intros c Hc%list_elem_of_In.
    apply in_map_iff in Hc as (n & <- & _). cbn [snd]. apply length_map.
Qed.

(** ** The module-level functions, continued *)

Lemma path_exists_dir p w : p ∈ dirs w -> path_exists p w = true.
Proof. intros H. unfold path_exists. by rewrite (bool_decide_eq_true_2 _ H). Qed.

Lemma path_exists_false p w :
  path_exists p w = false -> (p ∉ dirs w) /\ (files w !! p = None).
Proof.
  unfold path_exists. intros H. apply orb_false_iff in H as [Hd Hf].
  apply bool_decide_eq_false in Hd, Hf. split; [done|].
  destruct (files w !! p); [|done]. destruct Hf. eauto.
Qed.

Lemma save_to_csv_stores data p w :
  is_dir (dirname p) w = true -> is_dir p w = false ->
  DynamicPrisonerScraper.save_to_csv data p w
  = (Ok tt,
     set_log (log w ++ [(INFO, DataSaved p)])
       (set_files (<[p := CsvOf (DynamicPrisonerScraper.DataFrame data)]> (files w)) w)).
Proof.
  intros Hd Hp. unfold DynamicPrisonerScraper.save_to_csv.
  unfold mbind, M_bind. by rewrite (to_csv_stores _ _ _ Hd Hp).
Qed.

Lemma save_to_csv_no_directory data p w :
  is_dir (dirname p) w = false ->
  DynamicPrisonerScraper.save_to_csv data p w = (Raise OSError, w).
Proof.
  intros Hd. unfold DynamicPrisonerScraper.save_to_csv, to_csv.
  unfold mbind, M_bind. by rewrite Hd.
Qed.

(** The world in which [scrap_data] looks for the raw file: the one it
    was given, with the directory [output] if nothing bore the name. *)
Lemma scrap_data_cases fuel w r w' :
  scrap_data fuel w = Some (r, w') ->
  let w0 := if negb (path_exists "output" w)
            then set_dirs ({["output"%string]} ∪ dirs w) w else w in
  is_dir "output" w0 = output_is_dir w
  /\ path_exists raw_csv w0 = path_exists raw_csv w
  /\ if path_exists raw_csv w
     then r = Ok tt /\ w' = set_log (log w0 ++ [(INFO, FileExistsSkipping)]) w0
     else match launch w with
          | Raise e => r = Raise e /\ w' = w0
          | Ok _ =>
              exists k w1,
                scraped w0 w1 (map offset_of (seq 0 (S k))) (2 * Z.of_nat k)
                /\ (r, w') = DynamicPrisonerScraper.save_to_csv
                               (concat (map (records_at w) (seq 0 (S k)))) raw_csv
                               (set_sessions (S (sessions_started w1))
                                  (S (sessions_closed w1)) w1)
          end.
Proof.
  unfold scrap_data. cbn zeta.
  set (w0 := if negb (path_exists "output" w) then (makedirs "output" w).2 else w).
  assert (Ho : is_dir "output" w0 = output_is_dir w).
  { unfold w0, output_is_dir.
    destruct (path_exists "output" w) eqn:E; cbn [negb]; [by rewrite orb_false_r|].
    rewrite orb_true_r. apply is_dir_true. cbn [makedirs snd dirs set_dirs].
    apply elem_of_union_l, elem_of_singleton. reflexivity. }
  assert (Hr : path_exists raw_csv w0 = path_exists raw_csv w).
  { unfold w0. destruct (path_exists "output" w) eqn:E; cbn [negb]; [done|].
    unfold path_exists. cbn [makedirs snd dirs files set_dirs].
    f_equal. apply bool_decide_ext. rewrite elem_of_union, elem_of_singleton.
    split; [intros [[=]|?]; done | by right]. }
  assert (Hw0 : w0 = if negb (path_exists "output" w)
                     then set_dirs ({["output"%string]} ∪ dirs w) w else w)
    by (unfold w0; by destruct (negb _)).
  rewrite <- Hw0. intros H. split; [exact Ho|]. split; [exact Hr|].
  rewrite Hr in H.
  destruct (path_exists raw_csv w); [by injection H as <- <-|].
  destruct (DynamicPrisonerScraper.scrape_all_pages fuel None w0)
    as [[r1 w1]|] eqn:Hrun; [|discriminate].
  apply finished_run in Hrun.
  assert (Hl : launch w0 = launch w) by (rewrite Hw0; by destruct (negb _)).
  assert (Hs : forall k, records_at w0 k = records_at w k).
  { intros k. unfold records_at. rewrite Hw0. by destruct (negb _). }
  rewrite Hl in Hrun.
  destruct (launch w) as [[]|e].
  - destruct Hrun as (k & w2 & -> & Hw2 & ->).
    exists k, w2.
    rewrite (map_ext _ _ Hs) in H.
    split; [exact Hw2|]. by injection H as <-.
  - destruct Hrun as [-> ->]. by injection H as <- <-.
Qed.

(** The outcome of a run of [scrap_data] that found nothing at the path
    of the raw file and could start the browser. *)
Lemma scrap_data_scraped fuel w r w' :
  scrap_data fuel w = Some (r, w') ->
  path_exists raw_csv w = false ->
  launch w = Ok tt ->
  exists k,
    navigations w' = navigations w ++ map offset_of (seq 0 (S k))
    /\ sessions_started w' = S (sessions_started w)
    /\ sessions_closed w' = S (sessions_closed w)
    /\ (output_is_dir w = true -> "output"%string ∈ dirs w')
    /\ if output_is_dir w
       then r = Ok tt
            /\ files w'
               = <[raw_csv := CsvOf (DynamicPrisonerScraper.DataFrame
                                       (concat (map (records_at w) (seq 0 (S k)))))]>
                   (files w)
       else r = Raise OSError /\ files w' = files w.
Proof.
  intros H Hraw Hl. destruct (scrap_data_cases _ _ _ _ H) as (Ho & Hr & Hc).
  set (w0 := if negb (path_exists "output" w)
             then set_dirs ({["output"%string]} ∪ dirs w) w else w) in *.
  assert (Hf0 : files w0 = files w) by (unfold w0; by destruct (negb _)).
  assert (Hn0 : navigations w0 = navigations w) by (unfold w0; by destruct (negb _)).
  assert (Hs0 : sessions_started w0 = sessions_started w
                /\ sessions_closed w0 = sessions_closed w)
    by (unfold w0; by destruct (negb _)).
  destruct Hs0 as [Hs0 Hs0'].
  rewrite Hraw, Hl in Hc. destruct Hc as (k & w1 & Hw1 & Hsave).
  destruct Hw1 as (H1&H2&H3&H4&H5&H6&H7&H8&H9).
  set (w2 := set_sessions (S (sessions_started w1)) (S (sessions_closed w1)) w1) in *.
  assert (Hd2 : forall p, is_dir p w2 = is_dir p w0)
    by (intros p; apply is_dir_same; exact H7).
  assert (Hrawdir : is_dir raw_csv w2 = false).
  { rewrite Hd2. apply is_dir_false; [reflexivity|].
    rewrite <- Hr in Hraw. by apply path_exists_false in Hraw as [? _]. }
  exists k.
  destruct (output_is_dir w) eqn:Hout.
  - rewrite save_to_csv_stores in Hsave;
      [|by rewrite dirname_raw_csv, Hd2 | exact Hrawdir].
    injection Hsave as -> ->.
    cbn [navigations sessions_started sessions_closed files dirs set_log set_files
           set_sessions w2].
    rewrite H5, H3, H4, H7, H8, Hn0, Hs0, Hs0', Hf0.
    split; [done|]. split; [done|]. split; [done|]. split; [|done].
    intros _. rewrite is_dir_spec in Ho by reflexivity.
    by apply bool_decide_eq_true in Ho.
  - rewrite save_to_csv_no_directory in Hsave
      by (by rewrite dirname_raw_csv, Hd2).
    injection Hsave as -> ->.
    cbn [navigations sessions_started sessions_closed files dirs set_sessions w2].
    rewrite H5, H3, H4, H8, Hn0, Hs0, Hs0', Hf0.
    split; [done|]. split; [done|]. split; [done|]. split; [discriminate|done].
Qed.

(** After a normal return of [scrap_data] something is at the path of the
    raw file: a file, unless a directory bore the name from the start. *)
Lemma scrap_data_returned fuel w w1 :
  scrap_data fuel w = Some (Ok tt, w1) ->
  path_exists raw_csv w1 = true
  /\ (raw_csv ∉ dirs w -> is_Some (files w1 !! raw_csv)).
Proof.
  intros H. destruct (scrap_data_cases _ _ _ _ H) as (_ & Hr & Hc).
  set (w0 := if negb (path_exists "output" w)
             then set_dirs ({["output"%string]} ∪ dirs w) w else w) in *.
  assert (Hf0 : files w0 = files w) by (unfold w0; by destruct (negb _)).
  destruct (path_exists raw_csv w) eqn:Hraw.
  - destruct Hc as [_ ->]. split.
    + rewrite <- Hr. unfold path_exists. by cbn [dirs files set_log].
    + intros Hnd. cbn [files set_log]. rewrite Hf0.
      unfold path_exists in Hraw. apply orb_prop in Hraw as [Hd|Hf].
      * by apply bool_decide_eq_true in Hd.
      * by apply bool_decide_eq_true in Hf.
  - destruct (launch w) as [[]|e] eqn:Hl; [|by destruct Hc].
    destruct (scrap_data_scraped _ _ _ _ H Hraw Hl) as (k & _ & _ & _ & _ & Hcase).
    destruct (output_is_dir w); [|by destruct Hcase].
    destruct Hcase as [_ Hf].
    assert (Hsome : is_Some (files w1 !! raw_csv))
      by (rewrite Hf, lookup_insert_eq; eauto).
    split; [|done]. unfold path_exists.
    rewrite (bool_decide_eq_true_2 _ Hsome). apply orb_true_r.
Qed.

(** X9: what a finished [scrap_data] has done. If something is at the path
    of the raw file, nothing is fetched and no file is written. Otherwise,
    if the browser cannot be started, the failure is raised and no file is
    written. Otherwise the pages [0 .. k] are fetched for some [k] and the
    session is closed; then the raw file is written with the frame of their
    records, and no other file, unless a regular file bears the name
    [output]: in that case [to_csv] raises [OSError] after the scrape and
    nothing is written. Unless a regular file bears its name, the directory
    [output] exists afterwards; after a normal return something is at the
    path of the raw file. *)
Theorem X9_scrap_data_outcome fuel w r w' :
  scrap_data fuel w = Some (r, w') ->
  (output_is_dir w = true -> "output"%string ∈ dirs w')
  /\ (r = Ok tt -> path_exists raw_csv w' = true)
  /\ (path_exists raw_csv w = true ->
        r = Ok tt /\ files w' = files w /\ navigations w' = navigations w
        /\ sessions_started w' = sessions_started w)
  /\ (path_exists raw_csv w = false ->
        match launch w with
        | Raise e =>
            r = Raise e /\ files w' = files w /\ navigations w' = navigations w
        | Ok _ =>
            exists k,
              navigations w' = navigations w ++ map offset_of (seq 0 (S k))
              /\ sessions_started w' = S (sessions_started w)
              /\ sessions_closed w' = S (sessions_closed w)
              /\ if output_is_dir w
                 then r = Ok tt
                      /\ files w'
                         = <[raw_csv := CsvOf (DynamicPrisonerScraper.DataFrame
                                (concat (map (records_at w) (seq 0 (S k)))))]>
                             (files w)
                 else r = Raise OSError /\ files w' = files w
        end).
Proof.
  intros H. destruct (scrap_data_cases _ _ _ _ H) as (Ho & Hr & Hc).
  set (w0 := if negb (path_exists "output" w)
             then set_dirs ({["output"%string]} ∪ dirs w) w else w) in *.
  assert (Hf0 : files w0 = files w) by (unfold w0; by destruct (negb _)).
  assert (Hn0 : navigations w0 = navigations w) by (unfold w0; by destruct (negb _)).
  assert (Hs0 : sessions_started w0 = sessions_started w)
    by (unfold w0; by destruct (negb _)).
  assert (Hdir0 : output_is_dir w = true -> "output"%string ∈ dirs w0).
  { intros Hout. rewrite Hout, is_dir_spec in Ho by reflexivity.
    by apply bool_decide_eq_true in Ho. }
  destruct (path_exists raw_csv w) eqn:Hraw.
  - destruct Hc as [-> ->]. split; [|split; [|split]].
    + exact Hdir0.
    + intros _. by rewrite <- Hr.
    + intros _. by repeat split.
    + discriminate.
  - destruct (launch w) as [[]|e] eqn:Hl.
    + destruct (scrap_data_scraped _ _ _ _ H Hraw Hl)
        as (k & Hn & Hs & Hs' & Hd & Hcase).
      split; [exact Hd|]. split; [|split; [discriminate|]].
      * intros ->. destruct (output_is_dir w); [|by destruct Hcase].
        destruct Hcase as [_ Hf]. unfold path_exists. rewrite Hf, lookup_insert_eq.
        rewrite (bool_decide_eq_true_2 (is_Some (Some _))) by eauto.
        apply orb_true_r.
      * intros _. exists k. by repeat split.
    + destruct Hc as [-> ->]. split; [exact Hdir0|].
      split; [discriminate|]. split; [discriminate|]. intros _. by repeat split.
Qed.

Lemma X9_scrap_data_outcome_witness :
  exists w',
    scrap_data 3 small_world = Some (Ok tt, w')
    /\ "output"%string ∈ dirs w'
    /\ path_exists raw_csv w' = true
    /\ navigations w' = [0; 20; 40]
    /\ files w' !! raw_csv
       = Some (CsvOf [("full_name"%string, [Text (u "א"); Text (u "ב"); Text (u "ג")])]).
Proof.
  set (w' := match scrap_data 3 small_world with
             | Some (_, w1) => w1
             | None => small_world
             end).
  assert (H : scrap_data 3 small_world = Some (Ok tt, w'))
    by (vm_compute; reflexivity).
  destruct (X9_scrap_data_outcome _ _ _ _ H) as (Ho & Hok & _ & _).
  exists w'. split; [exact H|]. split; [by apply Ho|]. split; [by apply Hok|].
  split; vm_compute; reflexivity.
Defined.

(** X10: what a finished [main] has done. Either the extraction returned
    normally: then [transform_data] ran on a world in which something is at
    the path of the raw file (a file, unless a directory bore the name
    from the start), and the exit status is 0. Or the browser could not be
    started while nothing was at that path: then that failure leaves
    [main], no file is written and no page fetched. Or the pages were
    fetched and the raw CSV could not be written, because a regular file
    bears the name [output]: then [OSError] leaves [main] and no file is
    written. In the last two cases [transform_data] does not run and the
    exit status is 1. *)
Theorem X10_main_outcome pd fuel w r w' :
  main pd fuel w = Some (r, w') ->
  (exists w1,
     scrap_data fuel w = Some (Ok tt, w1)
     /\ path_exists raw_csv w1 = true
     /\ (raw_csv ∉ dirs w -> is_Some (files w1 !! raw_csv))
     /\ r = Ok tt /\ w' = (transform_data pd w1).2 /\ exit_status r = 0)
  \/ (exists e,
        launch w = Raise e /\ path_exists raw_csv w = false
        /\ r = Raise e /\ files w' = files w /\ navigations w' = navigations w
        /\ (forall w1, transform_data pd w1 <> (r, w'))
        /\ exit_status r = 1)
  \/ (launch w = Ok tt /\ path_exists raw_csv w = false
      /\ output_is_dir w = false
      /\ r = Raise OSError /\ files w' = files w
      /\ (exists k, navigations w' = navigations w ++ map offset_of (seq 0 (S k)))
      /\ sessions_closed w' = S (sessions_closed w)
      /\ (forall w1, transform_data pd w1 <> (r, w'))
      /\ exit_status r = 1).
Proof.
  assert (Hnot : forall e w1 w2, transform_data pd w1 <> (Raise e, w2)).
  { intros e w1 w2 Heq. pose proof (transform_data_returns pd w1) as Hret.
    rewrite Heq in Hret. discriminate Hret. }
  unfold main.
  destruct (scrap_data fuel w) as [[[[]|e] w1]|] eqn:Hs; [| |discriminate].
  - intros [= Ht]. left. exists w1.
    pose proof (transform_data_returns pd w1) as Hret.
    rewrite Ht in Hret |- *. cbn [fst snd] in Hret |- *. subst r.
    split; [reflexivity|].
    destruct (scrap_data_returned fuel w w1 Hs) as [Hex Hfile].
    split; [exact Hex|]. split; [exact Hfile|]. by repeat split.
  - intros [= <- <-].
    destruct (scrap_data_cases _ _ _ _ Hs) as (_ & _ & Hc).
    destruct (path_exists raw_csv w) eqn:Hraw; [by destruct Hc|].
    destruct (launch w) as [[]|e'] eqn:Hl.
    + right. right.
      destruct (scrap_data_scraped _ _ _ _ Hs Hraw Hl)
        as (k & Hn & _ & Hs' & _ & Hcase).
      destruct (output_is_dir w); [by destruct Hcase|].
      destruct Hcase as [[= ->] Hf]. repeat split; try done. by exists k.
    + right. left. exists e'. destruct Hc as [[= ->] ->].
      repeat split; try done; by destruct (negb _).
Qed.

Lemma X10_main_outcome_witness :
  launch output_file_world = Ok tt
  /\ path_exists raw_csv output_file_world = false
  /\ output_is_dir output_file_world = false
  /\ exists w',
       main sample_pandas 3 output_file_world = Some (Raise OSError, w')
       /\ files w' = files output_file_world
       /\ sessions_closed w' = 1%nat.
Proof.
  set (w' := match main sample_pandas 3 output_file_world with
             | Some (_, w1) => w1
             | None => output_file_world
             end).
  assert (H : main sample_pandas 3 output_file_world = Some (Raise OSError, w'))
    by (vm_compute; reflexivity).
  destruct (X10_main_outcome _ _ _ _ _ H)
    as [(w1 & _ & _ & _ & Hr & _)
       |[(e & Hl & _)|(Hl & Hp & Ho & _ & Hf & _ & Hc & _)]];
    [discriminate Hr | discriminate Hl |].
  split; [exact Hl|]. split; [exact Hp|]. split; [exact Ho|].
  exists w'. split; [exact H|]. split; [exact Hf | exact Hc].
Defined.

(** [transform_data] step by step. *)
Lemma transform_data_eq pd w :
  transform_data pd w
  = match input_error w with
    | Some e => transform_failed e w
    | None =>
        match files w !! raw_csv with
        | None => transform_failed FileNotFoundError w
        | Some raw =>
            match read_csv pd raw with
            | Raise e => transform_failed e w
            | Ok df =>
                match PrisonerDataTransformer.transform_data pd (now w) df with
                | Raise e => transform_failed e w
                | Ok out =>
                    match PrisonerDataTransformer.validate_data out with
                    | Raise e => transform_failed e w
                    | Ok st => save_outputs out st w
                    end
                end
            end
        end
    end.
Proof.
  destruct (input_error w) as [e|] eqn:Hin;
    [by apply transform_data_missing_input|].
  unfold input_error in Hin.
  destruct (is_dir raw_csv w) eqn:Hdir; [discriminate|].
  destruct (files w !! raw_csv) as [raw|] eqn:Hraw; [|discriminate].
  unfold transform_data, try_except, transform_data_try, transform_failed.
  unfold mbind at 1, M_bind at 1.
  rewrite (open_csv_reads _ _ _ _ Hdir Hraw).
  destruct (read_csv pd raw) as [df|e]; [|by destruct e].
  rewrite lift_bind.
  destruct (PrisonerDataTransformer.transform_data pd (now w) df) as [out|e];
    [|by destruct e].
  rewrite lift_bind.
  destruct (PrisonerDataTransformer.validate_data out) as [st|e];
    [|by destruct e].
  unfold save_outputs, transform_failed.
  unfold mbind at 1, M_bind at 1, to_csv. rewrite dirname_transformed_csv.
  destruct (is_dir "output" w) eqn:Ho; cbn [negb]; [|reflexivity].
  unfold open_and_write at 1. rewrite dirname_transformed_csv, Ho.
  destruct (is_dir transformed_csv w) eqn:Ht; [reflexivity|].
  unfold mbind at 1, M_bind at 1, open_and_write. rewrite dirname_stats_md.
  rewrite !(is_dir_same w (set_files _ w)) by reflexivity. rewrite Ho.
  destruct (is_dir stats_md w) eqn:Hst; [reflexivity|].
  unfold mbind, M_bind, logging_info.
  cbn [files log set_files set_log site launch sessions_started sessions_closed
         navigations slept dirs now].
  by rewrite <- app_assoc.
Qed.

(** X11: the module-level [transform_data] always returns normally, leaves
    the raw file, the directories and the navigations as they were, and
    ends in one of three ways. It wrote both outputs, the transformed CSV of
    the frame the transformer made from the raw file and the report of its
    statistics, and logged two informational entries. Or it wrote no file
    at all and logged exactly one error entry. Or, when a directory bears
    the name of the report, it wrote the transformed CSV alone and logged
    exactly one error entry, [IsADirectoryError]. *)
Theorem X11_transform_outcomes pd w :
  (transform_data pd w).1 = Ok tt
  /\ files (transform_data pd w).2 !! raw_csv = files w !! raw_csv
  /\ navigations (transform_data pd w).2 = navigations w
  /\ dirs (transform_data pd w).2 = dirs w
  /\ ((exists raw df out st,
         files w !! raw_csv = Some raw
         /\ read_csv pd raw = Ok df
         /\ PrisonerDataTransformer.transform_data pd (now w) df = Ok out
         /\ PrisonerDataTransformer.validate_data out = Ok st
         /\ files (transform_data pd w).2
            = <[stats_md := ReportOf st]> (<[transformed_csv := CsvOf out]> (files w))
         /\ log (transform_data pd w).2
            = log w ++ [(INFO, TransformedSaved transformed_csv);
                        (INFO, StatsSaved stats_md)])
      \/ (files (transform_data pd w).2 = files w
          /\ exists m, log (transform_data pd w).2 = log w ++ [(ERROR, m)])
      \/ (stats_md ∈ dirs w
          /\ exists raw df out,
               files w !! raw_csv = Some raw
               /\ read_csv pd raw = Ok df
               /\ PrisonerDataTransformer.transform_data pd (now w) df = Ok out
               /\ files (transform_data pd w).2
                  = <[transformed_csv := CsvOf out]> (files w)
               /\ log (transform_data pd w).2
                  = log w ++ [(ERROR, ErrorOccurred IsADirectoryError)])).
Proof.
  rewrite transform_data_eq. unfold transform_failed.
  assert (Hfail : forall e,
            let o := (Ok tt, set_log (log w ++ [(ERROR, handler_message e)]) w) in
            o.1 = Ok tt
            /\ files o.2 !! raw_csv = files w !! raw_csv
            /\ navigations o.2 = navigations w
            /\ dirs o.2 = dirs w
            /\ ((exists raw df out st,
                   files w !! raw_csv = Some raw
                   /\ read_csv pd raw = Ok df
                   /\ PrisonerDataTransformer.transform_data pd (now w) df = Ok out
                   /\ PrisonerDataTransformer.validate_data out = Ok st
                   /\ files o.2
                      = <[stats_md := ReportOf st]>
                          (<[transformed_csv := CsvOf out]> (files w))
                   /\ log o.2
                      = log w ++ [(INFO, TransformedSaved transformed_csv);
                                  (INFO, StatsSaved stats_md)])
                \/ (files o.2 = files w
                    /\ exists m, log o.2 = log w ++ [(ERROR, m)])
                \/ (stats_md ∈ dirs w
                    /\ exists raw df out,
                         files w !! raw_csv = Some raw
                         /\ read_csv pd raw = Ok df
                         /\ PrisonerDataTransformer.transform_data pd (now w) df = Ok out
                         /\ files o.2 = <[transformed_csv := CsvOf out]> (files w)
                         /\ log o.2
                            = log w ++ [(ERROR, ErrorOccurred IsADirectoryError)]))).
  { intros e. cbn [fst snd files navigations dirs log set_log].
    do 4 (split; [done|]). right. left. eauto. }
  destruct (input_error w) as [e|]; [apply Hfail|].
  destruct (files w !! raw_csv) as [raw|] eqn:Hraw; [|apply Hfail].
  destruct (read_csv pd raw) as [df|e] eqn:Hread; [|apply Hfail].
  destruct (PrisonerDataTransformer.transform_data pd (now w) df) as [out|e] eqn:Ht;
    [|apply Hfail].
  destruct (PrisonerDataTransformer.validate_data out) as [st|e] eqn:Hv;
    [|apply Hfail].
  unfold save_outputs, transform_failed.
  destruct (is_dir "output" w); cbn [negb]; [|apply Hfail].
  destruct (is_dir transformed_csv w); [apply Hfail|].
  destruct (is_dir stats_md w) eqn:Hst.
  - cbn [fst snd files navigations dirs log set_files set_log].
    split; [done|]. split; [by rewrite lookup_insert_ne by done|].
    do 2 (split; [done|]). right. right.
    split; [|by exists raw, df, out].
    rewrite is_dir_spec in Hst by reflexivity. by apply bool_decide_eq_true in Hst.
  - cbn [fst snd files navigations dirs log set_files set_log].
    split; [done|]. split; [by rewrite !lookup_insert_ne by done|].
    do 2 (split; [done|]). left. exists raw, df, out, st. by repeat split.
Qed.

(** ** The Transform Pipeline, continued *)

Lemma transform_data_rules pd clk df :
  PrisonerDataTransformer.transform_data pd clk df
  = PrisonerDataTransformer.split_demographics pd df
      ≫= fun df1 => apply_columns df1 (column_rules pd clk).
Proof.
  unfold PrisonerDataTransformer.transform_data.
  destruct (PrisonerDataTransformer.split_demographics pd df) as [df1|e];
    [|reflexivity].
  cbn [mbind result_bind column_rules apply_columns].
  repeat (match goal with
          | |- context [PrisonerDataTransformer.apply_column ?d ?n ?f] =>
              destruct (PrisonerDataTransformer.apply_column d n f);
              cbn [mbind result_bind]; [|reflexivity]
          end).
  reflexivity.
Qed.

Lemma getitem_has_column df name :
  has_column df name = true -> exists c, getitem df name = Ok c.
Proof.
  unfold has_column. induction df as [|[n c0] df IH]; cbn [existsb getitem fst];
    [discriminate|].
  destruct (String.eqb n name); [eauto | exact IH].
Qed.

Lemma has_column_iff df name :
  has_column df name = true <-> exists c, getitem df name = Ok c.
Proof.
  split; [apply getitem_has_column|]. intros [c H]. by eapply has_column_getitem.
Qed.

Lemma getitem_Raise df name e :
  getitem df name = Raise e -> e = KeyError (KName name) /\ has_column df name = false.
Proof.
  unfold has_column. induction df as [|[n c0] df IH]; cbn [existsb getitem fst].
  - by intros [= <-].
  - destruct (String.eqb n name); [discriminate | exact IH].
Qed.

Lemma rows_getitem n df name c : rows n df -> getitem df name = Ok c -> length c = n.
Proof.
  unfold rows. induction 1 as [|[n0 c0] df Hc Hdf IH]; cbn [getitem]; [discriminate|].
  destruct (String.eqb n0 name); [by intros [= <-] | exact IH].
Qed.

Lemma rows_setitem n df name c : rows n df -> length c = n -> rows n (setitem df name c).
Proof.
  unfold rows. intros Hdf Hc. induction Hdf as [|[n0 c0] df H0 Hdf IH]; cbn [setitem].
  - by repeat constructor.
  - destruct (String.eqb n0 name); constructor; auto.
Qed.

Lemma rows_filter n (df : frame) p : rows n df -> rows n (List.filter p df).
Proof.
  unfold rows. induction 1 as [|c df Hc Hdf IH]; cbn [List.filter]; [constructor|].
  destruct (p c); [by constructor | exact IH].
Qed.

Lemma has_column_setitem_eq df name other c :
  has_column (setitem df name c) other = has_column df other || String.eqb name other.
Proof.
  unfold has_column. induction df as [|[n c0] df IH]; cbn [setitem existsb fst].
  - by rewrite orb_false_r.
  - destruct (String.eqb n name) eqn:E; cbn [existsb fst].
    + apply String.eqb_eq in E. subst n.
      destruct (String.eqb name other); [done|]. cbn [orb]. by rewrite orb_false_r.
    + rewrite IH. by rewrite orb_assoc.
Qed.

(** What a list of rules over distinct columns does: it fails at the first
    column the frame lacks, and otherwise rewrites each of its columns and
    no other. *)
Lemma apply_columns_spec rules : forall df,
  NoDup (map fst rules) ->
  match apply_columns df rules with
  | Ok out =>
      find (fun name => negb (has_column df name)) (map fst rules) = None
      /\ (forall name f, In (name, f) rules ->
            exists c, getitem df name = Ok c /\ getitem out name = Ok (map f c))
      /\ (forall other, ~ In other (map fst rules) ->
            getitem out other = getitem df other)
      /\ (forall n, rows n df -> rows n out)
  | Raise e =>
      exists name,
        find (fun name => negb (has_column df name)) (map fst rules) = Some name
        /\ e = KeyError (KName name)
  end.
Proof.
  induction rules as [|[name f] rest IH]; intros df Hnd.
  - cbn. split; [done | split; [tauto | split; auto]].
  - cbn [apply_columns map fst find]. unfold PrisonerDataTransformer.apply_column.
    apply NoDup_cons in Hnd as [Hnotin Hnd].
    rewrite list_elem_of_In in Hnotin.
    destruct (getitem df name) as [c|e] eqn:Hc; cbn [mbind result_bind].
    + rewrite (has_column_getitem _ _ _ Hc). cbn [negb].
      assert (Hfind : find (fun n => negb (has_column (setitem df name (apply f c)) n))
                        (map fst rest)
                      = find (fun n => negb (has_column df n)) (map fst rest)).
      { clear IH Hnd. induction rest as [|[n g] rest IHr]; [done|].
        cbn [map fst find]. rewrite has_column_setitem_eq.
        assert (String.eqb name n = false) as ->.
        { apply String.eqb_neq. intros <-. apply Hnotin. by left. }
        rewrite orb_false_r. destruct (negb (has_column df n)); [done|].
        apply IHr. intros Hin. apply Hnotin. by right. }
      specialize (IH (setitem df name (apply f c)) Hnd). rewrite Hfind in IH.
      destruct (apply_columns (setitem df name (apply f c)) rest) as [out|e];
        [|exact IH].
      destruct IH as (Hnone & Hall & Hother & Hrows).
      split; [exact Hnone|]. split; [|split].
      * intros n g [[= <- <-]|Hin].
        -- exists c. split; [exact Hc|].
           rewrite (Hother name Hnotin). apply getitem_setitem_eq.
        -- destruct (Hall n g Hin) as (c' & H1 & H2). exists c'.
           split; [|exact H2].
           rewrite getitem_setitem_ne in H1; [exact H1|].
           intros <-. apply Hnotin. apply in_map_iff. by exists (name, g).
      * intros other Hno. cbn [In] in Hno.
        rewrite Hother by tauto. apply getitem_setitem_ne. tauto.
      * intros n Hn. apply Hrows, rows_setitem; [exact Hn|].
        unfold apply. rewrite length_map. by eapply rows_getitem.
    + apply getitem_Raise in Hc as [-> Hc]. rewrite Hc. cbn [negb]. eauto.
Qed.

(** A column index below the width of the split is below the number of
    pieces of some row. *)
Lemma wide_row_exists k rows0 :
  (k < expand_width rows0)%nat -> exists r, In r rows0 /\ (k < row_width r)%nat.
Proof.
  unfold expand_width. induction rows0 as [|r rows0 IH]; cbn [map foldr]; [lia|].
  intros H. destruct (Nat.max_spec (row_width r) (foldr Nat.max 0%nat (map row_width rows0)))
    as [[_ Hm]|[_ Hm]]; rewrite Hm in H.
  - destruct (IH H) as (r' & Hin & Hr'). exists r'. split; [by right | done].
  - exists r. split; [by left | done].
Qed.

(** Below the width of the split every column holds a text, so [.str]
    accepts it. *)
Lemma expanded_column_strip (demographics : column) k :
  str_accessor demographics = Ok demographics ->
  (k < longest demographics)%nat ->
  str_strip (map (fun v => expand_cell k (split_row v)) demographics)
  = Ok (map (piece k) demographics).
Proof.
  intros Hacc Hk. unfold longest in Hk.
  destruct (wide_row_exists _ _ Hk) as (r & Hin & Hr).
  apply in_map_iff in Hin as (v & <- & Hv).
  assert (Htext : exists v', In v' demographics
                    /\ is_text (expand_cell k (split_row v')) = true).
  { destruct v as [|s|z|lit]; cbn [split_row row_width] in Hr.
    2:{ exists (Text s). split; [exact Hv|]. cbn [split_row expand_cell].
        destruct (split comma s !! k) eqn:E; [done|].
        apply lookup_ge_None in E. lia. }
    all: assert (k = 0)%nat as -> by lia;
      unfold str_accessor in Hacc;
      destruct (Nat.eqb (length demographics) 0) eqn:El;
      [apply Nat.eqb_eq in El; by destruct demographics|];
      cbn [orb] in Hacc;
      destruct (existsb is_text demographics) eqn:Et; [|discriminate];
      apply existsb_exists in Et as (v' & Hv' & Ht);
      destruct v' as [|s'|z'|lit']; try discriminate;
      exists (Text s'); (split; [exact Hv'|]);
      cbn [split_row expand_cell];
      pose proof (split_not_nil comma s');
      by destruct (split comma s'). }
  destruct Htext as (v' & Hv' & Ht).
  unfold str_strip.
  rewrite (str_accessor_text _ (expand_cell k (split_row v'))); [| |exact Ht].
  - cbn [mbind result_bind]. rewrite map_map. f_equal. apply map_ext.
    intros x. apply strip_expand_cell.
  - by apply (in_map (fun v => expand_cell k (split_row v))).
Qed.

Lemma expanded_getitem_ge (c : column) k :
  (longest c <= k)%nat ->
  expanded_getitem (str_split_expand c) k = Raise (KeyError (KPos k)).
Proof.
  intros Hk. unfold expanded_getitem, str_split_expand.
  rewrite list_lookup_fmap, (proj2 (lookup_ge_None _ _)); [done|].
  by rewrite length_seq.
Qed.

(** [split_columns] fails exactly as [split_error] says. *)
Lemma split_columns_outcome df :
  match split_error df with
  | Some e => PrisonerDataTransformer.split_columns df = Raise e
  | None =>
      exists demographics,
        getitem df "demographics" = Ok demographics
        /\ (3 <= longest demographics)%nat
        /\ PrisonerDataTransformer.split_columns df
           = Ok (setitem (setitem (setitem df "gender" (map (piece 0) demographics))
                            "age" (map (piece 1) demographics))
                   "residence" (map (piece 2) demographics))
  end.
Proof.
  unfold split_error, PrisonerDataTransformer.split_columns.
  destruct (getitem df "demographics") as [demographics|e] eqn:Hd.
  2:{ apply getitem_Raise in Hd as [-> _]. reflexivity. }
  cbn [mbind result_bind].
  destruct (str_accessor demographics) as [texts|e] eqn:Hacc.
  2:{ unfold str_accessor in Hacc.
      destruct (_ || _); [discriminate|]. by injection Hacc as <-. }
  pose proof (str_accessor_Ok _ _ Hacc) as ->.
  assert (negb (Nat.eqb (length demographics) 0 || existsb is_text demographics)
          = false) as ->.
  { unfold str_accessor in Hacc. by destruct (_ || _). }
  cbn [mbind result_bind].
  destruct (Nat.ltb_spec (longest demographics) 3) as [Hlt|Hge].
  - destruct (longest demographics) as [|[|[|n]]] eqn:Hw; [| | |lia].
    + by rewrite (expanded_getitem_ge _ 0) by (rewrite Hw; lia).
    + rewrite (expanded_getitem_lt _ 0) by (fold (longest demographics); lia).
      cbn [mbind result_bind].
      rewrite expanded_column_strip by (try done; lia). cbn [mbind result_bind].
      by rewrite (expanded_getitem_ge _ 1) by (rewrite Hw; lia).
    + rewrite (expanded_getitem_lt _ 0) by (fold (longest demographics); lia).
      cbn [mbind result_bind].
      rewrite expanded_column_strip by (try done; lia). cbn [mbind result_bind].
      rewrite (expanded_getitem_lt _ 1) by (fold (longest demographics); lia).
      cbn [mbind result_bind].
      rewrite expanded_column_strip by (try done; lia). cbn [mbind result_bind].
      by rewrite (expanded_getitem_ge _ 2) by (rewrite Hw; lia).
  - exists demographics. split; [done|]. split; [done|].
    rewrite !expanded_getitem_lt by (fold (longest demographics); lia).
    cbn [mbind result_bind].
    rewrite !expanded_column_strip by (try done; lia). reflexivity.
Qed.

Lemma getitem_filter_eq (df : frame) name :
  getitem (List.filter (fun p => negb (String.eqb p.1 name)) df) name
  = Raise (KeyError (KName name)).
Proof.
  induction df as [|[n c] df IH]; cbn [List.filter getitem fst]; [done|].
  destruct (String.eqb n name) eqn:E; cbn [negb getitem]; [exact IH|].
  by rewrite E.
Qed.

(** [split_demographics] on a frame on which the split does not fail. *)
Lemma split_demographics_explicit pd df demographics :
  getitem df "demographics" = Ok demographics ->
  PrisonerDataTransformer.split_columns df
  = Ok (setitem (setitem (setitem df "gender" (map (piece 0) demographics))
                   "age" (map (piece 1) demographics))
          "residence" (map (piece 2) demographics)) ->
  PrisonerDataTransformer.split_demographics pd df
  = Ok (setitem
          (List.filter (fun p => negb (String.eqb p.1 "demographics"))
             (setitem
                (setitem
                   (setitem (setitem (setitem df "gender" (map (piece 0) demographics))
                               "age" (map (piece 1) demographics))
                      "residence" (map (piece 2) demographics))
                   "gender"
                   (map (fun v => PrisonerDataTransformer.safe_map (piece 0 v)
                                    PrisonerDataTransformer.gender_mapping)
                      demographics))
                "residence"
                (map (fun v => PrisonerDataTransformer.safe_map (piece 2 v)
                                 PrisonerDataTransformer.residence_mapping)
                   demographics)))
          "age" (to_numeric pd (map (piece 1) demographics))).
Proof.
  intros Hd Hs. unfold PrisonerDataTransformer.split_demographics.
  rewrite Hs. cbn [mbind result_bind].
  rewrite getitem_setitem_ne, getitem_setitem_ne, getitem_setitem_eq by done.
  cbn [mbind result_bind].
  rewrite getitem_setitem_ne, getitem_setitem_eq by done.
  cbn [mbind result_bind]. unfold drop, apply. rewrite !map_map.
  match goal with
  | |- context [has_column ?d ?n] =>
      assert (has_column d n = true) as ->
        by (repeat apply has_column_setitem; by eapply has_column_getitem)
  end.
  cbn [mbind result_bind].
  rewrite getitem_filter_ne by done.
  rewrite !getitem_setitem_ne, getitem_setitem_eq by done.
  reflexivity.
Qed.

Lemma to_numeric_length pd c : length (to_numeric pd c) = length c.
Proof. unfold to_numeric. destruct (float_column _); by rewrite !length_map. Qed.

(** How [split_error] reads the [demographics] column. *)
Lemma split_error_cases df :
  match getitem df "demographics" with
  | Raise _ => split_error df = Some (KeyError (KName "demographics"))
  | Ok demographics =>
      if existsb is_text demographics
      then split_error df
           = (if (longest demographics <? 3)%nat
              then Some (KeyError (KPos (longest demographics)))
              else None)
      else is_Some (split_error df)
  end.
Proof.
  unfold split_error. destruct (getitem df "demographics") as [d|e]; [|done].
  destruct (existsb is_text d) eqn:Et.
  - by rewrite orb_true_r.
  - rewrite orb_false_r. destruct d as [|v d]; cbn [length Nat.eqb negb]; eauto.
Qed.

(** The outcome of [split_demographics] on any frame. *)
Lemma split_demographics_outcome pd df :
  match split_error df with
  | Some e => PrisonerDataTransformer.split_demographics pd df = Raise e
  | None =>
      exists demographics out,
        getitem df "demographics" = Ok demographics
        /\ PrisonerDataTransformer.split_demographics pd df = Ok out
        /\ getitem out "demographics" = Raise (KeyError (KName "demographics"))
        /\ (forall n, rows n df -> rows n out)
  end.
Proof.
  pose proof (split_columns_outcome df) as H.
  destruct (split_error df) as [e|].
  - unfold PrisonerDataTransformer.split_demographics. by rewrite H.
  - destruct H as (demographics & Hd & Hw & Hs).
    pose proof (split_demographics_explicit pd df demographics Hd Hs) as Hout.
    eexists demographics, _. split; [exact Hd|]. split; [exact Hout|]. split.
    + rewrite getitem_setitem_ne by done. apply getitem_filter_eq.
    + intros n Hn. pose proof (rows_getitem _ _ _ _ Hn Hd) as Hlen.
      apply rows_setitem; [|by rewrite to_numeric_length, length_map].
      apply rows_filter.
      repeat (apply rows_setitem; [|by rewrite length_map]). exact Hn.
Qed.

(** X12: the outcome of [split_demographics] on any frame. It raises
    [KeyError] when there is no [demographics] column; it raises when that
    column holds no text (which exception depends on the type of the
    column); it raises [KeyError] for the position [n] when the column holds
    a text and its longest record has [n < 3] components. In every other
    case it succeeds: gender and residence are the mapped stripped pieces 0
    and 2 of each record, age is the column of the stripped pieces 1 made
    numeric as a whole, with one cell per record; a record with too few
    components gives an absent piece; [demographics] is gone; every other
    column is untouched; and the number of rows is kept. *)
Theorem X12_split_demographics_outcome pd df :
  match getitem df "demographics" with
  | Raise _ =>
      PrisonerDataTransformer.split_demographics pd df
      = Raise (KeyError (KName "demographics"))
  | Ok demographics =>
      if negb (existsb is_text demographics)
      then exists e, PrisonerDataTransformer.split_demographics pd df = Raise e
      else if (longest demographics <? 3)%nat
      then PrisonerDataTransformer.split_demographics pd df
           = Raise (KeyError (KPos (longest demographics)))
      else
        exists out,
          PrisonerDataTransformer.split_demographics pd df = Ok out
          /\ getitem out "gender"
             = Ok (map (fun v => PrisonerDataTransformer.safe_map (piece 0 v)
                                   PrisonerDataTransformer.gender_mapping)
                     demographics)
          /\ getitem out "age" = Ok (to_numeric pd (map (piece 1) demographics))
          /\ length (to_numeric pd (map (piece 1) demographics)) = length demographics
          /\ getitem out "residence"
             = Ok (map (fun v => PrisonerDataTransformer.safe_map (piece 2 v)
                                   PrisonerDataTransformer.residence_mapping)
                     demographics)
          /\ getitem out "demographics" = Raise (KeyError (KName "demographics"))
          /\ (forall other,
                ~ In other ("demographics"%string :: split_names) ->
                getitem out other = getitem df other)
          /\ (forall k v, In v demographics -> (components v <= k)%nat ->
                piece k v = NA)
          /\ (forall n, rows n df -> rows n out)
  end.
Proof.
  pose proof (split_demographics_outcome pd df) as H.
  pose proof (split_error_cases df) as Hc.
  destruct (getitem df "demographics") as [demographics|e0] eqn:Hd0.
  2:{ by rewrite Hc in H. }
  destruct (existsb is_text demographics); cbn [negb].
  2:{ destruct Hc as [e He]. rewrite He in H. eauto. }
  rewrite Hc in H.
  destruct (longest demographics <? 3)%nat; [exact H|].
  destruct H as (demographics' & out & Hd & Hout & Hdm & Hrows).
  injection Hd as <-.
  exists out. split; [exact Hout|].
  destruct (split_demographics_Ok _ _ _ _ Hd0 Hout) as (Hg & Ha & Hr & Hother).
  split; [exact Hg|]. split; [exact Ha|].
  split; [by rewrite to_numeric_length, length_map|]. split; [exact Hr|].
  split; [exact Hdm|]. split; [|split; [|exact Hrows]].
  - intros other Hno. cbn [In split_names] in Hno. apply Hother; intros ->; tauto.
  - intros k v _. apply piece_missing.
Qed.

Lemma has_column_same df df' name :
  getitem df' name = getitem df name -> has_column df' name = has_column df name.
Proof.
  intros H. destruct (has_column df name) eqn:E.
  - apply has_column_iff in E as [c E]. apply has_column_iff. exists c. congruence.
  - destruct (has_column df' name) eqn:E'; [|done].
    apply has_column_iff in E' as [c E']. rewrite H in E'.
    apply has_column_getitem in E'. congruence.
Qed.

Lemma column_rules_names pd clk : map fst (column_rules pd clk) = required_columns.
Proof. reflexivity. Qed.

Lemma required_columns_NoDup : NoDup required_columns.
Proof.
  apply (bool_decide_eq_true_1 (NoDup required_columns)). reflexivity.
Qed.

(** After a successful split the frame has the required columns that the
    raw frame had. *)
Lemma first_missing_after_split pd df out :
  PrisonerDataTransformer.split_demographics pd df = Ok out ->
  find (fun name => negb (has_column out name)) required_columns = first_missing df.
Proof.
  intros Hs. destruct (split_demographics_has_demographics _ _ _ Hs) as [d Hd].
  destruct (split_demographics_Ok _ _ _ _ Hd Hs) as (_ & _ & _ & Hother).
  unfold first_missing.
  assert (Hall : Forall (fun name => has_column out name = has_column df name)
                   required_columns).
  { repeat constructor; apply has_column_same, Hother; done. }
  induction Hall as [|name names Hn Hall IH]; [done|].
  cbn [find]. rewrite Hn. destruct (negb (has_column df name)); [done | exact IH].
Qed.

(** The outcome of the transformer's [transform_data] on any frame. *)
Lemma transform_outcome pd clk df :
  match split_error df with
  | Some e => PrisonerDataTransformer.transform_data pd clk df = Raise e
  | None =>
      match first_missing df with
      | Some name =>
          PrisonerDataTransformer.transform_data pd clk df
          = Raise (KeyError (KName name))
      | None =>
          exists demographics out,
            getitem df "demographics" = Ok demographics
            /\ PrisonerDataTransformer.transform_data pd clk df = Ok out
            /\ getitem out "gender"
               = Ok (map (fun v => PrisonerDataTransformer.safe_map (piece 0 v)
                                     PrisonerDataTransformer.gender_mapping)
                       demographics)
            /\ getitem out "age" = Ok (to_numeric pd (map (piece 1) demographics))
            /\ getitem out "residence"
               = Ok (map (fun v => PrisonerDataTransformer.safe_map (piece 2 v)
                                     PrisonerDataTransformer.residence_mapping)
                       demographics)
            /\ getitem out "demographics" = Raise (KeyError (KName "demographics"))
            /\ (forall name f, In (name, f) (column_rules pd clk) ->
                  exists c, getitem df name = Ok c
                            /\ getitem out name = Ok (map f c))
            /\ (forall other,
                  ~ In other ("demographics"%string :: split_names ++ required_columns) ->
                  getitem out other = getitem df other)
            /\ (forall n, rows n df -> rows n out)
      end
  end.
Proof.
  rewrite transform_data_rules.
  pose proof (split_demographics_outcome pd df) as Hsplit.
  destruct (split_error df) as [e|]; [by rewrite Hsplit|].
  destruct Hsplit as (demographics & df1 & Hd & Hs & Hdm & Hrows).
  destruct (split_demographics_Ok _ _ _ _ Hd Hs) as (Hg & Ha & Hr & Hother0).
  assert (Hother : forall other,
            ~ In other ("demographics"%string :: split_names) ->
            getitem df1 other = getitem df other).
  { intros other Hno. cbn [In split_names] in Hno.
    apply Hother0; intros ->; tauto. }
  rewrite Hs. cbn [mbind result_bind].
  pose proof (apply_columns_spec (column_rules pd clk) df1) as Hrules.
  rewrite column_rules_names in Hrules. specialize (Hrules required_columns_NoDup).
  rewrite (first_missing_after_split _ _ _ Hs) in Hrules.
  destruct (apply_columns df1 (column_rules pd clk)) as [out|e].
  - destruct Hrules as (-> & Hall & Hkeep & Hrows2).
    exists demographics, out. split; [exact Hd|]. split; [reflexivity|].
    rewrite !Hkeep by (cbn; intuition discriminate).
    split; [exact Hg|]. split; [exact Ha|]. split; [exact Hr|].
    split; [exact Hdm|]. split; [|split].
    + intros name f Hin. destruct (Hall name f Hin) as (c & H1 & H2).
      exists c. split; [|exact H2]. rewrite <- H1. symmetry. apply Hother.
      apply (in_map fst) in Hin. rewrite column_rules_names in Hin.
      cbn in Hin |- *. intuition (subst; discriminate).
    + intros other Hno. rewrite Hkeep.
      * apply Hother. intros Hin. apply Hno. cbn [In] in Hin |- *.
        rewrite in_app_iff. tauto.
      * intros Hin. apply Hno. right. rewrite in_app_iff. tauto.
    + intros n Hn. by apply Hrows2, Hrows.
  - destruct Hrules as (name & -> & ->). reflexivity.
Qed.

(** X13: the outcome of the transformer's [transform_data] on any frame.
    It raises where [split_demographics] raises: [KeyError] when there is
    no [demographics] column, some exception when that column holds no
    text, [KeyError] for the position [n] when it holds a text and its
    longest record has [n < 3] components. Otherwise it raises [KeyError]
    for the first of [birth_date], [arrest_date], [organization],
    [israeli_citizenship], [status], [court], [deportation_status] that the
    frame lacks. Otherwise it succeeds, and then each of these seven
    columns is the input column with its rule applied cell by cell, gender,
    age and residence come from the split, the age column being made
    numeric as a whole, [demographics] is gone, every other column is the
    input column unchanged, and the number of rows is kept. *)
Theorem X13_transform_outcome pd clk df :
  match getitem df "demographics" with
  | Raise _ =>
      PrisonerDataTransformer.transform_data pd clk df
      = Raise (KeyError (KName "demographics"))
  | Ok demographics =>
      if negb (existsb is_text demographics)
      then exists e, PrisonerDataTransformer.transform_data pd clk df = Raise e
      else if (longest demographics <? 3)%nat
      then PrisonerDataTransformer.transform_data pd clk df
           = Raise (KeyError (KPos (longest demographics)))
      else
        match first_missing df with
        | Some name =>
            PrisonerDataTransformer.transform_data pd clk df
            = Raise (KeyError (KName name))
        | None =>
            exists out,
              PrisonerDataTransformer.transform_data pd clk df = Ok out
              /\ getitem out "gender"
                 = Ok (map (fun v => PrisonerDataTransformer.safe_map (piece 0 v)
                                       PrisonerDataTransformer.gender_mapping)
                         demographics)
              /\ getitem out "age" = Ok (to_numeric pd (map (piece 1) demographics))
              /\ getitem out "residence"
                 = Ok (map (fun v => PrisonerDataTransformer.safe_map (piece 2 v)
                                       PrisonerDataTransformer.residence_mapping)
                         demographics)
              /\ getitem out "demographics"
                 = Raise (KeyError (KName "demographics"))
              /\ (forall name f, In (name, f) (column_rules pd clk) ->
                    exists c, getitem df name = Ok c
                              /\ getitem out name = Ok (map f c))
              /\ (forall other,
                    ~ In other ("demographics"%string
                                :: split_names ++ required_columns) ->
                    getitem out other = getitem df other)
              /\ (forall n, rows n df -> rows n out)
        end
  end.
Proof.
  pose proof (transform_outcome pd clk df) as H.
  pose proof (split_error_cases df) as Hc.
  destruct (getitem df "demographics") as [demographics|e0] eqn:Hd0.
  2:{ by rewrite Hc in H. }
  destruct (existsb is_text demographics); cbn [negb].
  2:{ destruct Hc as [e He]. rewrite He in H. eauto. }
  rewrite Hc in H.
  destruct (longest demographics <? 3)%nat; [exact H|].
  destruct (first_missing df) as [name|]; [exact H|].
  destruct H as (demographics' & out & Hd & H). injection Hd as <-.
  by exists out.
Qed.
(** ** The Validator *)

Lemma count_into_keys w acc :
  map fst (count_into w acc)
  = if existsb (fun k => bool_decide (k = w)) (map fst acc)
    then map fst acc else map fst acc ++ [w].
Proof.
  induction acc as [|[k n] acc IH]; cbn [count_into map fst existsb]; [done|].
  destruct (bool_decide (k = w)); cbn [orb map fst]; [done|].
  rewrite IH. by destruct (existsb _ (map fst acc)).
Qed.

Lemma count_into_NoDup w acc :
  NoDup (map fst acc) -> NoDup (map fst (count_into w acc)).
Proof.
  intros Hnd. rewrite count_into_keys.
  destruct (existsb _ (map fst acc)) eqn:E; [done|].
  apply NoDup_app. split; [done|]. split; [|apply NoDup_singleton].
  intros x Hx ->%list_elem_of_singleton.
  assert (existsb (fun k => bool_decide (k = w)) (map fst acc) = true); [|congruence].
  apply existsb_exists. exists w.
  split; [by apply list_elem_of_In | by apply bool_decide_eq_true].
Qed.

Lemma count_into_count v w acc :
  count_of v (count_into w acc)
  = (count_of v acc + if bool_decide (w = v) then 1 else 0)%nat.
Proof.
  unfold count_of. induction acc as [|[k n] acc IH]; cbn [count_into find fst snd].
  - destruct (bool_decide (w = v)); reflexivity.
  - destruct (bool_decide (k = w)) eqn:Ekw; cbn [find fst snd].
    + apply bool_decide_eq_true in Ekw. subst k.
      destruct (bool_decide (w = v)); cbn [snd]; lia.
    + destruct (bool_decide (k = v)) eqn:Ekv; cbn [snd]; [|exact IH].
      apply bool_decide_eq_true in Ekv. subst k.
      rewrite bool_decide_eq_false in Ekw.
      rewrite (bool_decide_eq_false_2 (w = v)) by congruence. lia.
Qed.

Lemma count_into_sum w acc : sum_counts (count_into w acc) = S (sum_counts acc).
Proof.
  unfold sum_counts. induction acc as [|[k n] acc IH]; cbn [count_into map snd foldr];
    [done|].
  destruct (bool_decide (k = w)); cbn [map snd foldr]; [done|].
  rewrite IH. lia.
Qed.

(** The invariant of the fold of [value_counts]. *)
Lemma value_counts_fold c : forall acc,
  NoDup (map fst acc) ->
  let result := foldl (fun acc v => if isna v then acc else count_into v acc) acc c in
  NoDup (map fst result)
  /\ (forall v, count_of v result
                = (count_of v acc
                   + if isna v then 0 else count_occ value_eq_dec c v)%nat)
  /\ sum_counts result
     = (sum_counts acc + length (List.filter (fun v => negb (isna v)) c))%nat.
Proof.
  induction c as [|x c IH]; intros acc Hnd; cbn [foldl].
  - split; [done|]. split; [|cbn; lia].
    intros v. cbn [count_occ]. destruct (isna v); lia.
  - destruct (isna x) eqn:Ex.
    + destruct (IH acc Hnd) as (H1 & H2 & H3). split; [exact H1|]. split.
      * intros v. rewrite H2. cbn [count_occ].
        destruct (isna v) eqn:Ev; [done|].
        destruct (value_eq_dec x v) as [->|]; [congruence | done].
      * rewrite H3. cbn [List.filter]. by rewrite Ex.
    + destruct (IH (count_into x acc) (count_into_NoDup _ _ Hnd)) as (H1 & H2 & H3).
      split; [exact H1|]. split.
      * intros v. rewrite H2, count_into_count. cbn [count_occ].
        destruct (value_eq_dec x v) as [->|Hne].
        -- rewrite bool_decide_eq_true_2 by done. rewrite Ex. lia.
        -- rewrite bool_decide_eq_false_2 by done. destruct (isna v); lia.
      * rewrite H3, count_into_sum. cbn [List.filter]. rewrite Ex. cbn [negb length].
        lia.
Qed.


Lemma getitem_In df name c : getitem df name = Ok c -> In (name, c) df.
Proof.
  induction df as [|[n c0] df IH]; cbn [getitem]; [discriminate|].
  destruct (String.eqb n name) eqn:E.
  - apply String.eqb_eq in E. subst n. intros [= <-]. by left.
  - intros H. right. by apply IH.
Qed.

Lemma frame_len_rows n df name c :
  rows n df -> getitem df name = Ok c -> frame_len df = n.
Proof.
  intros Hr Hc. destruct df as [|[n0 c0] df]; [discriminate|].
  cbn [frame_len]. by inversion Hr.
Qed.

(** X15: [validate_data] never fails on a frame that the transformer's
    [transform_data] returned. Its statistics hold the distributions of the
    seven categorical columns in the order of the source, the cells of the
    age column, which is the column of the stripped second components made
    numeric as a whole, with the absent ones left out, for each column its
    number of absent cells, and as total the number of rows of the input. *)
Theorem X15_validate_after_transform pd clk df out :
  PrisonerDataTransformer.transform_data pd clk df = Ok out ->
  exists st demographics,
    PrisonerDataTransformer.validate_data out = Ok st
    /\ getitem df "demographics" = Ok demographics
    /\ map fst (value_distributions st) = distribution_columns
    /\ (forall name c, getitem out name = Ok c ->
          In name distribution_columns ->
          In (name, value_counts c) (value_distributions st))
    /\ age_stats st
       = List.filter (fun v => negb (isna v))
           (to_numeric pd (map (piece 1) demographics))
    /\ (forall name c, getitem out name = Ok c ->
          In (name, length (List.filter isna c)) (null_values st))
    /\ (forall n, rows n df -> total_records st = n).
Proof.
  intros Hout. pose proof (transform_outcome pd clk df) as H.
  destruct (split_error df) as [e|]; [congruence|].
  destruct (first_missing df) as [name|]; [congruence|].
  destruct H as (demographics & out' & Hd & Hout' & Hg & Ha & Hr & _ & Hrules & _ & Hrows).
  assert (out' = out) as -> by congruence.
  assert (Hrule : forall name, In name required_columns ->
                    exists c, getitem out name = Ok c).
  { intros name Hin. rewrite <- (column_rules_names pd clk) in Hin.
    apply in_map_iff in Hin as ([n f] & <- & Hin).
    destruct (Hrules n f Hin) as (c & _ & Hc). eauto. }
  destruct (Hrule "organization"%string) as [co Hco]; [cbn; tauto|].
  destruct (Hrule "israeli_citizenship"%string) as [ci Hci]; [cbn; tauto|].
  destruct (Hrule "status"%string) as [cs Hcs]; [cbn; tauto|].
  destruct (Hrule "court"%string) as [cc Hcc]; [cbn; tauto|].
  destruct (Hrule "deportation_status"%string) as [cd Hcd]; [cbn; tauto|].
  unfold PrisonerDataTransformer.validate_data, PrisonerDataTransformer.distribution.
  rewrite Hg, Hr, Hco, Hci, Hcs, Hcc, Hcd, Ha. cbn [mbind result_bind].
  eexists _, demographics. split; [reflexivity|]. split; [exact Hd|].
  cbn [value_distributions age_stats null_values total_records map fst].
  split; [reflexivity|]. split; [|split; [reflexivity|split]].
  - intros name c Hc Hin. cbn [distribution_columns In] in Hin.
    destruct Hin as [<-|[<-|[<-|[<-|[<-|[<-|[<-|[]]]]]]]];
      rewrite ?Hg, ?Hr, ?Hco, ?Hci, ?Hcs, ?Hcc, ?Hcd in Hc;
      injection Hc as <-; cbn [In]; tauto.
  - intros name c Hc. unfold PrisonerDataTransformer.null_counts.
    apply getitem_In in Hc.
    by apply (in_map (fun p : string * column => (p.1, length (List.filter isna p.2)))) in Hc.
  - intros n Hn. eapply frame_len_rows; [by apply Hrows | exact Hg].
Qed.

Lemma X15_validate_after_transform_witness :
  exists st,
    PrisonerDataTransformer.validate_data scenario_canonical = Ok st
    /\ age_stats st = [Int 30]
    /\ total_records st = 1%nat
    /\ In ("gender"%string, [(Text (u "MALE"), 1%nat)]) (value_distributions st)
    /\ In ("birth_date"%string, 1%nat) (null_values st).
Proof.
  destruct (X15_validate_after_transform sample_pandas clock_2024 scenario_row_full
              scenario_canonical)
    as (st & demographics & Hv & Hd & _ & Hdist & Hage & Hnull & Htotal).
  { vm_compute. reflexivity. }
  exists st. split; [exact Hv|].
  assert (demographics = [Text (u "זכר, 30, י-ם")]) as ->
    by (vm_compute in Hd; by injection Hd as <-).
  split; [rewrite Hage; vm_compute; reflexivity|].
  split; [apply Htotal; repeat constructor|].
  split.
  - apply (Hdist "gender"%string [Text (u "MALE")]); [reflexivity | cbn; tauto].
  - apply (Hnull "birth_date"%string [NA]). reflexivity.
Defined.

Lemma validate_data_total pd clk df out :
  PrisonerDataTransformer.transform_data pd clk df = Ok out ->
  exists st, PrisonerDataTransformer.validate_data out = Ok st.
Proof.
  intros Hout. pose proof (transform_outcome pd clk df) as H.
  destruct (split_error df) as [e|]; [congruence|].
  destruct (first_missing df) as [name|]; [congruence|].
  destruct H as (demographics & out' & Hd & Hout' & Hg & Ha & Hr & _ & Hrules & _).
  assert (out' = out) as -> by congruence.
  assert (Hrule : forall name, In name required_columns ->
                    exists c, getitem out name = Ok c).
  { intros name Hin. rewrite <- (column_rules_names pd clk) in Hin.
    apply in_map_iff in Hin as ([n f] & <- & Hin).
    destruct (Hrules n f Hin) as (c & _ & Hc). eauto. }
  destruct (Hrule "organization"%string) as [co Hco]; [cbn; tauto|].
  destruct (Hrule "israeli_citizenship"%string) as [ci Hci]; [cbn; tauto|].
  destruct (Hrule "status"%string) as [cs Hcs]; [cbn; tauto|].
  destruct (Hrule "court"%string) as [cc Hcc]; [cbn; tauto|].
  destruct (Hrule "deportation_status"%string) as [cd Hcd]; [cbn; tauto|].
  unfold PrisonerDataTransformer.validate_data, PrisonerDataTransformer.distribution.
  rewrite Hg, Hr, Hco, Hci, Hcs, Hcc, Hcd, Ha. cbn [mbind result_bind]. eauto.
Qed.

Lemma input_error_none w raw :
  files w !! raw_csv = Some raw -> raw_csv ∉ dirs w -> input_error w = None.
Proof.
  intros Hraw Hd. unfold input_error.
  by rewrite (is_dir_false raw_csv w eq_refl Hd), Hraw.
Qed.

Lemma save_outputs_both out st w :
  "output"%string ∈ dirs w -> transformed_csv ∉ dirs w -> stats_md ∉ dirs w ->
  save_outputs out st w
  = (Ok tt,
     set_log (log w ++ [(INFO, TransformedSaved transformed_csv);
                        (INFO, StatsSaved stats_md)])
       (set_files (<[stats_md := ReportOf st]>
                     (<[transformed_csv := CsvOf out]> (files w))) w)).
Proof.
  intros Ho Ht Hs. unfold save_outputs.
  by rewrite (is_dir_true _ _ Ho), (is_dir_false transformed_csv w eq_refl Ht),
    (is_dir_false stats_md w eq_refl Hs).
Qed.

Lemma save_outputs_report_is_directory out st w :
  "output"%string ∈ dirs w -> transformed_csv ∉ dirs w -> stats_md ∈ dirs w ->
  save_outputs out st w
  = (Ok tt,
     set_log (log w ++ [(ERROR, ErrorOccurred IsADirectoryError)])
       (set_files (<[transformed_csv := CsvOf out]> (files w)) w)).
Proof.
  intros Ho Ht Hs. unfold save_outputs.
  by rewrite (is_dir_true _ _ Ho), (is_dir_false transformed_csv w eq_refl Ht),
    (is_dir_true _ _ Hs).
Qed.

Lemma save_outputs_no_directory out st w :
  "output"%string ∉ dirs w -> save_outputs out st w = transform_failed OSError w.
Proof.
  intros Ho. unfold save_outputs.
  by rewrite (is_dir_false "output" w eq_refl Ho).
Qed.

(** X16: the outcome of the module-level [transform_data] once the raw
    file is read. When the frame lacks what the transformer needs, a
    [demographics] column with some record of three components or more and
    the seven other columns it reads, it writes nothing and logs, as an
    error, the exception of the split or the [KeyError] of the first missing
    column. Otherwise it computes the output frame and the statistics and
    saves them: both files and two informational entries when [output] is
    a directory and neither output path is one; nothing and one error,
    [OSError], when [output] is not a directory; the transformed CSV alone
    and one error, [IsADirectoryError], when a directory bears the name of
    the report. *)
Theorem X16_transform_stage_outcome pd w raw df :
  files w !! raw_csv = Some raw ->
  raw_csv ∉ dirs w ->
  read_csv pd raw = Ok df ->
  match split_error df with
  | Some e => transform_data pd w = transform_failed e w
  | None =>
      match first_missing df with
      | Some name => transform_data pd w = transform_failed (KeyError (KName name)) w
      | None =>
          exists out st,
            PrisonerDataTransformer.transform_data pd (now w) df = Ok out
            /\ PrisonerDataTransformer.validate_data out = Ok st
            /\ transform_data pd w = save_outputs out st w
            /\ ("output"%string ∈ dirs w -> transformed_csv ∉ dirs w ->
                stats_md ∉ dirs w ->
                transform_data pd w
                = (Ok tt,
                   set_log (log w ++ [(INFO, TransformedSaved transformed_csv);
                                      (INFO, StatsSaved stats_md)])
                     (set_files (<[stats_md := ReportOf st]>
                                   (<[transformed_csv := CsvOf out]> (files w))) w)))
            /\ ("output"%string ∉ dirs w ->
                transform_data pd w = transform_failed OSError w)
            /\ ("output"%string ∈ dirs w -> transformed_csv ∉ dirs w ->
                stats_md ∈ dirs w ->
                transform_data pd w
                = (Ok tt,
                   set_log (log w ++ [(ERROR, ErrorOccurred IsADirectoryError)])
                     (set_files (<[transformed_csv := CsvOf out]> (files w)) w)))
      end
  end.
Proof.
  intros Hraw Hdir Hread.
  rewrite transform_data_eq, (input_error_none _ _ Hraw Hdir), Hraw, Hread.
  pose proof (transform_outcome pd (now w) df) as H.
  destruct (split_error df) as [e|]; [by rewrite H|].
  destruct (first_missing df) as [name|]; [by rewrite H|].
  destruct H as (demographics & out & _ & Hout & _).
  destruct (validate_data_total _ _ _ _ Hout) as [st Hst].
  exists out, st. rewrite Hout, Hst.
  split; [done|]. split; [done|]. split; [done|]. split; [|split].
  - apply save_outputs_both.
  - apply save_outputs_no_directory.
  - apply save_outputs_report_is_directory.
Qed.

Lemma X16_transform_stage_outcome_witness :
  exists st,
    transform_data sample_pandas full_scenario_world
    = (Ok tt,
       set_log [(INFO, TransformedSaved transformed_csv); (INFO, StatsSaved stats_md)]
         (set_files (<[stats_md := ReportOf st]>
                       (<[transformed_csv := CsvOf scenario_canonical]>
                          {[ raw_csv := CsvOf scenario_row_full ]}))
            full_scenario_world)).
Proof.
  assert (Hd : raw_csv ∉ dirs full_scenario_world)
    by (apply (bool_decide_eq_false_1 (raw_csv ∈ dirs full_scenario_world));
        vm_compute; reflexivity).
  pose proof (X16_transform_stage_outcome sample_pandas full_scenario_world
                (CsvOf scenario_row_full) scenario_row_full eq_refl Hd eq_refl) as H.
  change (split_error scenario_row_full) with (@None exn) in H.
  change (first_missing scenario_row_full) with (@None string) in H.
  destruct H as (out & st & Hout & _ & _ & H & _).
  assert (out = scenario_canonical) as ->
    by (vm_compute in Hout; by injection Hout as <-).
  exists st. apply H.
  - apply (bool_decide_eq_true_1 ("output"%string ∈ dirs full_scenario_world)).
    vm_compute. reflexivity.
  - apply (bool_decide_eq_false_1 (transformed_csv ∈ dirs full_scenario_world)).
    vm_compute. reflexivity.
  - apply (bool_decide_eq_false_1 (stats_md ∈ dirs full_scenario_world)).
    vm_compute. reflexivity.
Defined.
(** ** Numbers and whitespace *)

Lemma digits_value_acc d : forall acc,
  digits_value (Z.pos acc) (uint_digits d) = Some (Z.pos (Pos.of_uint_acc d acc)).
Proof.
  induction d; intros acc; cbn [uint_digits digits_value Pos.of_uint_acc];
    [reflexivity | ..];
    (match goal with
     | |- context [digit_value ?c] =>
         change (digit_value c) with (Some (Z.of_N c - 48))
     end;
     cbn [Z.of_N Z.sub Z.add Z.opp Z.pos_sub Pos.pred_double Z.double
            Z.succ_double Z.pred_double];
     rewrite <- IHd; f_equal; lia).
Qed.

Lemma digits_value_zero d :
  digits_value 0 (uint_digits d) = Some (Z.of_N (Pos.of_uint d)).
Proof.
  induction d; cbn [uint_digits digits_value Pos.of_uint]; [reflexivity | ..];
    (match goal with
     | |- context [digit_value ?c] =>
         change (digit_value c) with (Some (Z.of_N c - 48))
     end;
     cbn [Z.of_N Z.sub Z.add Z.opp Z.pos_sub Pos.pred_double Z.double
            Z.succ_double Z.pred_double Z.mul];
     first [exact IHd | rewrite <- digits_value_acc; reflexivity]).
Qed.

Lemma decimal_not_empty z : decimal z <> [].
Proof.
  unfold decimal. intros H.
  assert (Hn : N.to_uint (Z.to_N z) = Decimal.Nil)
    by (destruct (N.to_uint (Z.to_N z)); cbn in H; congruence).
  pose proof (DecimalN.Unsigned.of_to (Z.to_N z)) as Hof.
  rewrite Hn in Hof. cbn in Hof. rewrite <- Hof in Hn. discriminate Hn.
Qed.

(** Reading back the decimal digits of a natural number gives the number. *)
Lemma unsigned_literal_decimal z : 0 <= z -> unsigned_literal (decimal z) = Some z.
Proof.
  intros Hz. unfold unsigned_literal.
  pose proof (decimal_not_empty z) as Hne.
  destruct (decimal z) as [|c s] eqn:E; [done|]. rewrite <- E. unfold decimal.
  rewrite digits_value_zero.
  change (Pos.of_uint (N.to_uint (Z.to_N z))) with (N.of_uint (N.to_uint (Z.to_N z))).
  rewrite DecimalN.Unsigned.of_to. f_equal. lia.
Qed.

Lemma decimal_head_digit z c s :
  decimal z = c :: s -> (c =? 45)%N = false /\ (c =? 43)%N = false.
Proof.
  unfold decimal. destruct (N.to_uint (Z.to_N z)); cbn [uint_digits];
    intros [= <- _]; by split.
Qed.

Lemma lstrip_decompose s :
  exists l, s = l ++ lstrip s /\ forallb is_space l = true.
Proof.
  induction s as [|c s (l & Hl & Hsp)]; cbn [lstrip].
  - by exists [].
  - destruct (is_space c) eqn:E.
    + exists (c :: l). cbn [app forallb]. rewrite E, Hsp. split; [by f_equal | done].
    + by exists [].
Qed.

Lemma decimal_characters z :
  Forall (fun c => is_space c = false /\ c <> comma) (decimal z).
Proof.
  unfold decimal. induction (N.to_uint (Z.to_N z)); cbn [uint_digits];
    constructor; try done.
Qed.

Lemma decimal_trimmed z : trimmed (decimal z).
Proof.
  pose proof (decimal_characters z) as H. split; intros c Hc.
  - destruct (decimal z) as [|a s]; [done|]. injection Hc as ->.
    by apply Forall_cons_1 in H as [[? _] _].
  - apply last_Some in Hc as [s' Hs]. rewrite Hs in H.
    by apply Forall_app in H as [_ [[? _] _]%Forall_cons_1].
Qed.

(** The decimal writing of a natural number reads back as that number. *)
Lemma int_literal_decimal z : 0 <= z -> int_literal (decimal z) = Some z.
Proof.
  intros Hz. pose proof (unsigned_literal_decimal z Hz) as Hu.
  unfold int_literal. destruct (decimal z) as [|c s] eqn:E;
    [by apply decimal_not_empty in E|].
  by destruct (decimal_head_digit _ _ _ E) as [-> ->].
Qed.

(** The cells of a converted column: every cell is converted the same way,
    as a float or as an integer, by what the whole column holds. *)
Lemma to_numeric_lookup pd (c : column) i :
  to_numeric pd c !! i
  = (fun v => if float_column (map (read_numeral pd) c)
              then as_float (read_numeral pd v)
              else as_integer (read_numeral pd v)) <$> c !! i.
Proof.
  unfold to_numeric. destruct (float_column _);
    by rewrite !list_lookup_fmap; destruct (c !! i).
Qed.

(** A column all of whose cells write integers of the [int64] range stays
    integral. *)
Lemma integral_column pd (c : column) :
  forallb reads_int64 c = true -> float_column (map (read_numeral pd) c) = false.
Proof.
  intros Hc. unfold float_column.
  assert (H : existsb forces_float (map (read_numeral pd) c) = false
              /\ existsb is_uint (map (read_numeral pd) c) = false).
  { induction c as [|v c IH]; [done|]. cbn [forallb] in Hc.
    apply andb_true_iff in Hc as [Hv Hc]. destruct (IH Hc) as [IH1 IH2].
    cbn [map existsb]. rewrite IH1, IH2, !orb_false_r.
    destruct v as [|s|z|lit]; try discriminate Hv.
    cbn [reads_int64] in Hv. cbn [read_numeral].
    destruct (int_literal s) as [z|]; [|discriminate Hv].
    apply andb_true_iff in Hv as [Hlo Hhi].
    apply Z.leb_le in Hlo. apply Z.ltb_lt in Hhi.
    cbn [forces_float is_uint]. split.
    - apply orb_false_iff. split; apply Z.ltb_ge; lia.
    - apply andb_false_iff. left. apply Z.ltb_ge. lia. }
  destruct H as [-> ->]. reflexivity.
Qed.

Lemma lstrip_spaces l s : forallb is_space l = true -> lstrip (l ++ s) = lstrip s.
Proof.
  induction l as [|c l IH]; cbn [forallb app lstrip]; [done|].
  intros [-> Hl]%andb_true_iff. by apply IH.
Qed.

Lemma forallb_rev {A} (p : A -> bool) l : forallb p (rev l) = forallb p l.
Proof.
  induction l as [|x l IH]; [done|]. cbn [rev forallb].
  rewrite forallb_app, IH. cbn [forallb]. rewrite andb_true_r. apply andb_comm.
Qed.

Lemma rstrip_spaces s r : forallb is_space r = true -> rstrip (s ++ r) = rstrip s.
Proof.
  intros Hr. unfold rstrip. rewrite rev_app_distr, lstrip_spaces; [done|].
  by rewrite forallb_rev.
Qed.

(** Whitespace around a trimmed text is what [strip] removes. *)
Lemma strip_padded l s r :
  forallb is_space l = true -> forallb is_space r = true -> trimmed s ->
  strip (l ++ s ++ r) = s.
Proof.
  intros Hl Hr Hs. destruct s as [|a s].
  - unfold strip. rewrite lstrip_spaces by done. cbn [app].
    destruct (lstrip_decompose r) as (l' & Hdec & Hl').
    assert (Hnil : lstrip r = []).
    { clear -Hr. induction r as [|c r IH]; [done|]. cbn [forallb] in Hr.
      apply andb_true_iff in Hr as [Hc Hr]. cbn [lstrip]. rewrite Hc. by apply IH. }
    by rewrite Hnil.
  - unfold strip. rewrite lstrip_spaces by done.
    rewrite lstrip_fixed.
    + rewrite rstrip_spaces by done. fold (strip (a :: s)).
      rewrite <- (strip_fixed (a :: s) Hs) at 2. unfold strip.
      by rewrite (lstrip_fixed (a :: s) (proj1 Hs)).
    + intros c [= <-]. by apply (proj1 Hs).
Qed.

Lemma whitespace_no_comma l : forallb is_space l = true -> comma ∉ l.
Proof.
  intros Hl Hin. apply list_elem_of_In in Hin.
  rewrite forallb_forall in Hl. by apply Hl in Hin.
Qed.

Lemma split_app_sep sep a rest :
  sep ∉ a -> split sep (a ++ sep :: rest) = a :: split sep rest.
Proof.
  induction a as [|c a IH]; intros Ha; cbn [app split].
  - by rewrite N.eqb_refl.
  - apply not_elem_of_cons in Ha as [Hc Ha].
    destruct (N.eqb_spec c sep) as [->|_]; [done|]. by rewrite IH.
Qed.

Lemma split_none sep a : sep ∉ a -> split sep a = [a].
Proof.
  induction a as [|c a IH]; intros Ha; cbn [split]; [done|].
  apply not_elem_of_cons in Ha as [Hc Ha].
  destruct (N.eqb_spec c sep) as [->|_]; [done|]. by rewrite IH.
Qed.

(** The second component of a text whose first two components have no
    comma, whatever follows. *)
Lemma split_second g m more :
  comma ∉ g -> comma ∉ m -> split comma (join comma (g :: m :: more)) !! 1%nat = Some m.
Proof.
  intros Hg Hm. change (join comma (g :: m :: more))
    with (g ++ comma :: join comma (m :: more)).
  rewrite split_app_sep by done. cbn [lookup list_lookup].
  destruct more as [|p more].
  - cbn [join]. by rewrite split_none.
  - change (join comma (m :: p :: more)) with (m ++ comma :: join comma (p :: more)).
    by rewrite split_app_sep.
Qed.

(** X17: how [split_demographics] reads an age. When it succeeds, a
    record whose second comma-separated component is the decimal writing
    of an integer [0 <= z < 2^63], with any whitespace around it, has the
    number [z] as its age, whatever its other components are and whatever
    the float parser does: the integer [z] when the age column stays
    integral, as it does when every record writes an integer of the [int64]
    range, and otherwise the float read from the digits of [z]. *)
Theorem X17_age_of_a_record pd df out demographics i g l z r more :
  PrisonerDataTransformer.split_demographics pd df = Ok out ->
  getitem df "demographics" = Ok demographics ->
  demographics !! i = Some (Text (join comma (g :: (l ++ decimal z ++ r) :: more))) ->
  comma ∉ g ->
  forallb is_space l = true ->
  forallb is_space r = true ->
  0 <= z < 2 ^ 63 ->
  exists ages,
    getitem out "age" = Ok ages
    /\ ages !! i
       = Some (if float_column (map (read_numeral pd) (map (piece 1) demographics))
               then Float (decimal z) else Int z)
    /\ (forallb reads_int64 (map (piece 1) demographics) = true ->
        ages !! i = Some (Int z)).
Proof.
  intros Hout Hd Hi Hg Hl Hr Hz.
  destruct (split_demographics_Ok _ _ _ _ Hd Hout) as (_ & Ha & _).
  eexists. split; [exact Ha|].
  assert (Hp : piece 1 (Text (join comma (g :: (l ++ decimal z ++ r) :: more)))
               = Text (decimal z)).
  { unfold piece. rewrite split_second; [|done|].
    - by rewrite strip_padded by (done || apply decimal_trimmed).
    - intros Hin. apply elem_of_app in Hin as [Hin|Hin];
        [by apply (whitespace_no_comma l)|].
      apply elem_of_app in Hin as [Hin|Hin]; [|by apply (whitespace_no_comma r)].
      pose proof (decimal_characters z) as Hc.
      rewrite Forall_forall in Hc. by destruct (Hc _ Hin) as [_ Hne]. }
  assert (Hcell : to_numeric pd (map (piece 1) demographics) !! i
                  = Some (if float_column
                               (map (read_numeral pd) (map (piece 1) demographics))
                          then Float (decimal z) else Int z)).
  { rewrite to_numeric_lookup, list_lookup_fmap, Hi.
    cbn [fmap option_fmap option_map]. rewrite Hp. cbn [read_numeral].
    rewrite (int_literal_decimal z (proj1 Hz)). reflexivity. }
  split; [exact Hcell|].
  intros Hall. by rewrite Hcell, (integral_column pd _ Hall).
Qed.

Lemma X17_age_of_a_record_witness :
  exists out,
    PrisonerDataTransformer.split_demographics sample_pandas scenario_row_full = Ok out
    /\ exists ages, getitem out "age" = Ok ages /\ ages !! 0%nat = Some (Int 30).
Proof.
  eexists. split; [vm_compute; reflexivity|].
  match goal with
  | |- exists a, getitem ?out _ = _ /\ _ =>
      destruct (X17_age_of_a_record sample_pandas scenario_row_full out
                  [Text (u "זכר, 30, י-ם")] 0 (u "זכר") [32%N] 30 [] [u " י-ם"])
        as (ages & Ha & _ & Hint)
  end.
  - vm_compute. reflexivity.
  - vm_compute. reflexivity.
  - vm_compute. reflexivity.
  - apply (bool_decide_unpack _). vm_compute. exact I.
  - reflexivity.
  - reflexivity.
  - lia.
  - exists ages. split; [exact Ha|]. apply Hint. vm_compute. reflexivity.
Defined.

(** ** Dates *)

Lemma checked_range (P : Z -> bool) lo n :
  forallb (fun k => P (lo + Z.of_nat k)) (seq 0 n) = true ->
  forall z, lo <= z < lo + Z.of_nat n -> P z = true.
Proof.
  intros H z Hz. rewrite forallb_forall in H.
  replace z with (lo + Z.of_nat (Z.to_nat (z - lo))) by lia.
  apply H, in_seq. lia.
Qed.

Lemma four_digit_years z : 1677 <= z <= 2262 -> digits_of_width 4 z = true.
Proof.
  intros Hz. apply (checked_range (digits_of_width 4) 1677 586); [|lia].
  vm_compute. reflexivity.
Qed.

Lemma two_digit_fields z : 1 <= z <= 31 -> digits_of_width 2 z = true.
Proof.
  intros Hz. apply (checked_range (digits_of_width 2) 1 31); [|lia].
  vm_compute. reflexivity.
Qed.

(** [strftime('%Y-%m-%d')] of a date a [Timestamp] can hold has the shape
    [YYYY-MM-DD]. *)
Lemma strftime_iso d : timestamp_range d = true -> iso_date (strftime d) = true.
Proof.
  unfold timestamp_range. rewrite !andb_true_iff, !Z.leb_le.
  intros [[[[[Hy1 Hy2] Hm1] Hm2] Hd1] Hd2].
  pose proof (four_digit_years (year d) (conj Hy1 Hy2)) as Hy.
  pose proof (two_digit_fields (month d) ltac:(lia)) as Hm.
  pose proof (two_digit_fields (day d) ltac:(lia)) as Hd.
  unfold strftime. unfold digits_of_width in Hy, Hm, Hd.
  destruct (zfill 4 (decimal (year d))) as [|y1 [|y2 [|y3 [|y4 [|]]]]];
    try (cbn [length Nat.eqb andb] in Hy; discriminate Hy).
  destruct (zfill 2 (decimal (month d))) as [|m1 [|m2 [|]]];
    try (cbn [length Nat.eqb andb] in Hm; discriminate Hm).
  destruct (zfill 2 (decimal (day d))) as [|d1 [|d2 [|]]];
    try (cbn [length Nat.eqb andb] in Hd; discriminate Hd).
  cbn [length Nat.eqb andb forallb] in Hy, Hm, Hd.
  rewrite !andb_true_iff in Hy. rewrite !andb_true_iff in Hm.
  rewrite !andb_true_iff in Hd.
  destruct Hy as (? & ? & ? & ? & _), Hm as (? & ? & _), Hd as (? & ? & _).
  cbn [app iso_date forallb N.eqb Pos.eqb].
  rewrite !andb_true_iff. repeat split; assumption.
Qed.

Lemma format_date_iso pd clk v :
  (forall d, to_datetime pd clk v = Some d -> timestamp_range d = true) ->
  iso_cell (PrisonerDataTransformer.format_date pd clk v) = true.
Proof.
  intros H. unfold PrisonerDataTransformer.format_date.
  destruct (isna v); [done|].
  destruct (to_datetime pd clk v) as [d|]; [|done].
  cbn [iso_cell]. by apply strftime_iso, H.
Qed.



